(** * MemoriGraph: user lifecycle, session recording and profile search

    A shallow embedding of the Python service layer of MemoriGraph
    (utils/graph_operations.py, services/*.py, api/v1/routes/*.py, the
    exception handlers of app/main.py) and of the Cypher queries it sends to
    the graph store.

    - The graph store is a list of nodes and a list of relationships, in
      store order.  A Cypher [MATCH ... WHERE] is a [filter], [LIMIT 1] keeps
      the first match in store order, [count] is [length].  Cypher leaves
      open which row a [LIMIT 1] without [ORDER BY] returns; where a
      property would depend on it, the row returned is a parameter
      ([create_or_get_user_node_by]).
    - Python coroutines are computations in a state-and-exception monad [M]:
      the state is the store together with the trace of the backend calls
      issued and the log records written on the failure paths; exceptions
      are values, so that [try/except] is a function.  Informational log
      records are left out.
    - What the code cannot decide itself comes from an environment [Env],
      one per request: which backend call raises (and with which message),
      the clock, the identifiers drawn by uuid4, and what the knowledge
      engine extracts and how it ranks.  A backend call that raises leaves
      the store as it was.
    - The calls into the graphiti library (get_by_uuid, save, add_episode,
      search) are modelled as far as this repository relies on them; each
      model says so.
    - Requests are served one after the other; interleavings of concurrent
      requests are outside this development. *)

From Stdlib Require Import String Ascii List ZArith Lia Bool Arith PeanoNat.
From Stdlib Require Import DecimalString.
Import ListNotations.
Local Open Scope list_scope.
Local Open Scope string_scope.

(** ** The graph store *)

Module Store.

(** A stored node: its store identity [nid], its labels and the properties
    the queries of this repository read or write. *)
Record Node := mkNode {
  nid : nat;
  labels : list string;
  uuid : string;
  name : string;
  group_id : string;
  created_at : Z;
  summary : option string;
  attributes : list (string * string)
}.

(** The payload of a fact edge of the knowledge engine (EntityEdge). *)
Record EntityEdge := mkEdge {
  e_uuid : string;
  e_fact : string;
  e_valid_at : option Z;
  e_invalid_at : option Z
}.

(** A stored relationship between the nodes [src] and [dst]. *)
Record Rel := mkRel {
  rtype : string;
  src : nat;
  dst : nat;
  r_group_id : string;
  r_created_at : Z;
  edge : option EntityEdge
}.

Record Graph := mkGraph {
  nodes : list Node;
  rels : list Rel
}.

Definition empty : Graph := mkGraph [] [].

(** ['l' IN labels(n)], also the label test of a pattern [(n:l)]. *)
Definition has_label (l : string) (n : Node) : bool :=
  existsb (String.eqb l) (labels n).

(** The identity the store gives to the next created node. *)
Definition next_nid (g : Graph) : nat := S (list_max (map nid (nodes g))).

Definition add_node (n : Node) (g : Graph) : Graph :=
  mkGraph (nodes g ++ [n])%list (rels g).

Definition add_rels (rs : list Rel) (g : Graph) : Graph :=
  mkGraph (nodes g) (rels g ++ rs)%list.

(** [(a)-[r]-()]: the relationship [r] starts or ends at the node [a]. *)
Definition touches (r : Rel) (a : Node) : bool :=
  Nat.eqb (nid a) (src r) || Nat.eqb (nid a) (dst r).

(** [r] is incident to one of the nodes [ns]. *)
Definition incident (ns : list Node) (r : Rel) : bool :=
  existsb (touches r) ns.

End Store.
Import Store.

(** ** Exceptions, environment and the monad of coroutines *)

Inductive Exn :=
| Exception (msg : string)
| HTTPException (status_code : nat) (detail : string).

Definition str_nat (n : nat) : string := NilZero.string_of_uint (Nat.to_uint n).
Definition str_int (z : Z) : string := NilZero.string_of_int (Z.to_int z).

(** [str(e)].  An HTTPException prints as its status and its detail. *)
Definition str_exn (e : Exn) : string :=
  match e with
  | Exception msg => msg
  | HTTPException c d => str_nat c ++ ": " ++ d
  end.

(** The awaited calls into the graph driver, the knowledge engine and the
    embedder, one constructor per call site. *)
Inductive Site :=
| FindUserLookup      (* graph_operations.py, create_or_get_user_node: execute_query *)
| LookupGetByUuid     (* graph_operations.py, create_or_get_user_node: EntityNode.get_by_uuid *)
| GenerateEmbedding   (* graph_operations.py: generate_name_embedding *)
| SaveUserNode        (* graph_operations.py: user_node.save *)
| LinkQuery           (* graph_operations.py, link_sessions_to_user: execute_query *)
| AddEpisode          (* graph_operations.py, add_session_to_graph: graphiti.add_episode *)
| DeleteCountQuery    (* graph_operations.py, delete_user_data: count query *)
| DeleteQuery         (* graph_operations.py, delete_user_data: delete query *)
| SessionCountQuery   (* session_service.py, _get_next_session_number *)
| EngineSearch        (* profile_service.py: graphiti.search *)
| GetUserQuery        (* routes/users.py, get_user: execute_query *)
| SessionFindUser     (* routes/sessions.py, create_session: execute_query *)
| SessionGetByUuid.   (* routes/sessions.py, create_session: EntityNode.get_by_uuid *)

Definition Site_eqb (a b : Site) : bool :=
  match a, b with
  | FindUserLookup, FindUserLookup | LookupGetByUuid, LookupGetByUuid
  | GenerateEmbedding, GenerateEmbedding | SaveUserNode, SaveUserNode
  | LinkQuery, LinkQuery | AddEpisode, AddEpisode
  | DeleteCountQuery, DeleteCountQuery | DeleteQuery, DeleteQuery
  | SessionCountQuery, SessionCountQuery | EngineSearch, EngineSearch
  | GetUserQuery, GetUserQuery | SessionFindUser, SessionFindUser
  | SessionGetByUuid, SessionGetByUuid => true
  | _, _ => false
  end.

(** The call sites whose query or engine call writes to the store. *)
Definition mutating (s : Site) : bool :=
  match s with
  | SaveUserNode | LinkQuery | AddEpisode | DeleteQuery => true
  | _ => false
  end.

Inductive Level := DEBUG | INFO | WARNING | ERROR.

(** What the knowledge engine draws from the text of one episode: the new
    entities (identifier and name of each) and the facts, each between two
    of these entities given by their positions. *)
Record Extraction := mkExtraction {
  entities : list (string * string);
  facts : list (nat * nat * EntityEdge)
}.

(** What one request takes from outside the code. *)
Record Env := mkEnv {
  (** [fault s = Some msg]: the call at site [s] raises, [str(e) = msg]. *)
  fault : Site -> option string;
  (** utc_now() of the engine and datetime() of the store. *)
  now : Z;
  (** uuid4() drawn by the EntityNode constructor. *)
  new_uuid : string;
  (** uuid4() the engine draws for the episode of add_episode. *)
  episode_uuid : string;
  (** What the engine extracts from an episode body. *)
  extracted : string -> Extraction;
  (** settings.debug *)
  debug : bool;
  (** Hybrid retrieval of the engine: the edges it returns, in order, for a
      query and an optional centre node, among the candidate edges. *)
  hybrid_rank : string -> option string -> list EntityEdge -> list EntityEdge
}.

Record World := mkWorld {
  graph : Graph;
  (** the backend calls issued so far, latest first *)
  trace : list Site;
  (** the log records written on the failure paths, latest first *)
  logs : list (Level * string)
}.

Definition Result (A : Type) : Type := (Exn + A)%type.

Definition M (A : Type) : Type := Env -> World -> Result A * World.

Definition ret {A} (a : A) : M A := fun _ w => (inr a, w).

Definition bind {A B} (m : M A) (k : A -> M B) : M B :=
  fun e w =>
    match m e w with
    | (inl x, w') => (inl x, w')
    | (inr a, w') => k a e w'
    end.

Definition raise {A} (x : Exn) : M A := fun _ w => (inl x, w).

(** [try: m  except Exception as e: h e]. *)
Definition try_except {A} (m : M A) (h : Exn -> M A) : M A :=
  fun e w =>
    match m e w with
    | (inl x, w') => h x e w'
    | (inr a, w') => (inr a, w')
    end.

Definition ask : M Env := fun e w => (inr e, w).

Definition log (l : Level) (msg : string) : M unit :=
  fun _ w => (inr tt, mkWorld (graph w) (trace w) ((l, msg) :: logs w)).

(** One awaited backend call at site [s]: it is recorded in the trace; it
    raises when the environment says so, and then leaves the store as it
    was; otherwise it runs [q] on the store. *)
Definition backend {A} (s : Site) (q : Graph -> A * Graph) : M A :=
  fun e w =>
    let w1 := mkWorld (graph w) (s :: trace w) (logs w) in
    match fault e s with
    | Some msg => (inl (Exception msg), w1)
    | None =>
        let (a, g') := q (graph w) in
        (inr a, mkWorld g' (s :: trace w) (logs w))
    end.

(** A query that only reads. *)
Definition reads {A} (q : Graph -> A) : Graph -> A * Graph := fun g => (q g, g).

Declare Scope coroutine_scope.
Delimit Scope coroutine_scope with coroutine.
Notation "x <- m ;; k" := (bind m (fun x => k))
  (at level 100, m at next level, right associativity) : coroutine_scope.
Notation "m ;;; k" := (bind m (fun _ => k))
  (at level 100, right associativity) : coroutine_scope.
Local Open Scope coroutine_scope.

(** ** utils/graph_operations.py *)

(** EntityNode.get_by_uuid of the engine library:
    [MATCH (n:Entity {uuid: $uuid}) RETURN ...], the first record, and
    NodeNotFoundError when there is none. *)
Definition get_by_uuid_query (u : string) (g : Graph) : option Node :=
  find (fun n => has_label "Entity" n && String.eqb (uuid n) u) (nodes g).

Definition get_by_uuid (s : Site) (u : string) : M Node :=
  r <- backend s (reads (get_by_uuid_query u)) ;;
  match r with
  | Some n => ret n
  | None => raise (Exception ("node " ++ u ++ " not found"))
  end.

(** EntityNode.save of the engine library on a node whose uuid was just
    drawn: the MERGE on the uuid creates the node. *)
Definition save (n : Node) (g : Graph) : Node * Graph :=
  let n' := mkNode (next_nid g) (labels n) (uuid n) (name n) (group_id n)
                   (created_at n) (summary n) (attributes n) in
  (n', add_node n' g).

(** [find_user_query] of create_or_get_user_node. *)
Definition find_user_query (group user_name : string) (g : Graph) : list Node :=
  firstn 1
    (filter (fun user =>
               has_label "Entity" user && String.eqb (group_id user) group
               && (has_label "User" user || String.eqb (name user) user_name))
            (nodes g)).

Definition create_or_get_user_node (user_name user_id : string) : M Node :=
  let group := user_id in
  found <- try_except
    (records <- backend FindUserLookup (reads (find_user_query group user_name)) ;;
     match records with
     | r :: _ =>
         user_node <- get_by_uuid LookupGetByUuid (uuid r) ;;
         ret (Some user_node)
     | [] => ret None
     end)
    (fun e =>
       log DEBUG ("Could not find existing user node: " ++ str_exn e) ;;;
       ret None) ;;
  match found with
  | Some user_node => ret user_node
  | None =>
      env <- ask ;;
      let user_node :=
        mkNode 0 ["User"; "Person"; "Entity"] (new_uuid env) user_name group
               (now env) (Some ("User profile for " ++ user_name))
               [("type", "User"); ("user_id", user_id)] in
      backend GenerateEmbedding (reads (fun _ => tt)) ;;;
      backend SaveUserNode (save user_node)
  end.

(** LIMIT 1 of [find_user_query] has no ORDER BY: of the rows that match,
    the database may return any one.  [limit_1 limit] says that [limit] is
    such a choice: no row when none matches, and otherwise one of the rows
    that match. *)
Definition limit_1 (limit : list Node -> list Node) : Prop :=
  forall rows,
    match limit rows with
    | [] => rows = []
    | [r] => In r rows
    | _ :: _ :: _ => False
    end.

(** The first and the last of the rows that match. *)
Definition first_row (rows : list Node) : list Node := firstn 1 rows.
Definition last_row (rows : list Node) : list Node := firstn 1 (rev rows).

(** [find_user_query] of create_or_get_user_node, the row that LIMIT 1
    returns left to [limit]. *)
Definition find_user_query_by (limit : list Node -> list Node)
    (group user_name : string) (g : Graph) : list Node :=
  limit
    (filter (fun user =>
               has_label "Entity" user && String.eqb (group_id user) group
               && (has_label "User" user || String.eqb (name user) user_name))
            (nodes g)).

(** create_or_get_user_node, the row that LIMIT 1 returns left to [limit];
    with [first_row] it is [create_or_get_user_node] above. *)
Definition create_or_get_user_node_by (limit : list Node -> list Node)
    (user_name user_id : string) : M Node :=
  let group := user_id in
  found <- try_except
    (records <- backend FindUserLookup
                  (reads (find_user_query_by limit group user_name)) ;;
     match records with
     | r :: _ =>
         user_node <- get_by_uuid LookupGetByUuid (uuid r) ;;
         ret (Some user_node)
     | [] => ret None
     end)
    (fun e =>
       log DEBUG ("Could not find existing user node: " ++ str_exn e) ;;;
       ret None) ;;
  match found with
  | Some user_node => ret user_node
  | None =>
      env <- ask ;;
      let user_node :=
        mkNode 0 ["User"; "Person"; "Entity"] (new_uuid env) user_name group
               (now env) (Some ("User profile for " ++ user_name))
               [("type", "User"); ("user_id", user_id)] in
      backend GenerateEmbedding (reads (fun _ => tt)) ;;;
      backend SaveUserNode (save user_node)
  end.

(** The pattern [(user)-[:HAS_SESSION]->(session)]. *)
Definition has_session (g : Graph) (user session : Node) : bool :=
  existsb (fun r => String.eqb (rtype r) "HAS_SESSION"
                    && Nat.eqb (src r) (nid user)
                    && Nat.eqb (dst r) (nid session))
          (rels g).

(** [link_query] of link_sessions_to_user: one row per pair of a node with
    the user's uuid and a session of the partition that no HAS_SESSION
    relationship joins yet; a relationship is created for every row and the
    single record returned counts the rows. *)
Definition link_query (user_uuid group : string) (t : Z) (g : Graph)
  : list nat * Graph :=
  let users :=
    filter (fun n => has_label "Entity" n && String.eqb (uuid n) user_uuid)
           (nodes g) in
  let sessions :=
    filter (fun n => has_label "Episodic" n && String.eqb (group_id n) group)
           (nodes g) in
  let rows :=
    filter (fun p => negb (has_session g (fst p) (snd p)))
           (list_prod users sessions) in
  let created :=
    map (fun p => mkRel "HAS_SESSION" (nid (fst p)) (nid (snd p)) group t None)
        rows in
  ([length rows], add_rels created g).

Definition link_sessions_to_user (user_node : Node) (user_id : string) : M nat :=
  try_except
    (env <- ask ;;
     records <- backend LinkQuery (link_query (uuid user_node) user_id (now env)) ;;
     match records with
     | linked_count :: _ => ret linked_count
     | [] => ret 0
     end)
    (fun e =>
       log WARNING ("Could not create HAS_SESSION relationships: " ++ str_exn e) ;;;
       ret 0).

(** graphiti.add_episode of the engine library, as far as this repository
    relies on it: the episode becomes one Episodic node of the partition
    [group]; the entities extracted from the body become Entity nodes of the
    same partition, each mentioned by the episode; the extracted facts become
    RELATES_TO relationships between them.  The result carries the episode. *)
Definition add_episode (env : Env) (ep_name episode_body group : string)
    (reference_time : Z) (g : Graph) : option Node * Graph :=
  let x := extracted env episode_body in
  let episode :=
    mkNode (next_nid g) ["Episodic"] (episode_uuid env) ep_name group (now env)
           None
           [("content", episode_body);
            ("source_description", "therapy session summary");
            ("valid_at", str_int reference_time)] in
  let base := S (next_nid g) in
  let ents :=
    map (fun p => mkNode (fst p) ["Entity"] (fst (snd p)) (snd (snd p)) group
                         (now env) None [])
        (combine (seq base (length (entities x))) (entities x)) in
  let mentions :=
    map (fun n => mkRel "MENTIONS" (nid episode) (nid n) group (now env) None)
        ents in
  let relates :=
    flat_map (fun f =>
                match f with
                | (i, j, e) =>
                    if Nat.ltb i (length ents) && Nat.ltb j (length ents)
                    then [mkRel "RELATES_TO" (base + i) (base + j) group
                                (now env) (Some e)]
                    else []
                end)
             (facts x) in
  (Some episode,
   mkGraph (nodes g ++ episode :: ents)%list (rels g ++ mentions ++ relates)%list).

Definition add_session_to_graph (session_summary : string) (session_date : Z)
    (session_number : Z) (user_id user_name : string) : M string :=
  let enhanced_summary :=
    "Session " ++ str_int session_number ++ " for " ++ user_name ++ ": "
    ++ session_summary in
  env <- ask ;;
  result <- backend AddEpisode
              (add_episode env ("Therapy Session " ++ str_int session_number)
                           enhanced_summary user_id session_date) ;;
  match result with
  | Some episode => ret (uuid episode)
  | None => ret "unknown"
  end.

(** The dictionary returned by delete_user_data. *)
Record DeleteStats := mkStats {
  stats_user_id : string;
  deleted_nodes : nat;
  deleted_relationships : nat;
  status : string
}.

(** [n.group_id = $user_id]. *)
Definition scoped (user_id : string) (n : Node) : bool :=
  String.eqb (group_id n) user_id.

(** [count_query] of delete_user_data; an aggregation has one record. *)
Definition count_query (user_id : string) (g : Graph) : option (nat * nat) :=
  let ns := filter (scoped user_id) (nodes g) in
  Some (length ns, length (filter (incident ns) (rels g))).

(** [delete_query] of delete_user_data: DETACH DELETE removes the matched
    nodes and every relationship that touches one of them. *)
Definition delete_query (user_id : string) (g : Graph) : option nat * Graph :=
  let ns := filter (scoped user_id) (nodes g) in
  (Some (length ns),
   mkGraph (filter (fun n => negb (scoped user_id n)) (nodes g))
           (filter (fun r => negb (incident ns r)) (rels g))).

(** Opening the driver and its session is left out; the two queries are
    the backend calls. *)
Definition delete_user_data (user_id : string) : M DeleteStats :=
  try_except
    (count_record <- backend DeleteCountQuery (reads (count_query user_id)) ;;
     let node_count := match count_record with Some c => fst c | None => 0 end in
     let rel_count := match count_record with Some c => snd c | None => 0 end in
     if Nat.eqb node_count 0 then
       ret (mkStats user_id 0 0 "no_data_found")
     else
       delete_record <- backend DeleteQuery (delete_query user_id) ;;
       let deleted := match delete_record with Some d => d | None => 0 end in
       ret (mkStats user_id deleted rel_count "success"))
    (fun e =>
       log ERROR ("Error deleting user data for " ++ user_id ++ ": " ++ str_exn e) ;;;
       raise e).

(** ** services/ *)

Module UserService.

Definition create_or_get_user (user_name user_id : string) : M Node :=
  create_or_get_user_node user_name user_id.

Definition link_user_sessions (user_node : Node) (user_id : string) : M nat :=
  link_sessions_to_user user_node user_id.

Definition delete_user (user_id : string) : M DeleteStats :=
  delete_user_data user_id.

End UserService.

Module SessionService.

(** The count query of _get_next_session_number. *)
Definition session_count_query (user_id : string) (g : Graph) : list nat :=
  [length (filter (fun session =>
                     has_label "Episodic" session
                     && String.eqb (group_id session) user_id)
                  (nodes g))].

Definition _get_next_session_number (user_id : string) : M Z :=
  try_except
    (records <- backend SessionCountQuery (reads (session_count_query user_id)) ;;
     match records with
     | count :: _ => ret (Z.of_nat count + 1)%Z
     | [] => ret 1%Z
     end)
    (fun e =>
       log WARNING ("Could not get session count: " ++ str_exn e) ;;;
       ret 1%Z).

Definition add_session (session_summary : string) (session_date : Z)
    (user_id user_name : string) (session_number : option Z) : M (string * Z) :=
  session_number <-
    match session_number with
    | None => _get_next_session_number user_id
    | Some n => ret n
    end ;;
  episode_uuid <- add_session_to_graph session_summary session_date
                    session_number user_id user_name ;;
  ret (episode_uuid, session_number).

End SessionService.

(** graphiti.search of the engine library: the fact edges of the store,
    restricted to the partitions [group_ids] when they are given and to
    every partition when they are not, ranked by the hybrid retrieval. *)
Definition engine_search (env : Env) (query : string)
    (center_node_uuid : option string) (group_ids : option (list string))
    (g : Graph) : list EntityEdge :=
  let in_groups (r : Rel) :=
    match group_ids with
    | None => true
    | Some gs => existsb (String.eqb (r_group_id r)) gs
    end in
  let candidates :=
    flat_map (fun r => match edge r with
                       | Some e => if in_groups r then [e] else []
                       | None => []
                       end)
             (rels g) in
  hybrid_rank env query center_node_uuid candidates.

(** ** models/schemas.py *)

Record UserCreate := mkUserCreate {
  uc_user_name : string;
  uc_user_id : string
}.

Record UserResponse := mkUserResponse {
  ur_user_id : string;
  ur_user_name : string;
  ur_uuid : string;
  ur_created_at : Z;
  ur_summary : option string
}.

Record SessionCreate := mkSessionCreate {
  sc_session_summary : string;
  sc_session_date : Z;
  sc_session_number : option Z
}.

Record SessionResponse := mkSessionResponse {
  sr_session_id : string;
  sr_session_number : Z;
  sr_session_date : Z;
  sr_episode_uuid : string;
  sr_message : string
}.

Record ProfileQuery := mkProfileQuery {
  pq_query : string;
  pq_user_id : string
}.

Record ProfileResult := mkProfileResult {
  pr_uuid : string;
  pr_fact : string;
  pr_valid_at : option Z;
  pr_invalid_at : option Z
}.

Record ProfileQueryResponse := mkProfileQueryResponse {
  pqr_query : string;
  pqr_results : list ProfileResult;
  pqr_count : nat
}.

Record CenterNodeQuery := mkCenterNodeQuery {
  cq_query : string;
  cq_center_node_uuid : string;
  cq_user_id : string
}.

Record DeleteUserResponse := mkDeleteUserResponse {
  dr_user_id : string;
  dr_deleted_nodes : nat;
  dr_deleted_relationships : nat;
  dr_status : string;
  dr_message : string
}.

Module ProfileService.

Definition search_profile (query : string) (center_node_uuid : option string)
  : M (list ProfileResult) :=
  env <- ask ;;
  results <-
    match center_node_uuid with
    | Some c =>
        if String.eqb c "" then
          backend EngineSearch (reads (engine_search env query None None))
        else
          backend EngineSearch (reads (engine_search env query (Some c) None))
    | None => backend EngineSearch (reads (engine_search env query None None))
    end ;;
  ret (map (fun result =>
              mkProfileResult (e_uuid result) (e_fact result)
                              (e_valid_at result) (e_invalid_at result))
           results).

End ProfileService.

(** ** api/v1/routes/ *)

Module users.

Definition create_user (user_data : UserCreate) : M UserResponse :=
  try_except
    (user_node <- UserService.create_or_get_user (uc_user_name user_data)
                                                 (uc_user_id user_data) ;;
     ret (mkUserResponse (uc_user_id user_data) (uc_user_name user_data)
                         (uuid user_node) (created_at user_node)
                         (summary user_node)))
    (fun e =>
       match e with
       | HTTPException _ _ => raise e
       | Exception _ =>
           log ERROR ("Failed to create user " ++ uc_user_id user_data ++ ": "
                      ++ str_exn e) ;;;
           raise (HTTPException 400 ("Failed to create user: " ++ str_exn e))
       end).

(** [find_user_query] of get_user. *)
Definition find_user_query (group : string) (g : Graph) : list Node :=
  firstn 1
    (filter (fun user =>
               has_label "Entity" user && String.eqb (group_id user) group
               && has_label "User" user)
            (nodes g)).

Definition get_user (user_id : string) : M UserResponse :=
  try_except
    (records <- backend GetUserQuery (reads (find_user_query user_id)) ;;
     match records with
     | [] =>
         log WARNING ("User not found: " ++ user_id) ;;;
         raise (HTTPException 404 ("User with ID " ++ user_id ++ " not found"))
     | record :: _ =>
         ret (mkUserResponse user_id (name record) (uuid record)
                             (created_at record) (summary record))
     end)
    (fun e =>
       match e with
       | HTTPException _ _ => raise e
       | Exception _ =>
           log ERROR ("Error retrieving user " ++ user_id ++ ": " ++ str_exn e) ;;;
           raise (HTTPException 404 ("User not found: " ++ str_exn e))
       end).

Definition delete_user (user_id : string) : M DeleteUserResponse :=
  try_except
    (result <- UserService.delete_user user_id ;;
     if String.eqb (status result) "no_data_found" then
       log WARNING ("No data found to delete for user: " ++ user_id) ;;;
       raise (HTTPException 404 ("No data found for user " ++ user_id))
     else
       ret (mkDeleteUserResponse
              (stats_user_id result) (deleted_nodes result)
              (deleted_relationships result) (status result)
              ("Successfully deleted all data for user " ++ user_id)))
    (fun e =>
       match e with
       | HTTPException _ _ => raise e
       | Exception _ =>
           log ERROR ("Failed to delete user data for " ++ user_id ++ ": "
                      ++ str_exn e) ;;;
           raise (HTTPException 400 ("Failed to delete user data: " ++ str_exn e))
       end).

End users.

Module sessions.

(** [find_user_query] of create_session. *)
Definition find_user_query (group : string) (g : Graph) : list Node :=
  firstn 1
    (filter (fun user =>
               has_label "Entity" user && String.eqb (group_id user) group
               && has_label "User" user)
            (nodes g)).

(** The route returns its response together with the task it hands to
    background_tasks. *)
Definition create_session (user_id : string) (session_data : SessionCreate)
  : M (SessionResponse * M nat) :=
  try_except
    (records <- backend SessionFindUser (reads (find_user_query user_id)) ;;
     user_node <-
       match records with
       | r :: _ => get_by_uuid SessionGetByUuid (uuid r)
       | [] => UserService.create_or_get_user ("User_" ++ user_id) user_id
       end ;;
     r <- SessionService.add_session
            (sc_session_summary session_data) (sc_session_date session_data)
            user_id (name user_node) (sc_session_number session_data) ;;
     let episode_uuid := fst r in
     let session_number := snd r in
     ret (mkSessionResponse
            (user_id ++ "_session_" ++ str_int session_number)
            session_number (sc_session_date session_data) episode_uuid
            ("Session " ++ str_int session_number ++ " added successfully"),
          UserService.link_user_sessions user_node user_id))
    (fun e =>
       match e with
       | HTTPException _ _ => raise e
       | Exception _ =>
           log ERROR ("Failed to add session for user " ++ user_id ++ ": "
                      ++ str_exn e) ;;;
           raise (HTTPException 400 ("Failed to add session: " ++ str_exn e))
       end).

End sessions.

Module profile.

Definition search_profile (query_data : ProfileQuery) : M ProfileQueryResponse :=
  try_except
    (results <- ProfileService.search_profile (pq_query query_data) None ;;
     ret (mkProfileQueryResponse (pq_query query_data) results (length results)))
    (fun e =>
       match e with
       | HTTPException _ _ => raise e
       | Exception _ =>
           log ERROR ("Profile search failed for user " ++ pq_user_id query_data
                      ++ ": " ++ str_exn e) ;;;
           raise (HTTPException 400 ("Failed to search profile: " ++ str_exn e))
       end).

Definition search_with_center_node (query_data : CenterNodeQuery)
  : M ProfileQueryResponse :=
  try_except
    (results <- ProfileService.search_profile
                  (cq_query query_data) (Some (cq_center_node_uuid query_data)) ;;
     ret (mkProfileQueryResponse (cq_query query_data) results (length results)))
    (fun e =>
       match e with
       | HTTPException _ _ => raise e
       | Exception _ =>
           log ERROR ("Center node search failed for user "
                      ++ cq_user_id query_data ++ ": " ++ str_exn e) ;;;
           raise (HTTPException 400 ("Failed to search profile: " ++ str_exn e))
       end).

End profile.

(** ** app/main.py: what the client receives *)

Inductive Reply (A : Type) :=
| Content (status_code : nat) (body : A)
| ErrorBody (status_code : nat) (error : string) (message : option string).

Arguments Content {A} _ _.
Arguments ErrorBody {A} _ _ _.

(** A route served by the application: its result with the success status
    declared by the route, or the body built by http_exception_handler or by
    general_exception_handler. *)
Definition serve {A} (success : nat) (route : M A) (env : Env) (w : World)
  : Reply A * World :=
  match route env w with
  | (inr a, w') => (Content success a, w')
  | (inl (HTTPException c d), w') => (ErrorBody c d None, w')
  | (inl (Exception msg), w') =>
      (ErrorBody 500 "Internal server error"
         (Some (if debug env then msg else "An unexpected error occurred")),
       w')
  end.

(** POST /api/v1/sessions/{user_id}: the background task runs once the
    response is made; what it returns or raises is dropped. *)
Definition http_post_sessions (user_id : string) (session_data : SessionCreate)
    (env : Env) (w : World) : Reply SessionResponse * World :=
  match serve 201 (sessions.create_session user_id session_data) env w with
  | (Content c (response, task), w') => (Content c response, snd (task env w'))
  | (ErrorBody c d m, w') => (ErrorBody c d m, w')
  end.

Definition http_post_users (user_data : UserCreate) := serve 201 (users.create_user user_data).
Definition http_get_users (user_id : string) := serve 200 (users.get_user user_id).
Definition http_delete_users (user_id : string) := serve 200 (users.delete_user user_id).
Definition http_post_profile_search (q : ProfileQuery) := serve 200 (profile.search_profile q).
Definition http_post_profile_search_center_node (q : CenterNodeQuery) :=
  serve 200 (profile.search_with_center_node q).


(** ** Vocabulary of the properties *)

(** The nodes of the partition of [user_id]. *)
Definition scoped_nodes (user_id : string) (g : Graph) : list Node :=
  filter (scoped user_id) (nodes g).

(** The relationships that start or end at a node of the partition. *)
Definition incident_rels (user_id : string) (g : Graph) : list Rel :=
  filter (fun r => existsb (fun n => scoped user_id n && touches r n) (nodes g))
         (rels g).

(** The status delete_user_data reports for a partition of [n] nodes. *)
Definition delete_status (n : nat) : string :=
  if Nat.eqb n 0 then "no_data_found" else "success".

(** The sessions recorded for [user_id]. *)
Definition sessions_of (user_id : string) (g : Graph) : list Node :=
  filter (fun n => has_label "Episodic" n && String.eqb (group_id n) user_id)
         (nodes g).

(** A User entity of the partition [user_id]. *)
Definition is_user (user_id : string) (n : Node) : bool :=
  has_label "Entity" n && String.eqb (group_id n) user_id && has_label "User" n.

Definition users_of (user_id : string) (g : Graph) : list Node :=
  filter (is_user user_id) (nodes g).

(** The ownership links of the store. *)
Definition ownership_links (g : Graph) : list Rel :=
  filter (fun r => String.eqb (rtype r) "HAS_SESSION") (rels g).

(** Recording sessions for one user one after the other, none with an
    explicit sequence number: the numbers returned, in submission order
    ([None] for a call that raised). *)
Fixpoint record_sessions (user_id user_name : string)
    (requests : list (Env * SessionCreate)) (w : World)
  : list (option Z) * World :=
  match requests with
  | [] => ([], w)
  | (env, session_data) :: rest =>
      let r := SessionService.add_session
                 (sc_session_summary session_data)
                 (sc_session_date session_data) user_id user_name None env w in
      let rs := record_sessions user_id user_name rest (snd r) in
      (match fst r with inr p => Some (snd p) | inl _ => None end :: fst rs,
       snd rs)
  end.

(** The session-count query and the episode submission of [env] succeed. *)
Definition recording_ok (env : Env) : Prop :=
  fault env SessionCountQuery = None /\ fault env AddEpisode = None.

(** The Entity nodes of the partition [user_id], in store order. *)
Definition entities_of (user_id : string) (g : Graph) : list Node :=
  filter (fun n => has_label "Entity" n && String.eqb (group_id n) user_id)
         (nodes g).

(** At most one User entity per partition key. *)
Definition at_most_one_user (g : Graph) : Prop :=
  forall user_id, length (users_of user_id g) <= 1.

(** The node create_or_get_user_node builds when it finds none. *)
Definition fresh_user (env : Env) (user_name user_id : string) (g : Graph) : Node :=
  mkNode (next_nid g) ["User"; "Person"; "Entity"] (new_uuid env) user_name
         user_id (now env) (Some ("User profile for " ++ user_name))
         [("type", "User"); ("user_id", user_id)].

(** The lookup of create_or_get_user_node does not fail in [env]. *)
Definition lookup_ok (env : Env) : Prop :=
  fault env FindUserLookup = None /\ fault env LookupGetByUuid = None.

(** Nodes the knowledge engine stores for an episode of [user_id]: they
    belong to the partition and none is a User entity. *)
Definition engine_nodes (user_id : string) (extra : list Node) : Prop :=
  Forall (fun n => group_id n = user_id /\ has_label "User" n = false) extra.

(** What a request can do to the nodes [ns] of the store [g]: the engine
    appends the nodes of an episode to a partition that has an entity; or a
    new User entity is appended, followed by the nodes of an episode; or a
    partition is removed. *)
Inductive node_effect (env : Env) (g : Graph) (ns' : list Node) : Prop :=
| effect_episode (user_id : string) (extra : list Node) :
    ns' = (nodes g ++ extra)%list ->
    engine_nodes user_id extra ->
    extra = [] \/ entities_of user_id g <> [] ->
    node_effect env g ns'
| effect_user (user_name user_id : string) (extra : list Node) :
    ns' = (nodes g ++ fresh_user env user_name user_id g :: extra)%list ->
    engine_nodes user_id extra ->
    (lookup_ok env -> find_user_query user_id user_name g = []) ->
    node_effect env g ns'
| effect_delete (user_id : string) :
    ns' = filter (fun n => negb (scoped user_id n)) (nodes g) ->
    node_effect env g ns'.



(** The requests of the HTTP surface that reach the store. *)
Inductive Request :=
| PostUser (user_data : UserCreate)
| GetUser (user_id : string)
| DeleteUser (user_id : string)
| PostSession (user_id : string) (session_data : SessionCreate)
| PostProfileSearch (query_data : ProfileQuery)
| PostProfileSearchCenterNode (query_data : CenterNodeQuery).

(** The world after a request has been served in the environment [env]. *)
Definition handle (r : Request) (env : Env) (w : World) : World :=
  match r with
  | PostUser d => snd (http_post_users d env w)
  | GetUser u => snd (http_get_users u env w)
  | DeleteUser u => snd (http_delete_users u env w)
  | PostSession u d => snd (http_post_sessions u d env w)
  | PostProfileSearch q => snd (http_post_profile_search q env w)
  | PostProfileSearchCenterNode q => snd (http_post_profile_search_center_node q env w)
  end.

(** Requests served one after the other, each in its own environment. *)
Fixpoint run (steps : list (Request * Env)) (w : World) : World :=
  match steps with
  | [] => w
  | (r, env) :: rest => run rest (handle r env w)
  end.

(** The worlds the service reaches from the empty store. *)
Definition reachable (w : World) : Prop :=
  exists steps, w = run steps (mkWorld Store.empty [] []).

(** ** Concrete environments and stores *)

Module Sample.

(** Every backend call succeeds; the engine extracts nothing and returns
    the candidate edges as they are. *)
Definition env_ok : Env :=
  mkEnv (fun _ => None) 1700000000 "uuid-new" "uuid-episode"
        (fun _ => mkExtraction [] []) false (fun _ _ es => es).

(** As [env], but the call at site [s] raises with message [msg]. *)
Definition failing (s : Site) (msg : string) (env : Env) : Env :=
  mkEnv (fun s' => if Site_eqb s s' then Some msg else fault env s')
        (now env) (new_uuid env) (episode_uuid env) (extracted env)
        (debug env) (hybrid_rank env).

(** As [env], but uuid4 draws [u] for a new EntityNode. *)
Definition drawing (u : string) (env : Env) : Env :=
  mkEnv (fault env) (now env) u (episode_uuid env) (extracted env)
        (debug env) (hybrid_rank env).

(** As [env], but the engine extracts two entities and one fact between
    them from every episode. *)
Definition extracting (e1 e2 : string * string) (f : EntityEdge) (env : Env)
  : Env :=
  mkEnv (fault env) (now env) (new_uuid env) (episode_uuid env)
        (fun _ => mkExtraction [e1; e2] [(0, 1, f)])
        (debug env) (hybrid_rank env).

Definition world_of (g : Graph) : World := mkWorld g [] [].

Definition alice : Node :=
  mkNode 1 ["User"; "Person"; "Entity"] "uuid-alice" "Alice" "u1" 1600000000
         (Some "User profile for Alice") [("type", "User"); ("user_id", "u1")].

Definition session1 : Node :=
  mkNode 2 ["Episodic"] "uuid-s1" "Therapy Session 1" "u1" 1600000100 None [].

Definition work : Node :=
  mkNode 3 ["Entity"] "uuid-work" "work" "u1" 1600000100 None [].

Definition bob : Node :=
  mkNode 4 ["User"; "Person"; "Entity"] "uuid-bob" "Bob" "u2" 1600000200
         (Some "User profile for Bob") [("type", "User"); ("user_id", "u2")].

Definition bob_fact : EntityEdge :=
  mkEdge "uuid-f1" "Bob fears flying" None None.

Definition plane : Node :=
  mkNode 5 ["Entity"] "uuid-plane" "flying" "u2" 1600000300 None [].

(** The store after one session of the user [u2], from which the engine
    has extracted a fact; no other user has data. *)
Definition after_session_of_u2 : World :=
  run [(PostSession "u2" (mkSessionCreate "Bob is afraid of flying" 1700000000 None),
        extracting ("uuid-e1", "Bob") ("uuid-e2", "flying") bob_fact env_ok)]
      (mkWorld Store.empty [] []).

(** Two partitions: [u1] holds a user, a session and an entity the session
    mentions; [u2] holds a user, an entity and a fact between them. *)
Definition two_users : Graph :=
  mkGraph [alice; session1; work; bob; plane]
          [mkRel "MENTIONS" 2 3 "u1" 1600000100 None;
           mkRel "MENTIONS" 2 1 "u1" 1600000100 None;
           mkRel "RELATES_TO" 4 5 "u2" 1600000300 (Some bob_fact)].

End Sample.

(** ** Further vocabulary *)

(** The Entity nodes that carry the uuid [u]. *)
Definition nodes_with_uuid (u : string) (g : Graph) : list Node :=
  filter (fun n => has_label "Entity" n && String.eqb (uuid n) u) (nodes g).

(** [r] is an ownership link of the partition [user_id] from [user] to
    [session]. *)
Definition owns (user_id : string) (user session : Node) (r : Rel) : Prop :=
  rtype r = "HAS_SESSION" /\ src r = nid user /\ dst r = nid session
  /\ r_group_id r = user_id /\ edge r = None.

(** No backend call raises in [env]. *)
Definition healthy (env : Env) : Prop := forall s, fault env s = None.

Module SampleMore.

(** A partition that holds an entity named Alice and no User entity. *)
Definition named_entity : Node :=
  mkNode 1 ["Entity"] "uuid-e" "Alice" "u5" 1600000000 None [].

Definition entity_only : Graph := mkGraph [named_entity] [].

End SampleMore.

(** Every run of the coroutine [m] relates the store before to the store
    after by [R]. *)
Definition respects (R : Graph -> Graph -> Prop) {A} (m : M A) : Prop :=
  forall env w, R (graph w) (graph (snd (m env w))).

(** A well-formed store: no two nodes share a store identity, and every
    relationship starts and ends at a stored node. *)
Definition wf_store (g : Graph) : Prop :=
  NoDup (map nid (nodes g))
  /\ forall r, In r (rels g) ->
               In (src r) (map nid (nodes g)) /\ In (dst r) (map nid (nodes g)).

(** The user a request is about. *)
Definition subject (r : Request) : string :=
  match r with
  | PostUser d => uc_user_id d
  | GetUser u => u
  | DeleteUser u => u
  | PostSession u _ => u
  | PostProfileSearch q => pq_user_id q
  | PostProfileSearchCenterNode q => cq_user_id q
  end.

(** The nodes of every partition but that of [user_id] are the same, in
    the same order, in [g] and in [g']. *)
Definition same_elsewhere (user_id : string) (g g' : Graph) : Prop :=
  forall other, other <> user_id -> scoped_nodes other g' = scoped_nodes other g.

(** The ownership links from the node of identity [a] to the node of
    identity [b]. *)
Definition links_between (a b : nat) (g : Graph) : list Rel :=
  filter (fun r => String.eqb (rtype r) "HAS_SESSION"
                   && Nat.eqb (src r) a && Nat.eqb (dst r) b)
         (rels g).

(** No two ownership links join the same two nodes. *)
Definition no_duplicate_links (g : Graph) : Prop :=
  forall a b, length (links_between a b g) <= 1.

(** The number create_session uses for a session: the one given, or one
    more than the number of sessions stored. *)
Definition number_used (session_data : SessionCreate) (user_id : string)
    (g : Graph) : Z :=
  match sc_session_number session_data with
  | Some n => n
  | None => (Z.of_nat (length (sessions_of user_id g)) + 1)%Z
  end.

(** The text create_session submits to the engine for a session of the
    user named [user_name]. *)
Definition episode_text (number : Z) (user_name summary : string) : string :=
  "Session " ++ str_int number ++ " for " ++ user_name ++ ": " ++ summary.

(** The response of create_session for the session numbered [number]. *)
Definition session_response (env : Env) (user_id : string)
    (session_data : SessionCreate) (number : Z) : SessionResponse :=
  mkSessionResponse (user_id ++ "_session_" ++ str_int number) number
                    (sc_session_date session_data) (episode_uuid env)
                    ("Session " ++ str_int number ++ " added successfully").

(** The Episodic node the engine stores for an episode. *)
Definition episode_node (env : Env) (ep_name body group : string)
    (reference_time : Z) (g : Graph) : Node :=
  mkNode (next_nid g) ["Episodic"] (episode_uuid env) ep_name group (now env)
         None
         [("content", body);
          ("source_description", "therapy session summary");
          ("valid_at", str_int reference_time)].

(** A ProfileResult made of an edge the engine returns. *)
Definition profile_result (e : EntityEdge) : ProfileResult :=
  mkProfileResult (e_uuid e) (e_fact e) (e_valid_at e) (e_invalid_at e).

(** ** utils/neo4j_driver.py, utils/database.py, and the lifespan and the
    health check of app/main.py

    The two module-level holders of one process.  A client is named by the
    order of its construction.  The constructors and the close calls of the
    libraries can raise; [f c = Some msg] says that the call [c] raises with
    [str(e) = msg], and a call that raises has no other effect.
    Informational log records are left out. *)

Module Lifecycle.

Inductive Call :=
| NewNeo4jDriver      (* AsyncGraphDatabase.driver(...) *)
| CloseNeo4jDriver    (* await self._driver.close() *)
| NewOpenAIClient     (* AsyncOpenAI(...) *)
| NewGraphiti         (* OpenAIClient, OpenAIEmbedder and Graphiti(...) *)
| CloseGraphiti.      (* await self._graphiti.close() *)

Inductive Severity := Warning | Error | Critical.

Record Process := mkProcess {
  _driver : option nat;          (* Neo4jDriver._driver *)
  _graphiti : option nat;        (* GraphitiManager._graphiti *)
  _openai_client : option nat;   (* GraphitiManager._openai_client *)
  made : nat;                    (* the clients constructed so far *)
  calls : list Call;             (* the library calls made, latest first *)
  records : list (Severity * string)  (* log records, latest first *)
}.

Definition Faults := Call -> option string.

Definition called (c : Call) (p : Process) : Process :=
  mkProcess (_driver p) (_graphiti p) (_openai_client p) (made p)
            (c :: calls p) (records p).

Definition logged (s : Severity) (msg : string) (p : Process) : Process :=
  mkProcess (_driver p) (_graphiti p) (_openai_client p) (made p) (calls p)
            ((s, msg) :: records p).

Module Neo4jDriver.

Definition get_driver (f : Faults) (p : Process) : Result nat * Process :=
  match _driver p with
  | None =>
      match f NewNeo4jDriver with
      | Some msg => (inl (Exception msg), called NewNeo4jDriver p)
      | None =>
          (inr (made p),
           mkProcess (Some (made p)) (_graphiti p) (_openai_client p)
                     (S (made p)) (NewNeo4jDriver :: calls p) (records p))
      end
  | Some d => (inr d, p)
  end.

Definition close (f : Faults) (p : Process) : Result unit * Process :=
  match _driver p with
  | Some _ =>
      let p1 := called CloseNeo4jDriver p in
      let p2 :=
        match f CloseNeo4jDriver with
        | Some msg => logged Warning ("Error closing Neo4j driver: " ++ msg) p1
        | None => p1
        end in
      (* finally: self._driver = None *)
      (inr tt,
       mkProcess None (_graphiti p2) (_openai_client p2) (made p2) (calls p2)
                 (records p2))
  | None => (inr tt, p)
  end.

End Neo4jDriver.

Module GraphitiManager.

Definition initialize (f : Faults) (p : Process) : Result nat * Process :=
  match _graphiti p with
  | None =>
      match f NewOpenAIClient with
      | Some msg => (inl (Exception msg), called NewOpenAIClient p)
      | None =>
          let p1 :=
            mkProcess (_driver p) None (Some (made p)) (S (made p))
                      (NewOpenAIClient :: calls p) (records p) in
          match f NewGraphiti with
          | Some msg => (inl (Exception msg), called NewGraphiti p1)
          | None =>
              (inr (made p1),
               mkProcess (_driver p1) (Some (made p1)) (_openai_client p1)
                         (S (made p1)) (NewGraphiti :: calls p1) (records p1))
          end
      end
  | Some c => (inr c, p)
  end.

Definition get_graphiti (f : Faults) (p : Process) : Result nat * Process :=
  match _graphiti p with
  | None => initialize f p
  | Some c => (inr c, p)
  end.

Definition close (f : Faults) (p : Process) : Result unit * Process :=
  match _graphiti p with
  | Some _ =>
      match f CloseGraphiti with
      | Some msg => (inl (Exception msg), called CloseGraphiti p)
      | None =>
          (inr tt,
           mkProcess (_driver p) None (_openai_client p) (made p)
                     (CloseGraphiti :: calls p) (records p))
      end
  | None => (inr tt, p)
  end.

End GraphitiManager.

(** lifespan, before the yield. *)
Definition lifespan_startup (f : Faults) (p : Process) : Result unit * Process :=
  match GraphitiManager.initialize f p with
  | (inl e, p1) =>
      (inl e, logged Critical ("Failed to start application: " ++ str_exn e) p1)
  | (inr _, p1) =>
      match Neo4jDriver.get_driver f p1 with
      | (inl e, p2) =>
          (inl e,
           logged Critical ("Failed to start application: " ++ str_exn e) p2)
      | (inr _, p2) => (inr tt, p2)
      end
  end.

(** lifespan, after the yield. *)
Definition lifespan_shutdown (f : Faults) (p : Process) : Result unit * Process :=
  let p1 :=
    match GraphitiManager.close f p with
    | (inl e, p') => logged Warning ("Error closing Graphiti: " ++ str_exn e) p'
    | (inr _, p') => p'
    end in
  let p2 :=
    match Neo4jDriver.close f p1 with
    | (inl e, p') =>
        logged Warning ("Error closing Neo4j driver: " ++ str_exn e) p'
    | (inr _, p') => p'
    end in
  (inr tt, p2).

(** The body of the reply of GET /health. *)
Inductive Health :=
| Healthy      (* status healthy, graph-engine and graph-storage connected *)
| Unhealthy (error : string).

(** health_check: the status code and the body of its reply. *)
Definition health_check (f : Faults) (p : Process) : (nat * Health) * Process :=
  match GraphitiManager.get_graphiti f p with
  | (inl e, p1) =>
      ((503, Unhealthy (str_exn e)),
       logged Error ("Health check failed: " ++ str_exn e) p1)
  | (inr _, p1) =>
      match Neo4jDriver.get_driver f p1 with
      | (inl e, p2) =>
          ((503, Unhealthy (str_exn e)),
           logged Error ("Health check failed: " ++ str_exn e) p2)
      | (inr _, p2) => ((200, Healthy), p2)
      end
  end.

(** A process that has constructed nothing. *)
Definition fresh : Process := mkProcess None None None 0 [] [].

(** No call raises. *)
Definition no_fault : Faults := fun _ => None.

(** Only the call [c] raises, with the message [msg]. *)
Definition only (c : Call) (msg : string) : Faults :=
  fun c' =>
    match c, c' with
    | NewNeo4jDriver, NewNeo4jDriver | CloseNeo4jDriver, CloseNeo4jDriver
    | NewOpenAIClient, NewOpenAIClient | NewGraphiti, NewGraphiti
    | CloseGraphiti, CloseGraphiti => Some msg
    | _, _ => None
    end.

End Lifecycle.
(** * Properties *)

(** ** Running coroutines in proofs *)

Ltac unfold_m :=
  unfold bind, try_except, backend, ret, raise, log, ask, reads in *.

(** ** Lists of stored elements *)

Lemma filter_split_length {A} (f : A -> bool) (l : list A) :
  length l = length (filter (fun x => negb (f x)) l) + length (filter f l).
Proof.
  induction l as [|a l IH]; simpl; [reflexivity|].
  destruct (f a); simpl; lia.
Qed.

Lemma filter_negb_none {A} (f : A -> bool) (l : list A) :
  filter f (filter (fun x => negb (f x)) l) = [].
Proof.
  induction l as [|a l IH]; simpl; [reflexivity|].
  destruct (f a) eqn:E; simpl; [assumption|].
  rewrite E. assumption.
Qed.

Lemma filter_nil_all {A} (f : A -> bool) (l : list A) :
  filter f l = [] -> filter (fun x => negb (f x)) l = l.
Proof.
  induction l as [|a l IH]; simpl; [reflexivity|].
  destruct (f a); simpl; [discriminate|].
  intros H. f_equal. auto.
Qed.

(** ** Deleting the data of a user *)

Lemma incident_scoped (user_id : string) (ns : list Node) (r : Rel) :
  incident (filter (scoped user_id) ns) r
  = existsb (fun n => scoped user_id n && touches r n) ns.
Proof.
  unfold incident.
  induction ns as [|n ns IH]; simpl; [reflexivity|].
  destruct (scoped user_id n); simpl; rewrite IH; reflexivity.
Qed.

Lemma count_query_counts (user_id : string) (g : Graph) :
  count_query user_id g
  = Some (length (scoped_nodes user_id g), length (incident_rels user_id g)).
Proof.
  unfold count_query, scoped_nodes, incident_rels.
  do 3 f_equal. apply filter_ext. intros r. apply incident_scoped.
Qed.

Lemma delete_query_removes (user_id : string) (g : Graph) :
  let g' := snd (delete_query user_id g) in
  fst (delete_query user_id g) = Some (length (scoped_nodes user_id g))
  /\ scoped_nodes user_id g' = []
  /\ length (nodes g) = length (nodes g') + length (scoped_nodes user_id g)
  /\ length (rels g) = length (rels g') + length (incident_rels user_id g).
Proof.
  unfold delete_query, scoped_nodes, incident_rels; simpl.
  repeat split.
  - apply filter_negb_none.
  - apply filter_split_length.
  - rewrite (filter_split_length (incident (filter (scoped user_id) (nodes g)))
                                 (rels g)).
    f_equal. f_equal. apply filter_ext. intros r. apply incident_scoped.
Qed.

Lemma no_scoped_no_incident (user_id : string) (g : Graph) :
  scoped_nodes user_id g = [] -> incident_rels user_id g = [].
Proof.
  unfold scoped_nodes, incident_rels. intros H.
  assert (E : forall r, existsb (fun n => scoped user_id n && touches r n) (nodes g)
                        = false).
  { intros r. rewrite <- incident_scoped, H. reflexivity. }
  induction (rels g) as [|r rs IH]; simpl; [reflexivity|].
  rewrite E. assumption.
Qed.

(** C2.  Whenever the queries that delete_user_data issues do not fail, it
    returns [deleted_nodes = N] and [deleted_relationships = M], where [N]
    counts the nodes of the partition and [M] the relationships incident to
    them; these are the counts of the counting phase; afterwards no node of
    the partition is left, and the store has lost exactly [N] nodes and [M]
    relationships. *)
Theorem delete_user_data_counts (env : Env) (w : World) (user_id : string) :
  let N := length (scoped_nodes user_id (graph w)) in
  let M := length (incident_rels user_id (graph w)) in
  fault env DeleteCountQuery = None ->
  (N <> 0 -> fault env DeleteQuery = None) ->
  exists w',
    delete_user_data user_id env w
    = (inr (mkStats user_id N M (delete_status N)), w')
    /\ count_query user_id (graph w) = Some (N, M)
    /\ scoped_nodes user_id (graph w') = []
    /\ length (nodes (graph w)) = length (nodes (graph w')) + N
    /\ length (rels (graph w)) = length (rels (graph w')) + M.
Proof.
  intros N M Hc Hd.
  unfold delete_user_data. unfold_m. rewrite Hc.
  rewrite count_query_counts. simpl. fold N M. unfold delete_status.
  destruct (Nat.eqb N 0) eqn:E.
  - apply Nat.eqb_eq in E.
    assert (HM : M = 0).
    { unfold M. rewrite no_scoped_no_incident; [reflexivity|].
      apply length_zero_iff_nil. exact E. }
    rewrite HM, E. eexists. split; [reflexivity|]. simpl.
    repeat split; try lia.
    apply length_zero_iff_nil. exact E.
  - apply Nat.eqb_neq in E. rewrite (Hd E).
    destruct (delete_query_removes user_id (graph w)) as (_ & H2 & H3 & H4).
    unfold delete_query in H2, H3, H4. simpl in H2, H3, H4.
    eexists. split; [reflexivity|]. simpl.
    repeat split; assumption.
Qed.

Lemma delete_user_data_counts_witness :
  exists w',
    delete_user_data "u1" Sample.env_ok (Sample.world_of Sample.two_users)
    = (inr (mkStats "u1" 3 2 "success"), w')
    /\ count_query "u1" Sample.two_users = Some (3, 2)
    /\ scoped_nodes "u1" (graph w') = []
    /\ length (nodes Sample.two_users) = length (nodes (graph w')) + 3
    /\ length (rels Sample.two_users) = length (rels (graph w')) + 2.
Proof.
  apply (delete_user_data_counts Sample.env_ok (Sample.world_of Sample.two_users) "u1").
  - reflexivity.
  - intros _. reflexivity.
Defined.

(** C3.  For a user identifier with no scoped node, delete_user_data issues
    the counting query only, hence no mutating query, and leaves the store
    as it is; when the counting query does not fail it returns the status
    no_data_found with both counts zero. *)
Theorem delete_user_data_no_data (env : Env) (w : World) (user_id : string) :
  scoped_nodes user_id (graph w) = [] ->
  let r := delete_user_data user_id env w in
  graph (snd r) = graph w
  /\ trace (snd r) = DeleteCountQuery :: trace w
  /\ (forall s, In s (trace (snd r)) -> mutating s = true -> In s (trace w))
  /\ (fault env DeleteCountQuery = None ->
      fst r = inr (mkStats user_id 0 0 "no_data_found")).
Proof.
  intros H r. subst r.
  unfold delete_user_data. unfold_m.
  destruct (fault env DeleteCountQuery) as [msg|] eqn:F.
  - simpl. repeat split; try discriminate.
    intros s [<-|Hs]; [discriminate|auto].
  - rewrite count_query_counts, H. simpl.
    repeat split.
    intros s [<-|Hs]; [discriminate|auto].
Qed.

Lemma delete_user_data_no_data_witness :
  let r := delete_user_data "u3" Sample.env_ok (Sample.world_of Sample.two_users) in
  graph (snd r) = Sample.two_users
  /\ trace (snd r) = [DeleteCountQuery]
  /\ (forall s, In s (trace (snd r)) -> mutating s = true -> In s [])
  /\ (fault Sample.env_ok DeleteCountQuery = None ->
      fst r = inr (mkStats "u3" 0 0 "no_data_found")).
Proof.
  apply (delete_user_data_no_data Sample.env_ok (Sample.world_of Sample.two_users) "u3").
  reflexivity.
Defined.

(** ** Recording sessions *)

Lemma session_count_query_counts (user_id : string) (g : Graph) :
  SessionService.session_count_query user_id g = [length (sessions_of user_id g)].
Proof. reflexivity. Qed.

Lemma entities_not_sessions (user_id group : string) (t : Z)
    (l : list (nat * (string * string))) :
  filter (fun n => has_label "Episodic" n && String.eqb (group_id n) user_id)
         (map (fun p => mkNode (fst p) ["Entity"] (fst (snd p)) (snd (snd p))
                               group t None [])
              l)
  = [].
Proof.
  induction l as [|p l IH]; simpl; [reflexivity|]. exact IH.
Qed.

(** The engine stores exactly one more session in the partition. *)
Lemma add_episode_sessions (env : Env) (ep_name body group : string) (t : Z)
    (g : Graph) :
  exists ep,
    fst (add_episode env ep_name body group t g) = Some ep
    /\ uuid ep = episode_uuid env
    /\ name ep = ep_name
    /\ sessions_of group (snd (add_episode env ep_name body group t g))
       = (sessions_of group g ++ [ep])%list.
Proof.
  unfold add_episode, sessions_of. simpl.
  eexists. split; [reflexivity|]. split; [reflexivity|]. split; [reflexivity|].
  rewrite filter_app. simpl. rewrite String.eqb_refl. simpl.
  rewrite entities_not_sessions. reflexivity.
Qed.

(** One recording without an explicit number, both calls succeeding. *)
Lemma add_session_next_number (env : Env) (w : World)
    (summary : string) (date : Z) (user_id user_name : string) :
  recording_ok env ->
  let n := (Z.of_nat (length (sessions_of user_id (graph w))) + 1)%Z in
  exists w' ep,
    SessionService.add_session summary date user_id user_name None env w
    = (inr (episode_uuid env, n), w')
    /\ name ep = "Therapy Session " ++ str_int n
    /\ sessions_of user_id (graph w')
       = (sessions_of user_id (graph w) ++ [ep])%list.
Proof.
  intros [Hc Ha] n.
  unfold SessionService.add_session, SessionService._get_next_session_number,
    add_session_to_graph.
  unfold_m. rewrite Hc, Ha. rewrite session_count_query_counts. fold n.
  cbv zeta.
  set (body := "Session " ++ str_int n ++ " for " ++ user_name ++ ": " ++ summary).
  destruct (add_episode_sessions env ("Therapy Session " ++ str_int n) body
                                 user_id date (graph w))
    as (ep & E1 & E2 & E3 & E4).
  cbn [graph trace logs].
  destruct (add_episode env ("Therapy Session " ++ str_int n) body user_id date
                        (graph w)) as [res g'] eqn:Q.
  simpl in E1, E4. subst res.
  exists (mkWorld g' (AddEpisode :: SessionCountQuery :: trace w) (logs w)), ep.
  rewrite E2. cbn [graph]. auto.
Qed.

(** C4, as amended.  Sessions recorded one after the other for one user,
    none with an explicit sequence number and each with its session-count
    query and its episode submission succeeding, get the numbers
    [count + 1, count + 2, ...] in submission order, where [count] is the
    number of sessions the user had before: each number is one more than the
    number of sessions stored when its call is made.  The numbers returned
    are the numbers used: the sessions are stored, in this order, under the
    names "Therapy Session <number>". *)
Theorem record_sessions_numbers (user_id user_name : string)
    (requests : list (Env * SessionCreate)) (w : World) :
  Forall (fun r => recording_ok (fst r)) requests ->
  let count := length (sessions_of user_id (graph w)) in
  let r := record_sessions user_id user_name requests w in
  fst r = map (fun i => Some (Z.of_nat count + Z.of_nat i)%Z)
              (seq 1 (length requests))
  /\ map name (sessions_of user_id (graph (snd r)))
     = app (map name (sessions_of user_id (graph w)))
           (map (fun i => "Therapy Session "
                          ++ str_int (Z.of_nat count + Z.of_nat i))
                (seq 1 (length requests))).
Proof.
  revert w.
  induction requests as [|[env sd] rest IH]; intros w Hok.
  - cbn [record_sessions length seq map fst snd].
    split; [reflexivity|]. now rewrite app_nil_r.
  - inversion Hok as [|? ? H1 H2]; subst. cbn [fst] in H1.
    destruct (add_session_next_number env w (sc_session_summary sd)
                (sc_session_date sd) user_id user_name H1)
      as (w' & ep & E & Hname & S').
    cbn [record_sessions]. rewrite E. cbn [fst snd].
    destruct (IH w' H2) as [I1 I2].
    rewrite I1, I2, S', length_app, map_app. cbn [length map seq].
    rewrite <- (seq_shift (length rest) 1), !map_map, <- app_assoc.
    cbn [app]. rewrite Hname.
    split.
    + f_equal. apply map_ext. intros i. f_equal. lia.
    + f_equal. f_equal. apply map_ext. intros i. do 2 f_equal. lia.
Qed.

Lemma record_sessions_numbers_witness :
  let three := [(Sample.env_ok, mkSessionCreate "slept badly" 1700000000 None);
                (Sample.env_ok, mkSessionCreate "slept better" 1700000100 None);
                (Sample.env_ok, mkSessionCreate "slept well" 1700000200 None)] in
  let r := record_sessions "u9" "Ann" three (Sample.world_of Store.empty) in
  fst r = [Some 1%Z; Some 2%Z; Some 3%Z]
  /\ map name (sessions_of "u9" (graph (snd r)))
     = ["Therapy Session 1"; "Therapy Session 2"; "Therapy Session 3"].
Proof.
  intros three.
  apply (record_sessions_numbers "u9" "Ann" three (Sample.world_of Store.empty)).
  repeat constructor.
Defined.

(** C4 fails as stated: with one session stored for the user and the
    session-count query failing, the call returns the number 1, not 2. *)
Lemma add_session_number_counterexample :
  let env := Sample.failing SessionCountQuery "connection lost" Sample.env_ok in
  let w := Sample.world_of Sample.two_users in
  length (sessions_of "u1" (graph w)) = 1
  /\ fst (SessionService.add_session "slept badly" 1700000000 "u1" "Alice"
                                     None env w)
     = inr ("uuid-episode", 1%Z)
  /\ (1%Z <> 1 + Z.of_nat (length (sessions_of "u1" (graph w))))%Z.
Proof.
  cbv zeta. split; [reflexivity|]. split; [reflexivity|]. discriminate.
Qed.

(** C9.  When the session-count query raises, _get_next_session_number
    returns 1 however many sessions are stored, logging a warning and
    leaving the store as it is; a recording without an explicit number then
    returns 1 and stores one more session named with the number 1, next to
    the sessions already stored. *)
Theorem next_session_number_on_failure (env : Env) (w : World)
    (user_id msg : string) :
  fault env SessionCountQuery = Some msg ->
  SessionService._get_next_session_number user_id env w
  = (inr 1%Z,
     mkWorld (graph w) (SessionCountQuery :: trace w)
             ((WARNING, "Could not get session count: " ++ msg) :: logs w))
  /\ (fault env AddEpisode = None ->
      forall (summary : string) (date : Z) (user_name : string),
      exists w' ep,
        SessionService.add_session summary date user_id user_name None env w
        = (inr (episode_uuid env, 1%Z), w')
        /\ name ep = "Therapy Session 1"
        /\ sessions_of user_id (graph w')
           = (sessions_of user_id (graph w) ++ [ep])%list).
Proof.
  intros Hc. split.
  - unfold SessionService._get_next_session_number. unfold_m.
    rewrite Hc. reflexivity.
  - intros Ha summary date user_name.
    unfold SessionService.add_session, SessionService._get_next_session_number,
      add_session_to_graph.
    unfold_m. rewrite Hc, Ha. cbn [graph trace logs].
    set (body := "Session " ++ str_int 1 ++ " for " ++ user_name ++ ": " ++ summary).
    destruct (add_episode_sessions env ("Therapy Session " ++ str_int 1) body
                                   user_id date (graph w))
      as (ep & E1 & E2 & E3 & E4).
    destruct (add_episode env ("Therapy Session " ++ str_int 1) body user_id date
                          (graph w)) as [res g'] eqn:Q.
    simpl in E1, E4. subst res.
    eexists. exists ep. rewrite E2. cbn [graph]. auto.
Qed.

Lemma next_session_number_on_failure_witness :
  let env := Sample.failing SessionCountQuery "connection lost" Sample.env_ok in
  let w := Sample.world_of Sample.two_users in
  In Sample.session1 (sessions_of "u1" (graph w))
  /\ name Sample.session1 = "Therapy Session 1"
  /\ exists w' ep,
       SessionService.add_session "slept badly" 1700000000 "u1" "Alice" None env w
       = (inr ("uuid-episode", 1%Z), w')
       /\ name ep = "Therapy Session 1"
       /\ sessions_of "u1" (graph w') = [Sample.session1; ep].
Proof.
  cbv zeta. split; [left; reflexivity|]. split; [reflexivity|].
  apply (proj2 (next_session_number_on_failure
                  (Sample.failing SessionCountQuery "connection lost" Sample.env_ok)
                  (Sample.world_of Sample.two_users) "u1"
                  "connection lost" eq_refl)
               eq_refl "slept badly" 1700000000%Z "Alice").
Defined.

(** ** Linking sessions to the user *)

Lemma has_session_created (group : string) (t : Z)
    (rows : list (Node * Node)) (p : Node * Node) :
  In p rows ->
  existsb (fun r => String.eqb (rtype r) "HAS_SESSION"
                    && Nat.eqb (src r) (nid (fst p))
                    && Nat.eqb (dst r) (nid (snd p)))
          (map (fun q => mkRel "HAS_SESSION" (nid (fst q)) (nid (snd q)) group t
                               None)
               rows)
  = true.
Proof.
  intros Hin. apply existsb_exists.
  exists (mkRel "HAS_SESSION" (nid (fst p)) (nid (snd p)) group t None).
  split.
  - apply in_map_iff. exists p. split; [reflexivity|assumption].
  - simpl. rewrite !Nat.eqb_refl. reflexivity.
Qed.

Lemma filter_none {A} (f : A -> bool) (l : list A) :
  (forall x, In x l -> f x = false) -> filter f l = [].
Proof.
  induction l as [|a l IH]; simpl; intros H; [reflexivity|].
  rewrite (H a (or_introl eq_refl)). apply IH. intros x Hx. apply H. now right.
Qed.

(** After the link query has run, every pair it matches is linked. *)
Lemma link_query_linked (user_uuid group : string) (t : Z) (g : Graph)
    (p : Node * Node) :
  In p (list_prod
          (filter (fun n => has_label "Entity" n && String.eqb (uuid n) user_uuid)
                  (nodes g))
          (filter (fun n => has_label "Episodic" n && String.eqb (group_id n) group)
                  (nodes g))) ->
  has_session (snd (link_query user_uuid group t g)) (fst p) (snd p) = true.
Proof.
  intros Hp. unfold link_query. cbn [snd]. unfold add_rels, has_session.
  cbn [rels]. rewrite existsb_app. apply orb_true_iff.
  destruct (has_session g (fst p) (snd p)) eqn:X.
  - left. exact X.
  - right. apply has_session_created.
    apply filter_In. split; [assumption|].
    change (negb (has_session g (fst p) (snd p)) = true).
    rewrite X. reflexivity.
Qed.

Lemma add_rels_nil (g : Graph) : add_rels [] g = g.
Proof. destruct g. unfold add_rels. simpl. now rewrite app_nil_r. Qed.

(** After the link query has run, it finds no row to link. *)
Lemma link_query_idempotent (user_uuid group : string) (t t' : Z) (g : Graph) :
  let g1 := snd (link_query user_uuid group t g) in
  link_query user_uuid group t' g1 = ([0], g1).
Proof.
  intros g1.
  assert (Hn : nodes g1 = nodes g) by reflexivity.
  pose proof (link_query_linked user_uuid group t g) as Hl. fold g1 in Hl.
  clearbody g1. unfold link_query. rewrite Hn.
  rewrite filter_none.
  - simpl. now rewrite add_rels_nil.
  - intros p Hp. rewrite (Hl p Hp). reflexivity.
Qed.

(** The record of the link query counts the relationships it creates, and
    it creates ownership links only. *)
Lemma link_query_count (user_uuid group : string) (t : Z) (g : Graph) :
  exists c,
    fst (link_query user_uuid group t g) = [c]
    /\ nodes (snd (link_query user_uuid group t g)) = nodes g
    /\ length (ownership_links (snd (link_query user_uuid group t g)))
       = length (ownership_links g) + c.
Proof.
  unfold link_query. cbn [snd fst]. unfold add_rels, ownership_links.
  cbn [nodes rels].
  set (rows := filter _ (list_prod _ _)).
  exists (length rows). split; [reflexivity|]. split; [reflexivity|].
  rewrite filter_app, length_app. f_equal.
  induction rows as [|p l IH]; simpl; [reflexivity|]. now rewrite IH.
Qed.

(** C7, as amended.  link_sessions_to_user never raises: it returns the
    number of ownership links it has created.  When its query fails it logs
    a warning, returns 0 and leaves the store as it is.  After a call whose
    query did not fail, a second call in succession for the same user
    returns 0 and creates no link, whether its own query fails or not. *)
Theorem link_sessions_twice (env1 env2 : Env) (w : World) (user_node : Node)
    (user_id : string) :
  let r1 := link_sessions_to_user user_node user_id env1 w in
  let r2 := link_sessions_to_user user_node user_id env2 (snd r1) in
  (exists c,
      fst r1 = inr c
      /\ length (ownership_links (graph (snd r1)))
         = length (ownership_links (graph w)) + c)
  /\ (forall msg,
         fault env1 LinkQuery = Some msg ->
         fst r1 = inr 0
         /\ graph (snd r1) = graph w
         /\ logs (snd r1)
            = (WARNING, "Could not create HAS_SESSION relationships: " ++ msg)
                :: logs w)
  /\ (fault env1 LinkQuery = None ->
      fst r2 = inr 0 /\ graph (snd r2) = graph (snd r1)).
Proof.
  cbv zeta. unfold link_sessions_to_user. unfold_m.
  destruct (fault env1 LinkQuery) as [m1|] eqn:F1.
  - simpl. split; [exists 0; split; [reflexivity|lia]|].
    split; [|discriminate].
    intros msg [= <-]. auto.
  - cbn [graph trace logs].
    pose proof (link_query_idempotent (uuid user_node) user_id (now env1)
                                      (now env2) (graph w)) as Hi.
    destruct (link_query_count (uuid user_node) user_id (now env1) (graph w))
      as (c & Hc & _ & Hl).
    destruct (link_query (uuid user_node) user_id (now env1) (graph w))
      as [records g1] eqn:Q.
    cbn [fst snd] in Hi, Hc, Hl. subst records. cbn [fst snd graph trace logs].
    split; [exists c; split; [reflexivity|exact Hl]|].
    split; [discriminate|].
    intros _.
    destruct (fault env2 LinkQuery) as [m2|] eqn:F2.
    + simpl. auto.
    + rewrite Hi. simpl. auto.
Qed.

Lemma link_sessions_twice_witness :
  let r1 := link_sessions_to_user Sample.alice "u1" Sample.env_ok
                                  (Sample.world_of Sample.two_users) in
  let r2 := link_sessions_to_user Sample.alice "u1" Sample.env_ok (snd r1) in
  fst r1 = inr 1 /\ fst r2 = inr 0 /\ graph (snd r2) = graph (snd r1).
Proof.
  cbv zeta. split; [reflexivity|].
  apply (proj2 (proj2 (link_sessions_twice Sample.env_ok Sample.env_ok
                         (Sample.world_of Sample.two_users) Sample.alice "u1"))).
  reflexivity.
Defined.

(** C7 fails as stated: when the query of the first call fails, the first
    call returns 0 and the second call in succession creates the link and
    returns 1. *)
Lemma link_sessions_twice_counterexample :
  let env1 := Sample.failing LinkQuery "connection lost" Sample.env_ok in
  let r1 := link_sessions_to_user Sample.alice "u1" env1
                                  (Sample.world_of Sample.two_users) in
  let r2 := link_sessions_to_user Sample.alice "u1" Sample.env_ok (snd r1) in
  fst r1 = inr 0
  /\ fst r2 = inr 1
  /\ length (ownership_links (graph (snd r1))) = 0
  /\ length (ownership_links (graph (snd r2))) = 1.
Proof. cbv zeta. repeat split; reflexivity. Qed.

(** ** Finding or creating the user *)

Lemma firstn_1_nil {A} (l : list A) : firstn 1 l = [] -> l = [].
Proof. destruct l; [reflexivity|discriminate]. Qed.

Lemma get_by_uuid_query_finds (g : Graph) (r : Node) :
  In r (nodes g) -> has_label "Entity" r = true ->
  exists n,
    get_by_uuid_query (uuid r) g = Some n
    /\ In n (nodes g) /\ has_label "Entity" n = true /\ uuid n = uuid r.
Proof.
  intros Hin Hl. unfold get_by_uuid_query.
  destruct (find _ (nodes g)) as [n|] eqn:F.
  - apply find_some in F. destruct F as [F1 F2].
    apply andb_true_iff in F2. destruct F2 as [F2 F3].
    apply String.eqb_eq in F3. eauto.
  - apply (find_none _ _ F) in Hin. rewrite Hl, String.eqb_refl in Hin.
    discriminate.
Qed.

Lemma find_user_query_head (group user_name : string) (g : Graph) (r : Node)
    (l : list Node) :
  find_user_query group user_name g = r :: l ->
  In r (nodes g) /\ has_label "Entity" r = true /\ group_id r = group.
Proof.
  unfold find_user_query. intros H.
  destruct (filter _ (nodes g)) as [|a f] eqn:E; [discriminate|].
  simpl in H. injection H as <- _.
  assert (Hin : In a (a :: f)) by now left.
  rewrite <- E in Hin. apply filter_In in Hin.
  destruct Hin as [H1 H2].
  apply andb_true_iff in H2. destruct H2 as [H2 _].
  apply andb_true_iff in H2. destruct H2 as [H2 H3].
  apply String.eqb_eq in H3. auto.
Qed.

(** The three outcomes of create_or_get_user_node: the lookup finds a node
    and the store is left as it is; or the call raises and the store is left
    as it is; or a new User entity is stored, which, when the lookup does not
    fail, happens only if the lookup finds nothing. *)
Lemma create_or_get_user_node_cases (env : Env) (w : World)
    (user_name user_id : string) :
  let r := create_or_get_user_node user_name user_id env w in
  (exists rec l n,
      find_user_query user_id user_name (graph w) = rec :: l
      /\ get_by_uuid_query (uuid rec) (graph w) = Some n
      /\ lookup_ok env
      /\ fst r = inr n /\ graph (snd r) = graph w)
  \/ (exists e, fst r = inl e /\ graph (snd r) = graph w)
  \/ (fst r = inr (fresh_user env user_name user_id (graph w))
      /\ graph (snd r)
         = add_node (fresh_user env user_name user_id (graph w)) (graph w)
      /\ (lookup_ok env -> find_user_query user_id user_name (graph w) = [])).
Proof.
  cbv zeta. unfold create_or_get_user_node, get_by_uuid, lookup_ok. unfold_m.
  destruct (fault env FindUserLookup) as [m1|] eqn:F1;
    [|destruct (find_user_query user_id user_name (graph w)) as [|rec l] eqn:Q;
      [|destruct (find_user_query_head _ _ _ _ _ Q) as (Hin & Hl & _);
        destruct (get_by_uuid_query_finds _ _ Hin Hl) as (n & G & _);
        cbn [graph trace logs fst snd];
        destruct (fault env LookupGetByUuid) as [m2|] eqn:F2;
        [|rewrite G]]];
    cbn [graph trace logs fst snd];
    try (destruct (fault env GenerateEmbedding) as [m3|] eqn:F3;
         [|destruct (fault env SaveUserNode) as [m4|] eqn:F4]);
    cbn [graph trace logs fst snd];
    try solve [right; left; eexists; split; reflexivity];
    try solve [right; right; split; [reflexivity|]; split; [reflexivity|];
               intros [? ?]; congruence];
    try solve [left; exists rec, l, n; repeat split; reflexivity || assumption].
Qed.

(** ** What the requests do to the nodes of the store *)

Lemma node_effect_same (env : Env) (g : Graph) : node_effect env g (nodes g).
Proof.
  apply (effect_episode env g (nodes g) "" []).
  - now rewrite app_nil_r.
  - constructor.
  - now left.
Qed.

(** A handler that only logs and raises does not touch the store. *)
Lemma try_except_graph {A} (m : M A) (h : Exn -> M A) (env : Env) (w : World) :
  (forall e w1, graph (snd (h e env w1)) = graph w1) ->
  graph (snd (try_except m h env w)) = graph (snd (m env w)).
Proof.
  intros H. unfold try_except.
  destruct (m env w) as [[e|a] w1]; [apply H|reflexivity].
Qed.

Lemma serve_graph {A} (c : nat) (route : M A) (env : Env) (w : World) :
  graph (snd (serve c route env w)) = graph (snd (route env w)).
Proof.
  unfold serve. destruct (route env w) as [[[m|s d]|a] w1]; reflexivity.
Qed.

Lemma link_sessions_nodes (user_node : Node) (user_id : string) (env : Env)
    (w : World) :
  nodes (graph (snd (link_sessions_to_user user_node user_id env w)))
  = nodes (graph w).
Proof.
  unfold link_sessions_to_user. unfold_m.
  destruct (fault env LinkQuery); [reflexivity|].
  destruct (link_query_count (uuid user_node) user_id (now env) (graph w))
    as (c & Hc & Hn & _).
  cbn [graph trace logs].
  destruct (link_query (uuid user_node) user_id (now env) (graph w))
    as [records g1].
  cbn [fst snd] in Hc, Hn. subst records. exact Hn.
Qed.

Lemma add_episode_nodes (env : Env) (ep_name body group : string) (t : Z)
    (g : Graph) :
  exists extra,
    nodes (snd (add_episode env ep_name body group t g))
    = (nodes g ++ extra)%list
    /\ engine_nodes group extra.
Proof.
  unfold add_episode. cbn [snd nodes].
  eexists. split; [reflexivity|].
  constructor; [split; reflexivity|].
  apply Forall_map. apply Forall_forall. intros p _. split; reflexivity.
Qed.

Lemma bind_run {A B} (m : M A) (k : A -> M B) (env : Env) (w : World) :
  bind m k env w
  = match m env w with
    | (inl x, w') => (inl x, w')
    | (inr a, w') => k a env w'
    end.
Proof. reflexivity. Qed.

Lemma backend_run {A} (s : Site) (q : Graph -> A * Graph) (env : Env)
    (w : World) :
  backend s q env w
  = match fault env s with
    | Some msg =>
        (inl (Exception msg), mkWorld (graph w) (s :: trace w) (logs w))
    | None =>
        let (a, g') := q (graph w) in
        (inr a, mkWorld g' (s :: trace w) (logs w))
    end.
Proof. reflexivity. Qed.

(** _get_next_session_number never raises and never writes. *)
Lemma next_session_number_returns (user_id : string) (env : Env) (w : World) :
  exists n w1,
    SessionService._get_next_session_number user_id env w = (inr n, w1)
    /\ graph w1 = graph w.
Proof.
  unfold SessionService._get_next_session_number. unfold_m.
  destruct (fault env SessionCountQuery); simpl; eauto.
Qed.

Lemma add_session_nodes (summary : string) (date : Z)
    (user_id user_name : string) (number : option Z) (env : Env) (w : World) :
  exists extra,
    nodes (graph (snd (SessionService.add_session summary date user_id user_name
                                                  number env w)))
    = (nodes (graph w) ++ extra)%list
    /\ engine_nodes user_id extra.
Proof.
  assert (Hadd : forall n w1,
    graph w1 = graph w ->
    exists extra,
      nodes (graph (snd (bind (add_session_to_graph summary date n user_id
                                                    user_name)
                              (fun u => ret (u, n)) env w1)))
      = (nodes (graph w) ++ extra)%list
      /\ engine_nodes user_id extra).
  { intros n w1 Hw. unfold add_session_to_graph. unfold_m.
    destruct (fault env AddEpisode).
    - exists []. cbn [snd graph]. rewrite Hw, app_nil_r. split; [reflexivity|constructor].
    - destruct (add_episode_nodes env ("Therapy Session " ++ str_int n)
                  ("Session " ++ str_int n ++ " for " ++ user_name ++ ": " ++ summary)
                  user_id date (graph w1)) as (extra & E1 & E2).
      destruct (add_episode env _ _ user_id date (graph w1)) as [res g'].
      cbn [snd] in E1. exists extra. rewrite <- Hw. split; [|exact E2].
      destruct res; exact E1. }
  unfold SessionService.add_session.
  destruct number as [n|].
  - apply (Hadd n w). reflexivity.
  - destruct (next_session_number_returns user_id env w) as (n & w1 & E & Hw).
    rewrite bind_run, E. apply Hadd. exact Hw.
Qed.

Lemma get_by_uuid_graph (s : Site) (u : string) (env : Env) (w : World) :
  graph (snd (get_by_uuid s u env w)) = graph w.
Proof.
  unfold get_by_uuid. unfold_m.
  destruct (fault env s); [reflexivity|].
  cbn. destruct (get_by_uuid_query u (graph w)); reflexivity.
Qed.

(** A match of a lookup is an entity of the partition. *)
Lemma match_is_entity (user_id : string) (p : Node -> bool) (g : Graph)
    (r : Node) (l : list Node) :
  firstn 1 (filter (fun user =>
                      has_label "Entity" user
                      && String.eqb (group_id user) user_id && p user)
                   (nodes g)) = r :: l ->
  entities_of user_id g <> [].
Proof.
  intros H.
  destruct (filter _ (nodes g)) as [|a f] eqn:E; [discriminate|].
  assert (Hin : In a (a :: f)) by now left.
  rewrite <- E in Hin. apply filter_In in Hin. destruct Hin as [H1 H2].
  apply andb_true_iff in H2. destruct H2 as [H2 _].
  intros Hnil.
  assert (Hin : In a (entities_of user_id g)).
  { apply filter_In. split; assumption. }
  rewrite Hnil in Hin. destruct Hin.
Qed.

Lemma create_user_graph (d : UserCreate) (env : Env) (w : World) :
  graph (snd (users.create_user d env w))
  = graph (snd (create_or_get_user_node (uc_user_name d) (uc_user_id d) env w)).
Proof.
  unfold users.create_user, UserService.create_or_get_user.
  rewrite try_except_graph.
  - rewrite bind_run.
    destruct (create_or_get_user_node _ _ env w) as [[e|n] w1]; reflexivity.
  - intros [m|c m] w1; reflexivity.
Qed.

Lemma create_or_get_effect (user_name user_id : string) (env : Env) (w : World) :
  node_effect env (graph w)
    (nodes (graph (snd (create_or_get_user_node user_name user_id env w)))).
Proof.
  destruct (create_or_get_user_node_cases env w user_name user_id)
    as [(rec & l & n & _ & _ & _ & _ & H)|[(e & _ & H)|(_ & H & Hl)]];
    rewrite H.
  - apply node_effect_same.
  - apply node_effect_same.
  - apply (effect_user env (graph w) _ user_name user_id []);
      [reflexivity|constructor|exact Hl].
Qed.

Lemma delete_user_data_effect (user_id : string) (env : Env) (w : World) :
  node_effect env (graph w) (nodes (graph (snd (delete_user_data user_id env w)))).
Proof.
  unfold delete_user_data. unfold_m.
  destruct (fault env DeleteCountQuery); [apply node_effect_same|].
  cbn [count_query fst snd graph trace logs].
  destruct (Nat.eqb _ 0); [apply node_effect_same|].
  cbn [graph trace logs].
  destruct (fault env DeleteQuery); [apply node_effect_same|].
  cbn. apply (effect_delete env (graph w) _ user_id). reflexivity.
Qed.

Lemma users_delete_user_graph (user_id : string) (env : Env) (w : World) :
  graph (snd (users.delete_user user_id env w))
  = graph (snd (delete_user_data user_id env w)).
Proof.
  unfold users.delete_user, UserService.delete_user.
  rewrite try_except_graph.
  - rewrite bind_run.
    destruct (delete_user_data user_id env w) as [[e|s] w1]; [reflexivity|].
    destruct (String.eqb (status s) "no_data_found"); reflexivity.
  - intros [m|c m] w1; reflexivity.
Qed.

Lemma users_get_user_graph (user_id : string) (env : Env) (w : World) :
  graph (snd (users.get_user user_id env w)) = graph w.
Proof.
  unfold users.get_user. rewrite try_except_graph.
  - unfold_m. destruct (fault env GetUserQuery); [reflexivity|].
    cbn [fst snd graph trace logs].
    destruct (users.find_user_query user_id (graph w)); reflexivity.
  - intros [m|c m] w1; reflexivity.
Qed.

Lemma profile_service_graph (query : string) (center : option string)
    (env : Env) (w : World) :
  graph (snd (ProfileService.search_profile query center env w)) = graph w.
Proof.
  unfold ProfileService.search_profile. unfold_m.
  destruct center as [c|]; [destruct (String.eqb c "")|];
    destruct (fault env EngineSearch); reflexivity.
Qed.

Lemma search_profile_graph (q : ProfileQuery) (env : Env) (w : World) :
  graph (snd (profile.search_profile q env w)) = graph w.
Proof.
  unfold profile.search_profile. rewrite try_except_graph.
  - rewrite bind_run.
    pose proof (profile_service_graph (pq_query q) None env w) as H.
    destruct (ProfileService.search_profile _ _ env w) as [[e|a] w1]; exact H.
  - intros [m|c m] w1; reflexivity.
Qed.

Lemma search_with_center_node_graph (q : CenterNodeQuery) (env : Env) (w : World) :
  graph (snd (profile.search_with_center_node q env w)) = graph w.
Proof.
  unfold profile.search_with_center_node. rewrite try_except_graph.
  - rewrite bind_run.
    pose proof (profile_service_graph (cq_query q) (Some (cq_center_node_uuid q))
                                      env w) as H.
    destruct (ProfileService.search_profile _ _ env w) as [[e|a] w1]; exact H.
  - intros [m|c m] w1; reflexivity.
Qed.

(** The rest of create_session once the user node is at hand. *)
Lemma create_session_rest (user_id : string) (sd : SessionCreate) (un : Node)
    (env : Env) (w2 : World) :
  let r :=
    bind (SessionService.add_session (sc_session_summary sd) (sc_session_date sd)
                                     user_id (name un) (sc_session_number sd))
         (fun r =>
            ret (mkSessionResponse
                   (user_id ++ "_session_" ++ str_int (snd r)) (snd r)
                   (sc_session_date sd) (fst r)
                   ("Session " ++ str_int (snd r) ++ " added successfully"),
                 UserService.link_user_sessions un user_id))
         env w2 in
  (exists extra,
      nodes (graph (snd r)) = (nodes (graph w2) ++ extra)%list
      /\ engine_nodes user_id extra)
  /\ (forall resp task,
         fst r = inr (resp, task) ->
         exists un', task = link_sessions_to_user un' user_id).
Proof.
  cbv zeta. rewrite bind_run.
  destruct (add_session_nodes (sc_session_summary sd) (sc_session_date sd)
              user_id (name un) (sc_session_number sd) env w2)
    as (extra & E1 & E2).
  destruct (SessionService.add_session _ _ _ _ _ env w2) as [[e|p] w3].
  - cbn [fst snd] in *. split; [eauto|]. intros resp task H. discriminate H.
  - cbn [fst snd ret] in *. split; [eauto|].
    intros resp task [= <- <-]. exists un. reflexivity.
Qed.

Lemma create_session_effect (user_id : string) (sd : SessionCreate) (env : Env)
    (w : World) :
  let r := sessions.create_session user_id sd env w in
  node_effect env (graph w) (nodes (graph (snd r)))
  /\ (forall resp task,
         fst r = inr (resp, task) ->
         exists un, task = link_sessions_to_user un user_id).
Proof.
  cbv zeta. unfold sessions.create_session. unfold try_except.
  match goal with
  | |- context [match ?b env w with _ => _ end] => set (body := b)
  end.
  assert (Hbody :
    node_effect env (graph w) (nodes (graph (snd (body env w))))
    /\ (forall resp task,
           fst (body env w) = inr (resp, task) ->
           exists un, task = link_sessions_to_user un user_id)).
  { subst body. rewrite bind_run, backend_run.
    destruct (fault env SessionFindUser).
    { cbn [fst snd graph]. split; [apply node_effect_same|discriminate]. }
    unfold reads. cbn iota beta.
    set (w1 := mkWorld (graph w) (SessionFindUser :: trace w) (logs w)).
    rewrite bind_run.
    destruct (sessions.find_user_query user_id (graph w)) as [|rec l] eqn:Q.
    - unfold UserService.create_or_get_user.
      pose proof (create_or_get_user_node_cases env w1 ("User_" ++ user_id) user_id)
        as Hc.
      cbv zeta in Hc.
      destruct (create_or_get_user_node ("User_" ++ user_id) user_id env w1)
        as [[e|un] w2].
      + cbn [fst snd] in *.
        destruct Hc as [(? & ? & ? & _ & _ & _ & H & _)|[(? & _ & H)|(H & _)]];
          try discriminate.
        rewrite H. split; [apply node_effect_same|discriminate].
      + cbn [fst snd] in Hc.
        destruct (create_session_rest user_id sd un env w2)
          as [(extra & E1 & E2) Ht].
        cbv zeta in E1, Ht. split; [|exact Ht]. rewrite E1.
        destruct Hc as [(r0 & l0 & n0 & Hq & _ & _ & _ & H)|[(? & H & _)|(_ & H & Hl)]];
          try discriminate.
        * rewrite H. apply (effect_episode env (graph w) _ user_id extra);
            [reflexivity|exact E2|].
          right.
          apply (match_is_entity user_id
                   (fun user => has_label "User" user
                                || String.eqb (name user) ("User_" ++ user_id))
                   (graph w) r0 l0).
          exact Hq.
        * rewrite H. cbn [add_node nodes w1 graph]. rewrite <- app_assoc.
          apply (effect_user env (graph w) _ ("User_" ++ user_id) user_id extra);
            [reflexivity|exact E2|exact Hl].
    - pose proof (get_by_uuid_graph SessionGetByUuid (uuid rec) env w1) as Hg.
      destruct (get_by_uuid SessionGetByUuid (uuid rec) env w1) as [[e|un] w2].
      + cbn [fst snd] in *. rewrite Hg.
        split; [apply node_effect_same|discriminate].
      + cbn [fst snd] in Hg.
        destruct (create_session_rest user_id sd un env w2)
          as [(extra & E1 & E2) Ht].
        cbv zeta in E1, Ht. split; [|exact Ht]. rewrite E1, Hg.
        apply (effect_episode env (graph w) _ user_id extra);
          [reflexivity|exact E2|].
        right.
        apply (match_is_entity user_id (fun user => has_label "User" user)
                               (graph w) rec l).
        exact Q. }
  destruct Hbody as [H1 H2].
  destruct (body env w) as [[[m|c m]|[resp task]] w1]; cbn [fst snd] in *.
  - split; [exact H1|discriminate].
  - split; [exact H1|discriminate].
  - split; [exact H1|exact H2].
Qed.

(** Every request has one of the three effects on the nodes of the store. *)
Lemma handle_effect (r : Request) (env : Env) (w : World) :
  node_effect env (graph w) (nodes (graph (handle r env w))).
Proof.
  destruct r as [d|u|u|u sd|q|q]; unfold handle.
  - unfold http_post_users. rewrite serve_graph, create_user_graph.
    apply create_or_get_effect.
  - unfold http_get_users. rewrite serve_graph, users_get_user_graph.
    apply node_effect_same.
  - unfold http_delete_users. rewrite serve_graph, users_delete_user_graph.
    apply delete_user_data_effect.
  - unfold http_post_sessions.
    destruct (create_session_effect u sd env w) as [H1 H2]. cbv zeta in H1, H2.
    rewrite <- serve_graph with (c := 201) in H1.
    unfold serve in *.
    destruct (sessions.create_session u sd env w) as [[[m|c m]|[resp task]] w1];
      cbn [fst snd] in *; try exact H1.
    destruct (H2 resp task eq_refl) as [un ->].
    rewrite link_sessions_nodes. exact H1.
  - unfold http_post_profile_search. rewrite serve_graph, search_profile_graph.
    apply node_effect_same.
  - unfold http_post_profile_search_center_node.
    rewrite serve_graph, search_with_center_node_graph.
    apply node_effect_same.
Qed.

(** ** The invariants of the store *)

Lemma engine_nodes_no_user (user_id user_id' : string) (extra : list Node) :
  engine_nodes user_id extra -> filter (is_user user_id') extra = [].
Proof.
  intros H. apply filter_none. intros n Hn.
  unfold engine_nodes in H. rewrite Forall_forall in H.
  destruct (H n Hn) as [_ Hu]. unfold is_user. rewrite Hu.
  apply andb_false_r.
Qed.

Lemma engine_nodes_other_partition (user_id user_id' : string)
    (extra : list Node) :
  engine_nodes user_id extra -> user_id <> user_id' ->
  filter (fun n => has_label "Entity" n && String.eqb (group_id n) user_id')
         extra = [].
Proof.
  intros H Hne. apply filter_none. intros n Hn.
  unfold engine_nodes in H. rewrite Forall_forall in H.
  destruct (H n Hn) as [Hg _]. rewrite Hg.
  apply String.eqb_neq in Hne. rewrite Hne. apply andb_false_r.
Qed.

Lemma filter_filter_length {A} (f p : A -> bool) (l : list A) :
  length (filter f (filter p l)) <= length (filter f l).
Proof.
  induction l as [|a l IH]; simpl; [lia|].
  destruct (p a), (f a) eqn:E; simpl; try rewrite E; simpl; lia.
Qed.

Lemma filter_filter_keep {A} (f p : A -> bool) (l : list A) :
  (forall x, f x = true -> p x = true) -> filter f (filter p l) = filter f l.
Proof.
  intros H. induction l as [|a l IH]; simpl; [reflexivity|].
  destruct (f a) eqn:E.
  - rewrite (H a E). simpl. rewrite E. now f_equal.
  - destruct (p a); simpl; [rewrite E|]; exact IH.
Qed.

Lemma no_match_no_user (user_id user_name : string) (g : Graph) :
  find_user_query user_id user_name g = [] -> users_of user_id g = [].
Proof.
  unfold find_user_query, users_of. intros H. apply firstn_1_nil in H.
  apply filter_none. intros n Hn.
  destruct (is_user user_id n) eqn:E; [|reflexivity].
  unfold is_user in E.
  apply andb_true_iff in E. destruct E as [E1 E2].
  assert (Hin : In n (filter (fun user =>
               has_label "Entity" user && String.eqb (group_id user) user_id
               && (has_label "User" user || String.eqb (name user) user_name))
            (nodes g))).
  { apply filter_In. split; [assumption|]. rewrite E1, E2. reflexivity. }
  rewrite H in Hin. destruct Hin.
Qed.

(** When the lookup does not fail, no effect of a request makes a second
    User entity in a partition. *)
Lemma node_effect_at_most_one (env : Env) (g g' : Graph) :
  lookup_ok env -> node_effect env g (nodes g') ->
  at_most_one_user g -> at_most_one_user g'.
Proof.
  intros Hok He Hinv uid. specialize (Hinv uid). unfold users_of in *.
  destruct He as [u extra E Hx _|nm u extra E Hx Hl|u E]; rewrite E.
  - rewrite filter_app, (engine_nodes_no_user u uid extra Hx), app_nil_r.
    exact Hinv.
  - rewrite filter_app. cbn [filter].
    rewrite (engine_nodes_no_user u uid extra Hx).
    destruct (is_user uid (fresh_user env nm u g)) eqn:I.
    + unfold is_user in I. cbn [fresh_user group_id] in I.
      apply andb_true_iff in I. destruct I as [I _].
      apply andb_true_iff in I. destruct I as [_ I].
      apply String.eqb_eq in I. subst uid.
      pose proof (no_match_no_user u nm g (Hl Hok)) as Hn.
      unfold users_of in Hn. rewrite Hn. simpl. lia.
    + rewrite app_nil_r. exact Hinv.
  - etransitivity; [apply filter_filter_length|exact Hinv].
Qed.

(** C6, as amended.  Requests served one after the other, in environments
    where the lookup of create_or_get_user_node does not fail, keep at most
    one User entity per partition key, from every store that has at most
    one; the empty store is such a store. *)
Theorem one_user_per_partition (steps : list (Request * Env)) (w : World) :
  Forall (fun s => lookup_ok (snd s)) steps ->
  at_most_one_user (graph w) ->
  at_most_one_user (graph (run steps w))
  /\ at_most_one_user (graph (run steps (mkWorld Store.empty [] []))).
Proof.
  intros Hok.
  assert (H : forall w0, at_most_one_user (graph w0) ->
                         at_most_one_user (graph (run steps w0))).
  { induction steps as [|[r env] rest IH]; intros w0 H0; simpl; [exact H0|].
    inversion Hok as [|? ? H1 H2]; subst. simpl in H1.
    apply (IH H2).
    apply (node_effect_at_most_one env (graph w0)); [exact H1| |exact H0].
    apply handle_effect. }
  intros Hw. split; [apply H; exact Hw|].
  apply H. intros uid. simpl. lia.
Qed.

Lemma one_user_per_partition_witness :
  let steps :=
    [(PostUser (mkUserCreate "Alice" "u1"), Sample.env_ok);
     (PostSession "u1" (mkSessionCreate "slept badly" 1700000000 None),
      Sample.env_ok);
     (PostUser (mkUserCreate "Alicia" "u1"), Sample.drawing "uuid-2" Sample.env_ok);
     (PostSession "u2" (mkSessionCreate "afraid of flying" 1700000100 None),
      Sample.drawing "uuid-3" Sample.env_ok)] in
  at_most_one_user (graph (run steps (mkWorld Store.empty [] []))).
Proof.
  intros steps.
  apply (one_user_per_partition steps (mkWorld Store.empty [] [])).
  - repeat constructor.
  - intros uid. simpl. lia.
Defined.

(** C6 fails as stated: the user is created, then created again in an
    environment where the lookup fails; the failure is swallowed and the
    partition holds two User entities. *)
Lemma one_user_per_partition_counterexample :
  let steps :=
    [(PostUser (mkUserCreate "Alice" "u1"), Sample.env_ok);
     (PostUser (mkUserCreate "Alice" "u1"),
      Sample.failing FindUserLookup "connection lost"
                     (Sample.drawing "uuid-2" Sample.env_ok))] in
  let g := graph (run steps (mkWorld Store.empty [] [])) in
  map uuid (users_of "u1" g) = ["uuid-new"; "uuid-2"]
  /\ ~ at_most_one_user g.
Proof.
  cbv zeta. split; [reflexivity|].
  intros H. specialize (H "u1"). vm_compute in H. lia.
Qed.

(** ** Idempotence of create_or_get_user_node *)

(** When the lookup does not fail and finds a record, the node of that uuid
    is returned and nothing is written. *)
Lemma create_or_get_found (env : Env) (w : World) (user_name user_id : string)
    (rec : Node) (l : list Node) :
  lookup_ok env ->
  find_user_query user_id user_name (graph w) = rec :: l ->
  exists n w',
    create_or_get_user_node user_name user_id env w = (inr n, w')
    /\ uuid n = uuid rec /\ In n (nodes (graph w)) /\ graph w' = graph w.
Proof.
  intros [F1 F2] Q.
  destruct (find_user_query_head _ _ _ _ _ Q) as (Hin & Hl & _).
  destruct (get_by_uuid_query_finds _ _ Hin Hl) as (n & G & Gin & _ & Gu).
  unfold create_or_get_user_node, get_by_uuid. unfold_m.
  rewrite F1. cbn [fst snd graph trace logs]. rewrite Q.
  cbn [graph trace logs]. rewrite F2, G.
  eexists. eexists. split; [reflexivity|]. auto.
Qed.

(** The model's lookup is the lookup whose LIMIT 1 returns the first row. *)
Lemma create_or_get_user_node_by_first_row (user_name user_id : string) :
  create_or_get_user_node_by first_row user_name user_id
  = create_or_get_user_node user_name user_id.
Proof. reflexivity. Qed.

Lemma limit_1_first_row : limit_1 first_row.
Proof. intros [|a [|b l]]; cbn; auto. Qed.

Lemma limit_1_last_row : limit_1 last_row.
Proof.
  intros rows. unfold last_row. destruct (rev rows) as [|a l] eqn:E.
  - cbn. apply (f_equal (@rev Node)) in E. rewrite rev_involutive in E.
    exact E.
  - cbn. apply in_rev. rewrite E. now left.
Qed.

(** When no entity of the partition other than a User entity bears the name
    asked for, the rows that match the lookup are the User entities of the
    partition. *)
Lemma lookup_rows_are_users (user_id user_name : string) (g : Graph) :
  (forall e, In e (entities_of user_id g) -> name e = user_name ->
             has_label "User" e = true) ->
  filter (fun user =>
            has_label "Entity" user && String.eqb (group_id user) user_id
            && (has_label "User" user || String.eqb (name user) user_name))
         (nodes g)
  = users_of user_id g.
Proof.
  intros H. unfold users_of, is_user. apply filter_ext_in. intros x Hx.
  destruct (has_label "Entity" x && String.eqb (group_id x) user_id) eqn:E;
    [|reflexivity].
  destruct (has_label "User" x) eqn:U; [reflexivity|].
  destruct (String.eqb (name x) user_name) eqn:N; [|reflexivity].
  apply String.eqb_eq in N.
  rewrite H in U; [discriminate| |exact N].
  apply filter_In. split; assumption.
Qed.

(** Whatever row LIMIT 1 returns: when the lookup does not fail, a row that
    it returns leads to the node of that uuid, and nothing is written. *)
Lemma create_or_get_by_found (limit : list Node -> list Node) (env : Env)
    (w : World) (user_name user_id : string) (r : Node) (l : list Node) :
  lookup_ok env ->
  find_user_query_by limit user_id user_name (graph w) = r :: l ->
  In r (nodes (graph w)) -> has_label "Entity" r = true ->
  exists n w',
    create_or_get_user_node_by limit user_name user_id env w = (inr n, w')
    /\ uuid n = uuid r /\ graph w' = graph w.
Proof.
  intros [F1 F2] Q Hin Hl.
  destruct (get_by_uuid_query_finds _ _ Hin Hl) as (n & G & _ & _ & Gu).
  unfold create_or_get_user_node_by, get_by_uuid. unfold_m.
  rewrite F1. cbn [fst snd graph trace logs]. rewrite Q.
  cbn [graph trace logs]. rewrite F2, G.
  eexists. eexists. split; [reflexivity|]. auto.
Qed.

(** Whatever row LIMIT 1 returns: when the lookup finds no row and the call
    returns, it has stored the node it returns. *)
Lemma create_or_get_by_absent (limit : list Node -> list Node) (env : Env)
    (w w1 : World) (user_name user_id : string) (n1 : Node) :
  fault env FindUserLookup = None ->
  find_user_query_by limit user_id user_name (graph w) = [] ->
  create_or_get_user_node_by limit user_name user_id env w = (inr n1, w1) ->
  n1 = fresh_user env user_name user_id (graph w)
  /\ graph w1 = add_node (fresh_user env user_name user_id (graph w)) (graph w).
Proof.
  intros F1 Q. unfold create_or_get_user_node_by. unfold_m.
  rewrite F1. cbn [fst snd graph trace logs]. rewrite Q.
  cbn [graph trace logs].
  destruct (fault env GenerateEmbedding); [discriminate|].
  cbn [graph trace logs].
  destruct (fault env SaveUserNode); [discriminate|].
  cbn [graph trace logs save fst snd].
  intros H. injection H as <- <-. split; reflexivity.
Qed.

Lemma limit_1_nil (limit : list Node -> list Node) :
  limit_1 limit -> limit [] = [].
Proof.
  intros L. specialize (L []). destruct (limit []) as [|r [|r' l]];
    [reflexivity|destruct L|destruct L].
Qed.

Lemma limit_1_singleton (limit : list Node -> list Node) (x : Node) :
  limit_1 limit -> limit [x] = [x].
Proof.
  intros L. specialize (L [x]). destruct (limit [x]) as [|r [|r' l]].
  - discriminate L.
  - destruct L as [<-|[]]. reflexivity.
  - destruct L.
Qed.

Lemma users_of_stored (user_id : string) (g : Graph) (u : Node) :
  In u (users_of user_id g) -> In u (nodes g) /\ has_label "Entity" u = true.
Proof.
  intros H. unfold users_of, is_user in H. apply filter_In in H.
  destruct H as [Hi Hp]. split; [exact Hi|].
  apply andb_true_iff in Hp. destruct Hp as [Hp _].
  apply andb_true_iff in Hp. tauto.
Qed.

(** C5, as amended.  Whatever rows the LIMIT 1 of the two lookups return:
    in a partition that holds at most one User entity and no other entity
    bearing either of the display names, two calls of
    create_or_get_user_node in succession with the same external identifier,
    neither lookup failing, return the same uuid, whether the display names
    agree or not, and the second call writes nothing; and when a User entity
    exists in the partition, the first call returns its uuid and writes
    nothing. *)
Theorem create_or_get_user_node_idempotent
    (limit1 limit2 : list Node -> list Node) (w : World) (env1 env2 : Env)
    (name1 name2 user_id : string) (n1 : Node) (w1 : World) :
  limit_1 limit1 -> limit_1 limit2 ->
  lookup_ok env1 -> lookup_ok env2 ->
  length (users_of user_id (graph w)) <= 1 ->
  (forall e, In e (entities_of user_id (graph w)) ->
             name e = name1 \/ name e = name2 -> has_label "User" e = true) ->
  create_or_get_user_node_by limit1 name1 user_id env1 w = (inr n1, w1) ->
  (exists n2 w2,
      create_or_get_user_node_by limit2 name2 user_id env2 w1 = (inr n2, w2)
      /\ uuid n2 = uuid n1 /\ graph w2 = graph w1)
  /\ (forall u,
         In u (users_of user_id (graph w)) ->
         uuid n1 = uuid u /\ graph w1 = graph w).
Proof.
  intros L1 L2 Hok1 Hok2 Hone Hnames C1.
  assert (R1 : find_user_query_by limit1 user_id name1 (graph w)
               = limit1 (users_of user_id (graph w))).
  { unfold find_user_query_by. rewrite lookup_rows_are_users; [reflexivity|].
    intros e He Hn. apply (Hnames e He). now left. }
  assert (R2 : find_user_query_by limit2 user_id name2 (graph w)
               = limit2 (users_of user_id (graph w))).
  { unfold find_user_query_by. rewrite lookup_rows_are_users; [reflexivity|].
    intros e He Hn. apply (Hnames e He). now right. }
  destruct (users_of user_id (graph w)) as [|u [|u' rest]] eqn:U.
  - (* no User entity: the first call stores one, the second finds it *)
    rewrite (limit_1_nil limit1 L1) in R1.
    destruct (create_or_get_by_absent limit1 env1 w w1 name1 user_id n1
                (proj1 Hok1) R1 C1) as [-> Hg].
    set (un := fresh_user env1 name1 user_id (graph w)) in *.
    assert (Q2 : find_user_query_by limit2 user_id name2 (graph w1) = [un]).
    { unfold find_user_query_by in *. rewrite Hg. unfold add_node.
      cbn [nodes]. rewrite filter_app.
      rewrite (limit_1_nil limit2 L2) in R2.
      rewrite lookup_rows_are_users, U.
      - cbn [app filter un fresh_user group_id].
        rewrite String.eqb_refl. cbn [andb orb has_label existsb].
        apply (limit_1_singleton limit2 _ L2).
      - intros e He Hn. apply (Hnames e He). now right. }
    split; [|intros u []].
    destruct (create_or_get_by_found limit2 env2 w1 name2 user_id un [] Hok2 Q2)
      as (n2 & w2 & C2 & U2 & G2).
    + rewrite Hg. cbn [add_node nodes]. apply in_or_app. right. now left.
    + reflexivity.
    + exists n2, w2. auto.
  - (* one User entity: both calls return the node of its uuid *)
    rewrite (limit_1_singleton limit1 u L1) in R1.
    rewrite (limit_1_singleton limit2 u L2) in R2.
    assert (Hu : In u (users_of user_id (graph w))) by (rewrite U; now left).
    destruct (users_of_stored user_id (graph w) u Hu) as [Hin Hl].
    destruct (create_or_get_by_found limit1 env1 w name1 user_id u [] Hok1 R1
                Hin Hl) as (n & w' & C & Un & G).
    rewrite C1 in C. injection C as <- <-.
    split.
    + rewrite <- G in R2, Hin.
      destruct (create_or_get_by_found limit2 env2 w1 name2 user_id u [] Hok2
                  R2 Hin Hl) as (n2 & w2 & C2 & U2 & G2).
      exists n2, w2. repeat split; [exact C2|congruence|exact G2].
    + intros u0 [<-|[]]. split; [exact Un|exact G].
  - cbn [length] in Hone. lia.
Qed.

Lemma create_or_get_user_node_idempotent_witness :
  let w := Sample.world_of Sample.two_users in
  exists n1 w1,
    create_or_get_user_node_by last_row "Alicia" "u1" Sample.env_ok w
    = (inr n1, w1)
    /\ uuid n1 = "uuid-alice"
    /\ (exists n2 w2,
           create_or_get_user_node_by first_row "Bob" "u1" Sample.env_ok w1
           = (inr n2, w2)
           /\ uuid n2 = uuid n1 /\ graph w2 = graph w1)
    /\ (forall u,
           In u (users_of "u1" (graph w)) ->
           uuid n1 = uuid u /\ graph w1 = graph w).
Proof.
  intros w. eexists. eexists. split; [reflexivity|]. split; [reflexivity|].
  apply (create_or_get_user_node_idempotent
           last_row first_row w Sample.env_ok Sample.env_ok
           "Alicia" "Bob" "u1").
  - exact limit_1_last_row.
  - exact limit_1_first_row.
  - split; reflexivity.
  - split; reflexivity.
  - cbn. lia.
  - intros e He [Hn|Hn]; cbn in He;
      destruct He as [<-|[<-|[]]]; try reflexivity; discriminate Hn.
  - reflexivity.
Defined.

(** C5 fails as stated, in three ways.  A lookup that raises is swallowed:
    the user exists and a first call returns it, the lookup of a second
    call with the same identifier and name fails, and the call stores and
    returns a new User entity with another uuid.  An entity that bears the
    name is returned in place of the user: with the user and an extracted
    entity named Bob in the partition and a LIMIT 1 that returns the last
    row that matches, a call for Alice returns the user and a call for Bob
    that follows returns the extracted entity, both lookups succeeding.
    And of two User entities of a partition either may be returned. *)
Lemma create_or_get_user_node_counterexample :
  let w := run [(PostUser (mkUserCreate "Alice" "u1"), Sample.env_ok)]
               (mkWorld Store.empty [] []) in
  let env2 := Sample.failing FindUserLookup "connection lost"
                             (Sample.drawing "uuid-2" Sample.env_ok) in
  let r1 := create_or_get_user_node "Alice" "u1" Sample.env_ok w in
  let r2 := create_or_get_user_node "Alice" "u1" env2 (snd r1) in
  let w' := run [(PostUser (mkUserCreate "Alice" "u1"), Sample.env_ok);
                 (PostSession "u1" (mkSessionCreate "Bob is afraid of flying"
                                                    1700000000 None),
                  Sample.extracting ("uuid-e1", "Bob") ("uuid-e2", "flying")
                                    Sample.bob_fact Sample.env_ok)]
                (mkWorld Store.empty [] []) in
  let s1 := create_or_get_user_node_by last_row "Alice" "u1" Sample.env_ok w' in
  let s2 := create_or_get_user_node_by last_row "Bob" "u1" Sample.env_ok
                                       (snd s1) in
  let t1 := create_or_get_user_node_by first_row "Alice" "u1" Sample.env_ok
                                       (snd r2) in
  let t2 := create_or_get_user_node_by last_row "Alice" "u1" Sample.env_ok
                                       (snd t1) in
  (map uuid (users_of "u1" (graph w)) = ["uuid-new"]
   /\ (exists n1 n2,
          fst r1 = inr n1 /\ fst r2 = inr n2
          /\ uuid n1 = "uuid-new" /\ uuid n2 = "uuid-2" /\ uuid n1 <> uuid n2)
   /\ map uuid (users_of "u1" (graph (snd r2))) = ["uuid-new"; "uuid-2"])
  /\ (map uuid (entities_of "u1" (graph w'))
      = ["uuid-new"; "uuid-e1"; "uuid-e2"]
      /\ (exists n1 n2,
             fst s1 = inr n1 /\ fst s2 = inr n2
             /\ uuid n1 = "uuid-new" /\ uuid n2 = "uuid-e1"
             /\ uuid n1 <> uuid n2)
      /\ trace (snd s2)
         = LookupGetByUuid :: FindUserLookup :: LookupGetByUuid
             :: FindUserLookup :: trace w')
  /\ (exists n1 n2,
         fst t1 = inr n1 /\ fst t2 = inr n2
         /\ uuid n1 = "uuid-new" /\ uuid n2 = "uuid-2" /\ uuid n1 <> uuid n2).
Proof.
  cbv zeta. split; [|split].
  - split; [reflexivity|]. split; [|reflexivity].
    eexists. eexists. split; [reflexivity|]. split; [reflexivity|].
    split; [reflexivity|]. split; [reflexivity|]. discriminate.
  - split; [reflexivity|]. split; [|reflexivity].
    eexists. eexists. split; [reflexivity|]. split; [reflexivity|].
    split; [reflexivity|]. split; [reflexivity|]. discriminate.
  - eexists. eexists. split; [reflexivity|]. split; [reflexivity|].
    split; [reflexivity|]. split; [reflexivity|]. discriminate.
Qed.

(** ** The response of POST /api/v1/users *)

Lemma users_find_user_query_users (user_id : string) (g : Graph) :
  users.find_user_query user_id g = firstn 1 (users_of user_id g).
Proof. reflexivity. Qed.

(** When the lookup does not fail and returns a row, create_user answers
    with the names of the request and with the uuid, the creation time and
    the summary of the node fetched by the uuid of the row, and writes
    nothing. *)
Lemma create_user_found (env : Env) (w : World) (d : UserCreate)
    (row : Node) (rest : list Node) :
  lookup_ok env ->
  find_user_query (uc_user_id d) (uc_user_name d) (graph w) = row :: rest ->
  exists n,
    get_by_uuid_query (uuid row) (graph w) = Some n
    /\ fst (users.create_user d env w)
       = inr (mkUserResponse (uc_user_id d) (uc_user_name d) (uuid row)
                             (created_at n) (summary n))
    /\ graph (snd (users.create_user d env w)) = graph w.
Proof.
  intros [F1 F2] Q.
  destruct (find_user_query_head _ _ _ _ _ Q) as (Hin & Hl & _).
  destruct (get_by_uuid_query_finds _ _ Hin Hl) as (n & G & _ & _ & Gu).
  exists n. split; [exact G|].
  unfold users.create_user, UserService.create_or_get_user,
    create_or_get_user_node, get_by_uuid.
  unfold_m. rewrite F1. cbn [fst snd graph trace logs]. rewrite Q.
  cbn [graph trace logs]. rewrite F2, G. cbn [fst snd graph]. rewrite Gu.
  split; reflexivity.
Qed.

(** C10.  Whenever POST /api/v1/users answers, the user_id and the user_name
    of its response are those of the request body.  When its lookup does
    not fail and returns a row, it answers with the names of the request and
    with the uuid of the row and the creation time and the summary of the
    node stored under that uuid, and it writes nothing.  So, in a partition
    whose User entity is the only entity the lookup can match, POST answers
    with the name of the request and the uuid, the creation time and the
    summary of the stored User entity, drawing no new uuid and storing
    nothing, while the GET that follows answers with the same uuid, creation
    time and summary and with the stored name. *)
Theorem create_user_echoes_request (env env' : Env) (w : World)
    (d : UserCreate) :
  let r := users.create_user d env w in
  (forall resp,
      fst r = inr resp ->
      ur_user_id resp = uc_user_id d /\ ur_user_name resp = uc_user_name d)
  /\ (lookup_ok env ->
      forall row rest,
        find_user_query (uc_user_id d) (uc_user_name d) (graph w)
        = row :: rest ->
        exists n,
          get_by_uuid_query (uuid row) (graph w) = Some n
          /\ fst r = inr (mkUserResponse (uc_user_id d) (uc_user_name d)
                                         (uuid row) (created_at n) (summary n))
          /\ graph (snd r) = graph w)
  /\ (lookup_ok env -> fault env' GetUserQuery = None ->
      forall u,
        users_of (uc_user_id d) (graph w) = [u] ->
        (forall e, In e (entities_of (uc_user_id d) (graph w)) ->
                   name e = uc_user_name d -> has_label "User" e = true) ->
        get_by_uuid_query (uuid u) (graph w) = Some u ->
        fst r = inr (mkUserResponse (uc_user_id d) (uc_user_name d) (uuid u)
                                    (created_at u) (summary u))
        /\ graph (snd r) = graph w
        /\ fst (users.get_user (uc_user_id d) env' (snd r))
           = inr (mkUserResponse (uc_user_id d) (name u) (uuid u)
                                 (created_at u) (summary u))).
Proof.
  cbv zeta. split; [|split].
  - intros resp H.
    unfold users.create_user, UserService.create_or_get_user in H.
    unfold try_except in H. rewrite bind_run in H.
    destruct (create_or_get_user_node (uc_user_name d) (uc_user_id d) env w)
      as [[e|n] w1].
    { destruct e; discriminate H. }
    cbn [ret fst] in H. injection H as <-. split; reflexivity.
  - intros Hok row rest Q. exact (create_user_found env w d row rest Hok Q).
  - intros Hok Fg u U Hnames G.
    assert (Q : find_user_query (uc_user_id d) (uc_user_name d) (graph w)
                = [u]).
    { unfold find_user_query.
      rewrite (lookup_rows_are_users _ _ _ Hnames), U. reflexivity. }
    destruct (create_user_found env w d u [] Hok Q) as (n & G' & R & Hg).
    rewrite G in G'. injection G' as <-.
    split; [exact R|]. split; [exact Hg|].
    unfold users.get_user, try_except.
    rewrite bind_run, backend_run, Fg.
    unfold reads. cbn iota beta.
    rewrite users_find_user_query_users, Hg, U. reflexivity.
Qed.

Lemma create_user_echoes_request_witness :
  let w := Sample.world_of Sample.two_users in
  let r := users.create_user (mkUserCreate "Alicia" "u1") Sample.env_ok w in
  new_uuid Sample.env_ok = "uuid-new"
  /\ fst r = inr (mkUserResponse "u1" "Alicia" "uuid-alice" 1600000000
                                 (Some "User profile for Alice"))
  /\ graph (snd r) = Sample.two_users
  /\ fst (users.get_user "u1" Sample.env_ok (snd r))
     = inr (mkUserResponse "u1" "Alice" "uuid-alice" 1600000000
                           (Some "User profile for Alice")).
Proof.
  intros w r. split; [reflexivity|].
  refine (proj2 (proj2 (create_user_echoes_request
                          Sample.env_ok Sample.env_ok w
                          (mkUserCreate "Alicia" "u1")))
                 _ _ Sample.alice _ _ _).
  - split; reflexivity.
  - reflexivity.
  - reflexivity.
  - intros e He Hn. cbn in He. destruct He as [<-|[<-|[]]];
      [reflexivity|discriminate Hn].
  - reflexivity.
Defined.

(** ** Failures of the backend and the replies of the routes *)


(** create_or_get_user_node raises only what the embedder or the save of
    the new node raises. *)
Lemma create_or_get_raises (env : Env) (w : World) (user_name user_id : string)
    (e : Exn) :
  fst (create_or_get_user_node user_name user_id env w) = inl e ->
  exists msg,
    e = Exception msg
    /\ (fault env GenerateEmbedding = Some msg
        \/ fault env SaveUserNode = Some msg).
Proof.
  unfold create_or_get_user_node, get_by_uuid. unfold_m.
  destruct (fault env FindUserLookup) as [m1|] eqn:F1;
    [|destruct (find_user_query user_id user_name (graph w)) as [|rec l] eqn:Q;
      [|destruct (find_user_query_head _ _ _ _ _ Q) as (Hin & Hl & _);
        destruct (get_by_uuid_query_finds _ _ Hin Hl) as (n & G & _);
        cbn [graph trace logs fst snd];
        destruct (fault env LookupGetByUuid) as [m2|] eqn:F2;
        [|rewrite G]]];
    cbn [graph trace logs fst snd];
    try (destruct (fault env GenerateEmbedding) as [m3|] eqn:F3;
         [|destruct (fault env SaveUserNode) as [m4|] eqn:F4]);
    cbn [graph trace logs fst snd];
    intros H; try discriminate H; injection H as <-; eauto.
Qed.













(** ** Profile search and the partition key *)

(** The reply of a profile search does not depend on the user_id of the
    request. *)
Lemma search_profile_ignores_user_id (env : Env) (w : World)
    (query user1 user2 : string) :
  fst (http_post_profile_search (mkProfileQuery query user1) env w)
  = fst (http_post_profile_search (mkProfileQuery query user2) env w).
Proof.
  unfold http_post_profile_search, serve, profile.search_profile.
  unfold try_except. rewrite !bind_run. cbn [pq_query pq_user_id].
  destruct (ProfileService.search_profile query None env w) as [[[m|c m]|a] w1];
    reflexivity.
Qed.

(** C1 does not hold of the code.  Only the user [u2] has recorded a
    session, from which the engine extracted a fact; a profile search that
    carries the user_id [u1] returns this fact, whose relationship belongs
    to the partition [u2], and the partition [u1] holds nothing.  In general
    the reply is the same whatever user_id the request carries. *)
Theorem profile_search_crosses_partitions :
  let w := Sample.after_session_of_u2 in
  fst (http_post_profile_search (mkProfileQuery "what is the user afraid of" "u1")
                           Sample.env_ok w)
  = Content 200 (mkProfileQueryResponse
                   "what is the user afraid of"
                   [mkProfileResult "uuid-f1" "Bob fears flying" None None] 1)
  /\ map r_group_id (filter (fun r => match edge r with
                                      | Some e => String.eqb (e_uuid e) "uuid-f1"
                                      | None => false
                                      end)
                            (rels (graph w))) = ["u2"]
  /\ scoped_nodes "u1" (graph w) = []
  /\ filter (fun r => String.eqb (r_group_id r) "u1") (rels (graph w)) = []
  /\ (forall env w' query user1 user2,
         fst (http_post_profile_search (mkProfileQuery query user1) env w')
         = fst (http_post_profile_search (mkProfileQuery query user2) env w')).
Proof.
  cbv zeta. split; [reflexivity|]. split; [reflexivity|].
  split; [reflexivity|]. split; [reflexivity|].
  intros. apply search_profile_ignores_user_id.
Qed.

(** * Further properties of the code *)

(** ** link_sessions_to_user *)

(** X1.  When its query does not fail, link_sessions_to_user leaves the
    nodes as they are and appends relationships only; it returns their
    number; each of them is an ownership link of the partition from a node
    with the user's uuid to a session of the partition that was not linked;
    and afterwards every session of the partition is linked to every node
    with the user's uuid. *)
Theorem link_sessions_links_all (env : Env) (w : World) (user_node : Node)
    (user_id : string) :
  fault env LinkQuery = None ->
  let r := link_sessions_to_user user_node user_id env w in
  let g := graph w in
  let g' := graph (snd r) in
  exists created,
    fst r = inr (length created)
    /\ nodes g' = nodes g
    /\ rels g' = (rels g ++ created)%list
    /\ Forall (fun l =>
                 exists user session,
                   In user (nodes_with_uuid (uuid user_node) g)
                   /\ In session (sessions_of user_id g)
                   /\ has_session g user session = false
                   /\ owns user_id user session l)
              created
    /\ (forall user session,
           In user (nodes_with_uuid (uuid user_node) g) ->
           In session (sessions_of user_id g) ->
           has_session g' user session = true).
Proof.
  intros F. cbv zeta.
  unfold link_sessions_to_user. unfold_m. rewrite F.
  cbn [graph trace logs].
  pose proof (link_query_linked (uuid user_node) user_id (now env) (graph w))
    as Hl.
  unfold link_query in *. cbn [fst snd] in *.
  set (rows := filter _ (list_prod _ _)) in *.
  cbn [fst snd graph add_rels nodes rels].
  exists (map (fun p => mkRel "HAS_SESSION" (nid (fst p)) (nid (snd p)) user_id
                              (now env) None) rows).
  rewrite length_map.
  split; [reflexivity|]. split; [reflexivity|]. split; [reflexivity|].
  split.
  - apply Forall_map. apply Forall_forall. intros [u s] Hp.
    subst rows. apply filter_In in Hp. destruct Hp as [Hp Hn].
    apply in_prod_iff in Hp. destruct Hp as [Hu Hs].
    exists u, s. cbn [fst snd] in *.
    split; [exact Hu|]. split; [exact Hs|].
    split; [now apply negb_true_iff|]. repeat split.
  - intros u s Hu Hs. apply (Hl (u, s)). apply in_prod_iff. split; assumption.
Qed.

Lemma link_sessions_links_all_witness :
  let r := link_sessions_to_user Sample.alice "u1" Sample.env_ok
                                 (Sample.world_of Sample.two_users) in
  exists created : list Rel,
    fst r = inr (length created)
    /\ fst r = inr 1
    /\ has_session (graph (snd r)) Sample.alice Sample.session1 = true.
Proof.
  destruct (link_sessions_links_all Sample.env_ok
              (Sample.world_of Sample.two_users) Sample.alice "u1" eq_refl)
    as (created & H1 & _ & H3 & _ & H5).
  exists created. split; [exact H1|]. split.
  - reflexivity.
  - apply H5; (apply filter_In; split; [cbn; tauto|reflexivity]).
Defined.

(** ** SessionService.add_session with an explicit number *)

(** A recording with an explicit number whose submission succeeds. *)
Lemma add_session_explicit_run (env : Env) (w : World)
    (summary : string) (date : Z) (user_id user_name : string) (n : Z) :
  fault env AddEpisode = None ->
  let r := SessionService.add_session summary date user_id user_name (Some n)
                                      env w in
  exists ep,
    fst r = inr (episode_uuid env, n)
    /\ trace (snd r) = AddEpisode :: trace w
    /\ name ep = "Therapy Session " ++ str_int n
    /\ sessions_of user_id (graph (snd r))
       = (sessions_of user_id (graph w) ++ [ep])%list.
Proof.
  intros F. cbv zeta.
  unfold SessionService.add_session, add_session_to_graph. unfold_m.
  rewrite F.
  set (body := "Session " ++ str_int n ++ " for " ++ user_name ++ ": " ++ summary).
  destruct (add_episode_sessions env ("Therapy Session " ++ str_int n) body
                                 user_id date (graph w))
    as (ep & E1 & E2 & E3 & E4).
  destruct (add_episode env ("Therapy Session " ++ str_int n) body user_id date
                        (graph w)) as [res g'] eqn:Q.
  cbn [fst snd] in E1, E4. subst res.
  cbn [fst snd graph trace logs]. rewrite E2.
  exists ep. auto.
Qed.

(** X2.  With an explicit sequence number add_session issues no count
    query: its only backend call is the episode submission.  When the
    submission succeeds the number is returned as given, whatever sessions
    are stored, and one session named with it is stored; when it raises,
    the exception reaches the caller and nothing is stored. *)
Theorem add_session_explicit_number (env : Env) (w : World)
    (summary : string) (date : Z) (user_id user_name : string) (n : Z) :
  let r := SessionService.add_session summary date user_id user_name (Some n)
                                      env w in
  trace (snd r) = AddEpisode :: trace w
  /\ (fault env AddEpisode = None ->
      exists ep,
        fst r = inr (episode_uuid env, n)
        /\ name ep = "Therapy Session " ++ str_int n
        /\ sessions_of user_id (graph (snd r))
           = (sessions_of user_id (graph w) ++ [ep])%list)
  /\ (forall msg,
         fault env AddEpisode = Some msg ->
         fst r = inl (Exception msg) /\ graph (snd r) = graph w).
Proof.
  cbv zeta.
  destruct (fault env AddEpisode) as [m|] eqn:F.
  - unfold SessionService.add_session, add_session_to_graph. unfold_m.
    rewrite F. cbn [fst snd graph trace logs]. split; [reflexivity|].
    split; [discriminate|]. intros msg [= <-]. auto.
  - destruct (add_session_explicit_run env w summary date user_id user_name n F)
      as (ep & E1 & E2 & E3 & E4).
    split; [exact E2|]. split; [|discriminate].
    intros _. exists ep. auto.
Qed.

Lemma add_session_explicit_number_witness :
  let r := SessionService.add_session "slept badly" 1700000000 "u1" "Alice"
                                      (Some 7%Z) Sample.env_ok
                                      (Sample.world_of Sample.two_users) in
  exists ep,
    fst r = inr ("uuid-episode", 7%Z)
    /\ name ep = "Therapy Session 7"
    /\ sessions_of "u1" (graph (snd r)) = [Sample.session1; ep].
Proof.
  apply (add_session_explicit_number Sample.env_ok
           (Sample.world_of Sample.two_users) "slept badly" 1700000000
           "u1" "Alice" 7).
  reflexivity.
Defined.

(** X3.  Automatic numbers count the stored sessions; they do not continue
    from the numbers given explicitly: after a session recorded with the
    explicit number [n], the next session recorded without a number gets
    the number of sessions stored before both, plus two, whatever [n] is. *)
Theorem auto_number_ignores_explicit_numbers (env1 env2 : Env) (w : World)
    (s1 s2 : string) (d1 d2 : Z) (user_id user_name : string) (n : Z) :
  fault env1 AddEpisode = None ->
  recording_ok env2 ->
  let r1 := SessionService.add_session s1 d1 user_id user_name (Some n) env1 w in
  let r2 := SessionService.add_session s2 d2 user_id user_name None env2
                                       (snd r1) in
  fst r1 = inr (episode_uuid env1, n)
  /\ fst r2 = inr (episode_uuid env2,
                   (Z.of_nat (length (sessions_of user_id (graph w))) + 2)%Z).
Proof.
  intros F1 Hok. cbv zeta.
  destruct (add_session_explicit_run env1 w s1 d1 user_id user_name n F1)
    as (ep & E1 & _ & _ & E3).
  split; [exact E1|].
  destruct (add_session_next_number env2
              (snd (SessionService.add_session s1 d1 user_id user_name (Some n)
                                               env1 w))
              s2 d2 user_id user_name Hok)
    as (w' & ep' & E & _).
  rewrite E. cbn [fst]. rewrite E3, length_app. cbn [length].
  do 2 f_equal. lia.
Qed.

Lemma auto_number_ignores_explicit_numbers_witness :
  let w := Sample.world_of Store.empty in
  let r1 := SessionService.add_session "first" 1700000000 "u9" "Ann" (Some 7%Z)
                                       Sample.env_ok w in
  let r2 := SessionService.add_session "second" 1700000100 "u9" "Ann" None
                                       Sample.env_ok (snd r1) in
  fst r1 = inr ("uuid-episode", 7%Z) /\ fst r2 = inr ("uuid-episode", 2%Z).
Proof.
  apply (auto_number_ignores_explicit_numbers
           Sample.env_ok Sample.env_ok (Sample.world_of Store.empty)
           "first" "second" 1700000000 1700000100 "u9" "Ann" 7).
  - reflexivity.
  - split; reflexivity.
Defined.

(** ** delete_user_data and DELETE /api/v1/users/{user_id} *)

(** The run of delete_user_data when the queries it issues do not fail. *)
Lemma delete_user_data_run (env : Env) (w : World) (user_id : string) :
  let N := length (scoped_nodes user_id (graph w)) in
  let M := length (incident_rels user_id (graph w)) in
  fault env DeleteCountQuery = None ->
  (N <> 0 -> fault env DeleteQuery = None) ->
  exists w',
    delete_user_data user_id env w
    = (inr (mkStats user_id N M (delete_status N)), w')
    /\ graph w' = (if Nat.eqb N 0 then graph w
                   else snd (delete_query user_id (graph w)))
    /\ logs w' = logs w.
Proof.
  intros N M Hc Hd.
  unfold delete_user_data. unfold_m. rewrite Hc.
  rewrite count_query_counts. cbn [fst snd graph trace logs]. fold N M.
  unfold delete_status.
  destruct (Nat.eqb N 0) eqn:E.
  - apply Nat.eqb_eq in E.
    assert (HM : M = 0).
    { unfold M. rewrite no_scoped_no_incident; [reflexivity|].
      apply length_zero_iff_nil. exact E. }
    rewrite HM, E. eexists. split; [reflexivity|]. split; reflexivity.
  - apply Nat.eqb_neq in E. rewrite (Hd E).
    eexists. split; [reflexivity|]. split; reflexivity.
Qed.

(** The store after delete_user_data is the store before, or the store the
    delete query leaves. *)
Lemma delete_user_data_graph (env : Env) (w : World) (user_id : string) :
  graph (snd (delete_user_data user_id env w)) = graph w
  \/ graph (snd (delete_user_data user_id env w))
     = snd (delete_query user_id (graph w)).
Proof.
  unfold delete_user_data. unfold_m.
  destruct (fault env DeleteCountQuery); [now left|].
  cbn [count_query fst snd graph trace logs].
  destruct (Nat.eqb _ 0); [now left|].
  cbn [graph trace logs].
  destruct (fault env DeleteQuery); [now left|].
  right. destruct (delete_query user_id (graph w)). reflexivity.
Qed.

(** X4.  delete_user_data touches the partition of its user only: in every
    outcome the nodes of every other partition stay as they are, in order;
    every relationship that touches no node of the partition stays; nothing
    is added; and once no node of the partition is left, no relationship
    that is left touches a node that was removed. *)
Theorem delete_user_data_isolation (env : Env) (w : World) (user_id : string) :
  let g := graph w in
  let g' := graph (snd (delete_user_data user_id env w)) in
  (forall other, other <> user_id ->
                 scoped_nodes other g' = scoped_nodes other g)
  /\ (forall r, In r (rels g) ->
                incident (scoped_nodes user_id g) r = false -> In r (rels g'))
  /\ (forall n, In n (nodes g') -> In n (nodes g))
  /\ (forall r, In r (rels g') -> In r (rels g))
  /\ (scoped_nodes user_id g' = [] ->
      forall r, In r (rels g') -> incident (scoped_nodes user_id g) r = false).
Proof.
  cbv zeta.
  destruct (delete_user_data_graph env w user_id) as [E|E]; rewrite E.
  - repeat split; auto.
    intros H r _. rewrite H. reflexivity.
  - unfold delete_query, scoped_nodes. cbn [snd nodes rels].
    split.
    { intros other Hne. apply filter_filter_keep.
      intros n Hn. unfold scoped in *. apply String.eqb_eq in Hn.
      apply negb_true_iff. apply String.eqb_neq. congruence. }
    split.
    { intros r Hr Hi. apply filter_In. split; [exact Hr|].
      now apply negb_true_iff. }
    split; [intros n Hn; apply filter_In in Hn; tauto|].
    split; [intros r Hr; apply filter_In in Hr; tauto|].
    intros _ r Hr. apply filter_In in Hr. destruct Hr as [_ Hr].
    now apply negb_true_iff.
Qed.

(** X5.  Failure anywhere raises: when the counting query raises, or when
    nodes are counted and the delete query raises, delete_user_data logs an
    error and raises the same exception, the store is left as it was, and
    DELETE users replies 400 with the message embedded. *)
Theorem delete_user_data_failure (env : Env) (w : World) (user_id msg : string) :
  fault env DeleteCountQuery = Some msg
  \/ (fault env DeleteCountQuery = None
      /\ scoped_nodes user_id (graph w) <> []
      /\ fault env DeleteQuery = Some msg) ->
  let r := delete_user_data user_id env w in
  fst r = inl (Exception msg)
  /\ graph (snd r) = graph w
  /\ logs (snd r)
     = (ERROR, "Error deleting user data for " ++ user_id ++ ": " ++ msg)
         :: logs w
  /\ fst (http_delete_users user_id env w)
     = ErrorBody 400 ("Failed to delete user data: " ++ msg) None.
Proof.
  intros H. cbv zeta.
  unfold http_delete_users, serve, users.delete_user, UserService.delete_user.
  unfold try_except at 1. rewrite bind_run.
  assert (E : exists w',
             delete_user_data user_id env w = (inl (Exception msg), w')
             /\ graph w' = graph w
             /\ logs w' = (ERROR, "Error deleting user data for " ++ user_id
                                  ++ ": " ++ msg) :: logs w).
  { unfold delete_user_data. unfold_m.
    destruct H as [F|(F1 & Hn & F2)].
    - rewrite F. cbn. eauto.
    - rewrite F1, count_query_counts. cbn [fst snd graph trace logs].
      destruct (Nat.eqb (length (scoped_nodes user_id (graph w))) 0) eqn:E.
      + apply Nat.eqb_eq, length_zero_iff_nil in E. contradiction.
      + cbn [graph trace logs]. rewrite F2. cbn. eauto. }
  destruct E as (w' & E & Hg & Hl). rewrite E. cbn [fst snd].
  repeat split; assumption.
Qed.

Lemma delete_user_data_failure_witness :
  let env := Sample.failing DeleteQuery "connection lost" Sample.env_ok in
  let w := Sample.world_of Sample.two_users in
  fst (delete_user_data "u1" env w) = inl (Exception "connection lost")
  /\ graph (snd (delete_user_data "u1" env w)) = Sample.two_users
  /\ logs (snd (delete_user_data "u1" env w))
     = [(ERROR, "Error deleting user data for u1: connection lost")]
  /\ fst (http_delete_users "u1" env w)
     = ErrorBody 400 "Failed to delete user data: connection lost" None.
Proof.
  intros env w.
  apply (delete_user_data_failure env w "u1" "connection lost").
  right. split; [reflexivity|]. split; [discriminate|reflexivity].
Defined.

Lemma delete_clears (user_id : string) (g : Graph) :
  scoped_nodes user_id
    (if Nat.eqb (length (scoped_nodes user_id g)) 0 then g
     else snd (delete_query user_id g)) = [].
Proof.
  destruct (Nat.eqb _ 0) eqn:E.
  - apply Nat.eqb_eq, length_zero_iff_nil in E. exact E.
  - apply (delete_query_removes user_id g).
Qed.

Lemma no_scoped_no_sessions (user_id : string) (g : Graph) :
  scoped_nodes user_id g = [] -> sessions_of user_id g = [].
Proof.
  unfold scoped_nodes, sessions_of. intros H. apply filter_none.
  intros n Hn.
  destruct (String.eqb (group_id n) user_id) eqn:E; [|apply andb_false_r].
  assert (Hin : In n (filter (scoped user_id) (nodes g))).
  { apply filter_In. split; assumption. }
  rewrite H in Hin. destruct Hin.
Qed.

(** X6.  The replies of DELETE users when its queries do not fail: 404 with
    "No data found" when the partition holds no node, and otherwise 200 with
    the number of nodes of the partition, the number of relationships
    incident to them, the status "success" and the confirmation message. *)
Theorem http_delete_users_replies (env : Env) (w : World) (user_id : string) :
  let N := length (scoped_nodes user_id (graph w)) in
  let M := length (incident_rels user_id (graph w)) in
  fault env DeleteCountQuery = None ->
  (N <> 0 -> fault env DeleteQuery = None) ->
  fst (http_delete_users user_id env w)
  = if Nat.eqb N 0 then
      ErrorBody 404 ("No data found for user " ++ user_id) None
    else
      Content 200 (mkDeleteUserResponse
                     user_id N M "success"
                     ("Successfully deleted all data for user " ++ user_id)).
Proof.
  intros N M Hc Hd.
  destruct (delete_user_data_run env w user_id Hc Hd) as (w' & E & _).
  unfold http_delete_users, serve, users.delete_user, UserService.delete_user.
  unfold try_except. rewrite bind_run, E. fold N M.
  unfold delete_status. cbn [status].
  destruct (Nat.eqb N 0); reflexivity.
Qed.

Lemma http_delete_users_replies_witness :
  fst (http_delete_users "u1" Sample.env_ok (Sample.world_of Sample.two_users))
  = Content 200 (mkDeleteUserResponse
                   "u1" 3 2 "success" "Successfully deleted all data for user u1")
  /\ fst (http_delete_users "u3" Sample.env_ok
                            (Sample.world_of Sample.two_users))
     = ErrorBody 404 "No data found for user u3" None.
Proof.
  split.
  - apply (http_delete_users_replies Sample.env_ok
             (Sample.world_of Sample.two_users) "u1");
      [reflexivity|intros _; reflexivity].
  - apply (http_delete_users_replies Sample.env_ok
             (Sample.world_of Sample.two_users) "u3");
      [reflexivity|intros _; reflexivity].
Defined.

(** X7.  Deleting twice: after a deletion whose queries did not fail, a
    second deletion for the same user finds nothing, reports no_data_found
    with zero counts, writes nothing, and DELETE users replies 404. *)
Theorem delete_user_data_twice (env1 env2 : Env) (w : World) (user_id : string) :
  fault env1 DeleteCountQuery = None ->
  (scoped_nodes user_id (graph w) <> [] -> fault env1 DeleteQuery = None) ->
  fault env2 DeleteCountQuery = None ->
  let w1 := snd (delete_user_data user_id env1 w) in
  fst (delete_user_data user_id env2 w1)
  = inr (mkStats user_id 0 0 "no_data_found")
  /\ graph (snd (delete_user_data user_id env2 w1)) = graph w1
  /\ fst (http_delete_users user_id env2 w1)
     = ErrorBody 404 ("No data found for user " ++ user_id) None.
Proof.
  intros Hc Hd Hc2. cbv zeta.
  assert (Hd' : length (scoped_nodes user_id (graph w)) <> 0 ->
                fault env1 DeleteQuery = None).
  { intros H. apply Hd. intros Hn. apply H. rewrite Hn. reflexivity. }
  destruct (delete_user_data_run env1 w user_id Hc Hd') as (w1 & E & Hg & _).
  rewrite E. cbn [snd].
  assert (Hs : scoped_nodes user_id (graph w1) = []).
  { rewrite Hg. apply delete_clears. }
  assert (Hd2 : length (scoped_nodes user_id (graph w1)) <> 0 ->
                fault env2 DeleteQuery = None).
  { rewrite Hs. intros H. now contradiction H. }
  destruct (delete_user_data_run env2 w1 user_id Hc2 Hd2) as (w2 & E2 & Hg2 & _).
  rewrite Hs in *. cbn [length Nat.eqb] in *.
  rewrite (no_scoped_no_incident user_id (graph w1) Hs) in E2.
  unfold http_delete_users, serve, users.delete_user, UserService.delete_user,
    try_except.
  rewrite bind_run, E2. cbn [fst snd]. auto.
Qed.

Lemma delete_user_data_twice_witness :
  let w1 := snd (delete_user_data "u1" Sample.env_ok
                                  (Sample.world_of Sample.two_users)) in
  fst (delete_user_data "u1" Sample.env_ok w1)
  = inr (mkStats "u1" 0 0 "no_data_found")
  /\ graph (snd (delete_user_data "u1" Sample.env_ok w1)) = graph w1
  /\ fst (http_delete_users "u1" Sample.env_ok w1)
     = ErrorBody 404 "No data found for user u1" None.
Proof.
  apply (delete_user_data_twice Sample.env_ok Sample.env_ok
           (Sample.world_of Sample.two_users) "u1");
    [reflexivity|intros _; reflexivity|reflexivity].
Defined.

(** X8.  Numbering starts again after a deletion: the first session
    recorded without a number after the user's data was deleted gets the
    number 1, however many sessions the user had. *)
Theorem numbering_restarts_after_delete (env1 env2 : Env) (w : World)
    (summary : string) (date : Z) (user_id user_name : string) :
  fault env1 DeleteCountQuery = None ->
  (scoped_nodes user_id (graph w) <> [] -> fault env1 DeleteQuery = None) ->
  recording_ok env2 ->
  let w1 := snd (delete_user_data user_id env1 w) in
  fst (SessionService.add_session summary date user_id user_name None env2 w1)
  = inr (episode_uuid env2, 1%Z).
Proof.
  intros Hc Hd Hok. cbv zeta.
  assert (Hd' : length (scoped_nodes user_id (graph w)) <> 0 ->
                fault env1 DeleteQuery = None).
  { intros H. apply Hd. intros Hn. apply H. rewrite Hn. reflexivity. }
  destruct (delete_user_data_run env1 w user_id Hc Hd') as (w1 & E & Hg & _).
  rewrite E. cbn [snd].
  destruct (add_session_next_number env2 w1 summary date user_id user_name Hok)
    as (w' & ep & E2 & _).
  rewrite E2. cbn [fst].
  rewrite no_scoped_no_sessions; [reflexivity|].
  rewrite Hg. apply delete_clears.
Qed.

Lemma numbering_restarts_after_delete_witness :
  let w := Sample.world_of Sample.two_users in
  length (sessions_of "u1" (graph w)) = 1
  /\ fst (SessionService.add_session
            "slept badly" 1700000000 "u1" "Alice" None Sample.env_ok
            (snd (delete_user_data "u1" Sample.env_ok w)))
     = inr ("uuid-episode", 1%Z).
Proof.
  intros w. split; [reflexivity|].
  apply (numbering_restarts_after_delete Sample.env_ok Sample.env_ok w
           "slept badly" 1700000000 "u1" "Alice");
    [reflexivity|intros _; reflexivity|split; reflexivity].
Defined.

(** ** create_or_get_user_node, POST and GET /api/v1/users *)

(** The lookup finds nothing and nothing fails: the new node is stored. *)
Lemma create_or_get_absent (env : Env) (w : World) (user_name user_id : string) :
  fault env FindUserLookup = None ->
  fault env GenerateEmbedding = None ->
  fault env SaveUserNode = None ->
  find_user_query user_id user_name (graph w) = [] ->
  create_or_get_user_node user_name user_id env w
  = (inr (fresh_user env user_name user_id (graph w)),
     mkWorld (add_node (fresh_user env user_name user_id (graph w)) (graph w))
             (SaveUserNode :: GenerateEmbedding :: FindUserLookup :: trace w)
             (logs w)).
Proof.
  intros F1 F2 F3 Q.
  unfold create_or_get_user_node. unfold_m.
  rewrite F1. cbn [fst snd graph trace logs]. rewrite Q.
  cbn [graph trace logs]. rewrite F2. cbn [graph trace logs]. rewrite F3.
  reflexivity.
Qed.

Lemma no_entity_no_match (user_id user_name : string) (g : Graph) :
  entities_of user_id g = [] -> find_user_query user_id user_name g = [].
Proof.
  unfold entities_of, find_user_query. intros H.
  rewrite filter_none; [reflexivity|].
  intros n Hn.
  destruct (has_label "Entity" n && String.eqb (group_id n) user_id) eqn:E;
    [|reflexivity].
  assert (Hin : In n (filter (fun n => has_label "Entity" n
                                       && String.eqb (group_id n) user_id)
                             (nodes g))).
  { apply filter_In. split; assumption. }
  rewrite H in Hin. destruct Hin.
Qed.

Lemma fresh_user_is_user (env : Env) (user_name user_id : string) (g : Graph) :
  is_user user_id (fresh_user env user_name user_id g) = true.
Proof.
  unfold is_user, fresh_user, has_label. cbn [labels group_id].
  rewrite String.eqb_refl. reflexivity.
Qed.

Lemma users_of_add_user (env : Env) (user_name user_id : string) (g : Graph) :
  users_of user_id (add_node (fresh_user env user_name user_id g) g)
  = (users_of user_id g ++ [fresh_user env user_name user_id g])%list.
Proof.
  unfold users_of, add_node. cbn [nodes]. rewrite filter_app.
  cbn [filter]. rewrite fresh_user_is_user. reflexivity.
Qed.

(** X9.  Creating a user and fetching it: for an identifier whose
    partition holds no entity, POST users (nothing failing) replies 201 with
    the request's identifier and name, the uuid drawn, the creation time and
    the summary "User profile for <name>"; a GET users for the identifier
    that follows replies 200 with the same record. *)
Theorem post_then_get_user (env1 env2 : Env) (w : World) (d : UserCreate) :
  fault env1 FindUserLookup = None ->
  fault env1 GenerateEmbedding = None ->
  fault env1 SaveUserNode = None ->
  fault env2 GetUserQuery = None ->
  entities_of (uc_user_id d) (graph w) = [] ->
  let record :=
    mkUserResponse (uc_user_id d) (uc_user_name d) (new_uuid env1) (now env1)
                   (Some ("User profile for " ++ uc_user_name d)) in
  let r1 := http_post_users d env1 w in
  fst r1 = Content 201 record
  /\ fst (http_get_users (uc_user_id d) env2 (snd r1)) = Content 200 record.
Proof.
  intros F1 F2 F3 F4 He. cbv zeta.
  pose proof (create_or_get_absent env1 w (uc_user_name d) (uc_user_id d)
                F1 F2 F3 (no_entity_no_match _ _ _ He)) as C.
  assert (E1 : http_post_users d env1 w
               = (Content 201
                    (mkUserResponse (uc_user_id d) (uc_user_name d)
                       (new_uuid env1) (now env1)
                       (Some ("User profile for " ++ uc_user_name d))),
                  mkWorld (add_node (fresh_user env1 (uc_user_name d)
                                                (uc_user_id d) (graph w))
                                    (graph w))
                          (SaveUserNode :: GenerateEmbedding :: FindUserLookup
                             :: trace w)
                          (logs w))).
  { unfold http_post_users, serve, users.create_user,
      UserService.create_or_get_user, try_except.
    rewrite bind_run, C. reflexivity. }
  rewrite E1. cbn [fst snd]. split; [reflexivity|].
  unfold http_get_users, serve, users.get_user, try_except.
  rewrite bind_run, backend_run, F4.
  unfold reads. cbn iota beta. cbn [graph].
  rewrite users_find_user_query_users, users_of_add_user.
  assert (Hu : users_of (uc_user_id d) (graph w) = []).
  { apply (no_match_no_user _ (uc_user_name d)). now apply no_entity_no_match. }
  rewrite Hu. reflexivity.
Qed.

Lemma post_then_get_user_witness :
  let r1 := http_post_users (mkUserCreate "Alice" "u1") Sample.env_ok
                            (Sample.world_of Store.empty) in
  let record := mkUserResponse "u1" "Alice" "uuid-new" 1700000000
                               (Some "User profile for Alice") in
  fst r1 = Content 201 record
  /\ fst (http_get_users "u1" Sample.env_ok (snd r1)) = Content 200 record.
Proof.
  apply (post_then_get_user Sample.env_ok Sample.env_ok
           (Sample.world_of Store.empty) (mkUserCreate "Alice" "u1"));
    reflexivity.
Defined.

(** The run of GET users. *)
Lemma http_get_users_run (env : Env) (w : World) (user_id : string) :
  fault env GetUserQuery = None ->
  graph (snd (http_get_users user_id env w)) = graph w
  /\ fst (http_get_users user_id env w)
     = match users_of user_id (graph w) with
       | [] => ErrorBody 404 ("User with ID " ++ user_id ++ " not found") None
       | u :: _ => Content 200 (mkUserResponse user_id (name u) (uuid u)
                                               (created_at u) (summary u))
       end.
Proof.
  intros F. unfold http_get_users, serve, users.get_user, try_except.
  rewrite bind_run, backend_run, F.
  unfold reads. cbn iota beta. rewrite users_find_user_query_users.
  destruct (users_of user_id (graph w)) as [|u rest]; cbn; split; reflexivity.
Qed.

(** X10.  GET users only reads: its single backend call is its query and
    the store is left as it is; when the query does not fail it replies 404
    "User with ID <id> not found" if the partition holds no User entity,
    whatever else it holds, and otherwise 200 with the name, uuid, creation
    time and summary of the first User entity of the partition. *)
Theorem http_get_users_replies (env : Env) (w : World) (user_id : string) :
  let r := http_get_users user_id env w in
  graph (snd r) = graph w
  /\ trace (snd r) = GetUserQuery :: trace w
  /\ (fault env GetUserQuery = None ->
      fst r = match users_of user_id (graph w) with
              | [] => ErrorBody 404 ("User with ID " ++ user_id ++ " not found")
                                None
              | u :: _ => Content 200 (mkUserResponse user_id (name u) (uuid u)
                                                      (created_at u) (summary u))
              end).
Proof.
  cbv zeta. unfold http_get_users, serve, users.get_user, try_except.
  rewrite bind_run, backend_run.
  destruct (fault env GetUserQuery) as [m|].
  - cbn. split; [reflexivity|]. split; [reflexivity|discriminate].
  - unfold reads. cbn iota beta. rewrite users_find_user_query_users.
    destruct (users_of user_id (graph w)) as [|u rest]; cbn;
      repeat split; reflexivity.
Qed.

Lemma http_get_users_replies_witness :
  fst (http_get_users "u1" Sample.env_ok (Sample.world_of Sample.two_users))
  = Content 200 (mkUserResponse "u1" "Alice" "uuid-alice" 1600000000
                                (Some "User profile for Alice"))
  /\ fst (http_get_users "u3" Sample.env_ok (Sample.world_of Sample.two_users))
     = ErrorBody 404 "User with ID u3 not found" None.
Proof.
  split.
  - apply (http_get_users_replies Sample.env_ok
             (Sample.world_of Sample.two_users) "u1"). reflexivity.
  - apply (http_get_users_replies Sample.env_ok
             (Sample.world_of Sample.two_users) "u3"). reflexivity.
Defined.

(** X11.  The lookup accepts a name match as well as a User label: when
    the partition holds no User entity but an entity bearing the supplied
    name, create_or_get_user_node (its lookup not failing) returns the first
    such entity, which is not a User entity, and stores nothing; the
    partition still holds no User entity, so that a GET users that follows
    replies 404. *)
Theorem create_or_get_matches_by_name (env env' : Env) (w : World)
    (user_name user_id : string) (n : Node) (rest : list Node) :
  lookup_ok env ->
  users_of user_id (graph w) = [] ->
  filter (fun e => String.eqb (name e) user_name)
         (entities_of user_id (graph w)) = n :: rest ->
  fault env' GetUserQuery = None ->
  exists n' w',
    create_or_get_user_node user_name user_id env w = (inr n', w')
    /\ uuid n' = uuid n
    /\ has_label "User" n = false
    /\ graph w' = graph w
    /\ fst (http_get_users user_id env' w')
       = ErrorBody 404 ("User with ID " ++ user_id ++ " not found") None.
Proof.
  intros Hok Hu Hn F.
  assert (Hnot : forall x, In x (nodes (graph w)) ->
                           has_label "Entity" x
                           && String.eqb (group_id x) user_id = true ->
                           has_label "User" x = false).
  { intros x Hx He. destruct (has_label "User" x) eqn:U; [|reflexivity].
    assert (Hin : In x (users_of user_id (graph w))).
    { apply filter_In. split; [exact Hx|]. unfold is_user. now rewrite He, U. }
    rewrite Hu in Hin. destruct Hin. }
  assert (Q : find_user_query user_id user_name (graph w) = [n]).
  { unfold find_user_query, entities_of in *.
    assert (E : filter (fun user =>
                          has_label "Entity" user
                          && String.eqb (group_id user) user_id
                          && (has_label "User" user
                              || String.eqb (name user) user_name))
                       (nodes (graph w))
                = filter (fun e => String.eqb (name e) user_name)
                         (filter (fun n => has_label "Entity" n
                                           && String.eqb (group_id n) user_id)
                                 (nodes (graph w)))).
    { clear Hn.
      induction (nodes (graph w)) as [|a l IH]; [reflexivity|].
      cbn [filter].
      destruct (has_label "Entity" a && String.eqb (group_id a) user_id) eqn:E.
      - rewrite (Hnot a (or_introl eq_refl) E). cbn [orb andb filter].
        destruct (String.eqb (name a) user_name); [f_equal|];
          apply IH; intros x Hx; apply Hnot; now right.
      - cbn [andb]. apply IH. intros x Hx. apply Hnot. now right. }
    rewrite E, Hn. reflexivity. }
  destruct (create_or_get_found env w user_name user_id n [] Hok Q)
    as (n' & w' & C & U & _ & G).
  exists n', w'. split; [exact C|]. split; [exact U|].
  assert (Hin : In n (filter (fun e => String.eqb (name e) user_name)
                             (entities_of user_id (graph w))))
    by (rewrite Hn; now left).
  apply filter_In in Hin. destruct Hin as [Hin _].
  apply filter_In in Hin. destruct Hin as [Hin He].
  split; [exact (Hnot n Hin He)|]. split; [exact G|].
  destruct (http_get_users_run env' w' user_id F) as [_ Hr].
  rewrite Hr, G, Hu. reflexivity.
Qed.

Lemma create_or_get_matches_by_name_witness :
  exists n' w',
    create_or_get_user_node "Alice" "u5" Sample.env_ok
                            (Sample.world_of SampleMore.entity_only)
    = (inr n', w')
    /\ uuid n' = "uuid-e"
    /\ has_label "User" SampleMore.named_entity = false
    /\ graph w' = SampleMore.entity_only
    /\ fst (http_get_users "u5" Sample.env_ok w')
       = ErrorBody 404 "User with ID u5 not found" None.
Proof.
  apply (create_or_get_matches_by_name
           Sample.env_ok Sample.env_ok (Sample.world_of SampleMore.entity_only)
           "Alice" "u5" SampleMore.named_entity []);
    [split; reflexivity|reflexivity|reflexivity|reflexivity].
Defined.

(** X12.  create_or_get_user_node makes no partial write and does not fail
    on its lookup: when it raises, the exception is the one the embedder or
    the save raised and the store is left as it was; when neither the
    embedder nor the save fails it returns a node, whatever happens to the
    lookup; and the node it returns is a stored Entity node. *)
Theorem create_or_get_no_partial_write (env : Env) (w : World)
    (user_name user_id : string) :
  let r := create_or_get_user_node user_name user_id env w in
  (forall e,
      fst r = inl e ->
      graph (snd r) = graph w
      /\ exists msg,
           e = Exception msg
           /\ (fault env GenerateEmbedding = Some msg
               \/ fault env SaveUserNode = Some msg))
  /\ (fault env GenerateEmbedding = None -> fault env SaveUserNode = None ->
      exists n, fst r = inr n)
  /\ (forall n,
         fst r = inr n ->
         In n (nodes (graph (snd r))) /\ has_label "Entity" n = true).
Proof.
  cbv zeta.
  pose proof (create_or_get_raises env w user_name user_id) as Hr.
  pose proof (create_or_get_user_node_cases env w user_name user_id) as Hc.
  cbv zeta in Hc.
  destruct (create_or_get_user_node user_name user_id env w) as [[e|n] w1].
  - cbn [fst snd] in *. split.
    + intros e' [= <-]. split; [|exact (Hr e eq_refl)].
      destruct Hc as [(? & ? & ? & _ & _ & _ & H & _)|[(? & _ & H)|(H & _)]];
        try discriminate H. exact H.
    + split; [|discriminate].
      intros F1 F2. destruct (Hr e eq_refl) as (msg & _ & [F|F]); congruence.
  - cbn [fst snd] in *. split; [discriminate|]. split; [eauto|].
    intros n' [= <-].
    destruct Hc as [(r0 & l0 & n0 & _ & G & _ & Hn & Hg)|[(e & He & _)|(Hn & Hg & _)]].
    + injection Hn as <-. rewrite Hg.
      unfold get_by_uuid_query in G. apply find_some in G.
      destruct G as [G1 G2]. apply andb_true_iff in G2. tauto.
    + discriminate He.
    + injection Hn as ->. rewrite Hg. cbn [add_node nodes]. split.
      * apply in_or_app. right. now left.
      * reflexivity.
Qed.

Lemma create_or_get_no_partial_write_witness :
  let env := Sample.failing FindUserLookup "connection lost" Sample.env_ok in
  exists n,
    fst (create_or_get_user_node "Alice" "u1" env
                                 (Sample.world_of Sample.two_users)) = inr n.
Proof.
  intros env.
  apply (create_or_get_no_partial_write env (Sample.world_of Sample.two_users)
                                        "Alice" "u1");
    reflexivity.
Defined.

(** ** Relating the store before and after a coroutine *)

Section Respects.

Variable R : Graph -> Graph -> Prop.
Hypothesis R_refl : forall g, R g g.
Hypothesis R_trans : forall g1 g2 g3, R g1 g2 -> R g2 g3 -> R g1 g3.

Lemma respects_ret {A} (a : A) : respects R (ret a).
Proof. intros env w. apply R_refl. Qed.

Lemma respects_raise {A} (e : Exn) : respects R (@raise A e).
Proof. intros env w. apply R_refl. Qed.

Lemma respects_ask : respects R ask.
Proof. intros env w. apply R_refl. Qed.

Lemma respects_log (l : Level) (msg : string) : respects R (log l msg).
Proof. intros env w. apply R_refl. Qed.

Lemma respects_bind {A B} (m : M A) (k : A -> M B) :
  respects R m -> (forall a, respects R (k a)) -> respects R (bind m k).
Proof.
  intros Hm Hk env w. specialize (Hm env w). rewrite bind_run.
  destruct (m env w) as [[e|a] w1]; cbn [snd] in *; [exact Hm|].
  eapply R_trans; [exact Hm|apply Hk].
Qed.

Lemma respects_try_except {A} (m : M A) (h : Exn -> M A) :
  respects R m -> (forall e, respects R (h e)) -> respects R (try_except m h).
Proof.
  intros Hm Hh env w. specialize (Hm env w). unfold try_except.
  destruct (m env w) as [[e|a] w1]; cbn [snd] in *; [|exact Hm].
  eapply R_trans; [exact Hm|apply Hh].
Qed.

Lemma respects_backend {A} (s : Site) (q : Graph -> A * Graph) :
  (forall g, R g (snd (q g))) -> respects R (backend s q).
Proof.
  intros Hq env w. rewrite backend_run.
  destruct (fault env s); [apply R_refl|].
  specialize (Hq (graph w)). destruct (q (graph w)). exact Hq.
Qed.

Lemma respects_reads {A} (s : Site) (q : Graph -> A) :
  respects R (backend s (reads q)).
Proof. apply respects_backend. intros g. apply R_refl. Qed.

(** A route handler: it logs and raises. *)
Lemma respects_handler {A} (l : Level) (msg : string) (c : nat)
    (detail : string) (e : Exn) :
  respects R (match e with
              | HTTPException _ _ => @raise A e
              | Exception _ =>
                  bind (log l msg) (fun _ => raise (HTTPException c detail))
              end).
Proof.
  destruct e; [|apply respects_raise].
  apply respects_bind; [apply respects_log|intros; apply respects_raise].
Qed.

Lemma get_by_uuid_respects (s : Site) (u : string) :
  respects R (get_by_uuid s u).
Proof.
  apply respects_bind; [apply respects_reads|].
  intros [n|]; [apply respects_ret|apply respects_raise].
Qed.

Lemma create_or_get_respects (user_name user_id : string) :
  (forall env g, R g (add_node (fresh_user env user_name user_id g) g)) ->
  respects R (create_or_get_user_node user_name user_id).
Proof.
  intros Hsave. unfold create_or_get_user_node.
  apply respects_bind.
  - apply respects_try_except.
    + apply respects_bind; [apply respects_reads|].
      intros [|r l]; [apply respects_ret|].
      apply respects_bind; [apply get_by_uuid_respects|].
      intros; apply respects_ret.
    + intros e. apply respects_bind; [apply respects_log|].
      intros; apply respects_ret.
  - intros [n|]; [apply respects_ret|].
    intros env w. rewrite bind_run. cbn [ask].
    revert env w.
    change (respects R (fun env => bind (backend GenerateEmbedding (reads (fun _ => tt)))
      (fun _ => backend SaveUserNode
         (save (mkNode 0 ["User"; "Person"; "Entity"] (new_uuid env) user_name
                       user_id (now env)
                       (Some ("User profile for " ++ user_name))
                       [("type", "User"); ("user_id", user_id)]))) env)).
    intros env w. rewrite bind_run, backend_run.
    destruct (fault env GenerateEmbedding); [apply R_refl|].
    unfold reads. cbn iota beta. rewrite backend_run.
    cbn [graph trace logs].
    destruct (fault env SaveUserNode); [apply R_refl|].
    cbn. apply (Hsave env (graph w)).
Qed.

Lemma link_sessions_respects (user_node : Node) (user_id : string) :
  (forall u t g, R g (snd (link_query u user_id t g))) ->
  respects R (link_sessions_to_user user_node user_id).
Proof.
  intros Hlink. unfold link_sessions_to_user.
  apply respects_try_except.
  - intros env w. rewrite bind_run. cbn [ask].
    rewrite bind_run, backend_run.
    destruct (fault env LinkQuery); [apply R_refl|].
    pose proof (Hlink (uuid user_node) (now env) (graph w)) as H.
    destruct (link_query (uuid user_node) user_id (now env) (graph w))
      as [[|c l] g1]; exact H.
  - intros e. apply respects_bind; [apply respects_log|].
    intros; apply respects_ret.
Qed.

Lemma add_session_respects (summary : string) (date : Z)
    (user_id user_name : string) (number : option Z) :
  (forall env nm body t g, R g (snd (add_episode env nm body user_id t g))) ->
  respects R (SessionService.add_session summary date user_id user_name number).
Proof.
  intros Hadd. unfold SessionService.add_session.
  apply respects_bind.
  - destruct number; [apply respects_ret|].
    unfold SessionService._get_next_session_number.
    apply respects_try_except.
    + apply respects_bind; [apply respects_reads|].
      intros [|c l]; apply respects_ret.
    + intros e. apply respects_bind; [apply respects_log|].
      intros; apply respects_ret.
  - intros n. apply respects_bind; [|intros; apply respects_ret].
    unfold add_session_to_graph.
    intros env w. rewrite bind_run. cbn [ask]. rewrite bind_run, backend_run.
    destruct (fault env AddEpisode); [apply R_refl|].
    match goal with
    | |- context [add_episode env ?nm ?body user_id date (graph w)] =>
        pose proof (Hadd env nm body date (graph w)) as H;
        destruct (add_episode env nm body user_id date (graph w)) as [[ep|] g1]
    end; exact H.
Qed.

Lemma delete_user_data_respects (user_id : string) :
  (forall g, R g (snd (delete_query user_id g))) ->
  respects R (delete_user_data user_id).
Proof.
  intros Hdel env w.
  destruct (delete_user_data_graph env w user_id) as [E|E]; rewrite E.
  - apply R_refl.
  - apply Hdel.
Qed.

(** Every request relates the store before and after by [R] as soon as the
    four writes it can make for the user it is about do. *)
Lemma handle_respects (r : Request) (env : Env) (w : World) :
  (forall env nm g, R g (add_node (fresh_user env nm (subject r) g) g)) ->
  (forall u t g, R g (snd (link_query u (subject r) t g))) ->
  (forall env nm body t g, R g (snd (add_episode env nm body (subject r) t g))) ->
  (forall g, R g (snd (delete_query (subject r) g))) ->
  R (graph w) (graph (handle r env w)).
Proof.
  intros Hsave Hlink Hadd Hdel.
  destruct r as [d|u|u|u sd|q|q]; cbn [subject] in *; unfold handle.
  - unfold http_post_users. rewrite serve_graph, create_user_graph.
    apply create_or_get_respects. intros; apply Hsave.
  - unfold http_get_users. rewrite serve_graph, users_get_user_graph.
    apply R_refl.
  - unfold http_delete_users. rewrite serve_graph, users_delete_user_graph.
    apply delete_user_data_respects. exact Hdel.
  - unfold http_post_sessions.
    assert (Hroute : respects R (sessions.create_session u sd)).
    { unfold sessions.create_session.
      apply respects_try_except; [|intros e; apply respects_handler].
      apply respects_bind; [apply respects_reads|].
      intros records. apply respects_bind.
      - destruct records as [|rec l].
        + apply create_or_get_respects. intros; apply Hsave.
        + apply get_by_uuid_respects.
      - intros un. apply respects_bind; [|intros; apply respects_ret].
        apply add_session_respects. exact Hadd. }
    specialize (Hroute env w).
    destruct (create_session_effect u sd env w) as [_ H2]. cbv zeta in H2.
    rewrite <- serve_graph with (c := 201) in Hroute.
    unfold serve in *.
    destruct (sessions.create_session u sd env w) as [[[m|c m]|[resp task]] w1];
      cbn [fst snd] in *; try exact Hroute.
    destruct (H2 resp task eq_refl) as [un ->].
    eapply R_trans; [exact Hroute|].
    apply link_sessions_respects. exact Hlink.
  - unfold http_post_profile_search. rewrite serve_graph, search_profile_graph.
    apply R_refl.
  - unfold http_post_profile_search_center_node.
    rewrite serve_graph, search_with_center_node_graph. apply R_refl.
Qed.

End Respects.

(** ** Well-formed stores *)

Lemma nids_below_next (g : Graph) (k : nat) :
  In k (map nid (nodes g)) -> k < next_nid g.
Proof.
  intros H. unfold next_nid.
  assert (F : Forall (fun k => k <= list_max (map nid (nodes g)))
                     (map nid (nodes g))).
  { apply list_max_le. apply Nat.le_refl. }
  rewrite Forall_forall in F. specialize (F k H). lia.
Qed.

Lemma NoDup_map_filter {A B} (key : A -> B) (keep : A -> bool) (xs : list A) :
  NoDup (map key xs) -> NoDup (map key (filter keep xs)).
Proof.
  intros Hnd. induction xs as [|x xs IH]; cbn [map filter] in *; [constructor|].
  inversion Hnd as [|? ? Hn Hd]; subst.
  destruct (keep x); [|now apply IH].
  cbn [map]. constructor; [|now apply IH].
  intros Hin. apply Hn. apply in_map_iff in Hin.
  destruct Hin as (y & Hy & Hin). apply filter_In in Hin.
  apply in_map_iff. exists y. tauto.
Qed.

Lemma map_fst_combine_seq {B} (start : nat) (l : list B) :
  map fst (combine (seq start (length l)) l) = seq start (length l).
Proof.
  revert start. induction l as [|b l IH]; intros start; cbn; [reflexivity|].
  now rewrite IH.
Qed.

Lemma wf_add_node (n : Node) (g : Graph) :
  nid n = next_nid g -> wf_store g -> wf_store (add_node n g).
Proof.
  intros Hn [Hd Hr]. unfold wf_store, add_node. cbn [nodes rels].
  rewrite map_app. cbn [map]. split.
  - apply NoDup_app; [exact Hd|repeat constructor; intros []|].
    intros a Ha [<-|[]]. apply nids_below_next in Ha. lia.
  - intros r Hin. destruct (Hr r Hin). split; apply in_or_app; now left.
Qed.

Lemma wf_link_query (u user_id : string) (t : Z) (g : Graph) :
  wf_store g -> wf_store (snd (link_query u user_id t g)).
Proof.
  intros [Hd Hr]. unfold link_query, add_rels. cbn [snd nodes rels].
  split; [exact Hd|].
  intros r Hin. apply in_app_or in Hin. destruct Hin as [Hin|Hin]; [auto|].
  apply in_map_iff in Hin. destruct Hin as ([a b] & <- & Hp).
  apply filter_In in Hp. destruct Hp as [Hp _].
  apply in_prod_iff in Hp. destruct Hp as [Ha Hb].
  apply filter_In in Ha. apply filter_In in Hb.
  cbn [src dst fst snd]. split; apply in_map; tauto.
Qed.

Lemma wf_delete_query (user_id : string) (g : Graph) :
  wf_store g -> wf_store (snd (delete_query user_id g)).
Proof.
  intros [Hd Hr]. unfold delete_query. cbn [snd nodes rels]. split.
  - now apply NoDup_map_filter.
  - intros r Hin. apply filter_In in Hin. destruct Hin as [Hin Hi].
    apply negb_true_iff in Hi.
    assert (Hkeep : forall a, In a (nodes g) -> touches r a = true ->
                              In (nid a) (map nid (filter (fun n => negb (scoped user_id n))
                                                          (nodes g)))).
    { intros a Ha Ht. apply in_map. apply filter_In. split; [exact Ha|].
      destruct (scoped user_id a) eqn:S; [|reflexivity].
      assert (X : incident (filter (scoped user_id) (nodes g)) r = true).
      { unfold incident. apply existsb_exists. exists a. split; [|exact Ht].
        apply filter_In. split; assumption. }
      rewrite X in Hi. discriminate. }
    destruct (Hr r Hin) as [Hs Ht].
    apply in_map_iff in Hs. destruct Hs as (a & Ea & Ha).
    apply in_map_iff in Ht. destruct Ht as (b & Eb & Hb).
    rewrite <- Ea, <- Eb. split; apply Hkeep; try assumption;
      unfold touches; rewrite ?Ea, ?Eb, Nat.eqb_refl; auto using orb_true_r.
Qed.

Lemma wf_add_episode (env : Env) (nm body user_id : string) (t : Z) (g : Graph) :
  wf_store g -> wf_store (snd (add_episode env nm body user_id t g)).
Proof.
  intros [Hd Hr]. unfold add_episode. cbn [snd].
  set (es := entities (extracted env body)).
  set (base := S (next_nid g)).
  set (ents := map _ (combine (seq base (length es)) es)).
  assert (Hids : map nid ents = seq base (length es)).
  { subst ents. rewrite map_map. cbn [nid].
    apply (map_fst_combine_seq base es). }
  assert (Hlen : length ents = length es).
  { rewrite <- (length_map nid), Hids. apply length_seq. }
  unfold wf_store. cbn [nodes rels].
  rewrite map_app. cbn [map nid]. rewrite Hids.
  change (next_nid g :: seq base (length es))
    with (seq (next_nid g) (S (length es))).
  split.
  - apply NoDup_app; [exact Hd|apply seq_NoDup|].
    intros a Ha Hs. apply nids_below_next in Ha. apply in_seq in Hs. lia.
  - intros r Hin. apply in_app_or in Hin. destruct Hin as [Hin|Hin].
    { destruct (Hr r Hin). split; apply in_or_app; now left. }
    apply in_app_or in Hin. destruct Hin as [Hin|Hin].
    + apply in_map_iff in Hin. destruct Hin as (n & <- & Hn).
      cbn [src dst nid]. split; apply in_or_app; right.
      * apply in_seq. lia.
      * apply (in_map nid) in Hn. rewrite Hids in Hn.
        apply in_seq in Hn. apply in_seq. subst base. lia.
    + apply in_flat_map in Hin. destruct Hin as ([[i j] e] & _ & Hin).
      rewrite Hlen in Hin.
      destruct (Nat.ltb i (length es)) eqn:Li; [|destruct Hin].
      destruct (Nat.ltb j (length es)) eqn:Lj; [|destruct Hin].
      destruct Hin as [<-|[]]. cbn [src dst].
      apply Nat.ltb_lt in Li, Lj.
      split; apply in_or_app; right; apply in_seq; subst base; lia.
Qed.

(** X13.  The requests keep the store well formed: served one after the
    other, in any environments, from a store where no two nodes share a
    store identity and every relationship starts and ends at a stored node,
    they lead to such a store; so no request leaves a relationship that
    hangs on a deleted node, and none stores a node under an identity in
    use. *)
Theorem requests_keep_store_well_formed (steps : list (Request * Env))
    (w : World) :
  wf_store (graph w) -> wf_store (graph (run steps w)).
Proof.
  revert w. induction steps as [|[r env] rest IH]; intros w H; cbn [run];
    [exact H|].
  apply IH. revert H.
  apply (handle_respects (fun g g' => wf_store g -> wf_store g')); auto.
  - intros env' nm g. apply wf_add_node. reflexivity.
  - intros u t g. apply wf_link_query.
  - intros env' nm body t g. apply wf_add_episode.
  - intros g. apply wf_delete_query.
Qed.

Lemma requests_keep_store_well_formed_witness :
  wf_store (graph Sample.after_session_of_u2).
Proof.
  apply (requests_keep_store_well_formed
           [(PostSession "u2"
               (mkSessionCreate "Bob is afraid of flying" 1700000000 None),
             Sample.extracting ("uuid-e1", "Bob") ("uuid-e2", "flying")
                               Sample.bob_fact Sample.env_ok)]
           (mkWorld Store.empty [] [])).
  split; [constructor|intros r []].
Defined.

(** ** Writes stay in the partition of the request *)

Lemma same_elsewhere_add_user (env : Env) (nm user_id : string) (g : Graph) :
  same_elsewhere user_id g (add_node (fresh_user env nm user_id g) g).
Proof.
  intros other Hne. unfold scoped_nodes, add_node. cbn [nodes].
  rewrite filter_app. cbn [filter].
  assert (E : scoped other (fresh_user env nm user_id g) = false).
  { unfold scoped, fresh_user. cbn [group_id]. apply String.eqb_neq. congruence. }
  rewrite E. apply app_nil_r.
Qed.

Lemma same_elsewhere_add_episode (env : Env) (nm body user_id : string) (t : Z)
    (g : Graph) :
  same_elsewhere user_id g (snd (add_episode env nm body user_id t g)).
Proof.
  intros other Hne.
  destruct (add_episode_nodes env nm body user_id t g) as (extra & E & Hx).
  unfold scoped_nodes. rewrite E, filter_app.
  rewrite (@filter_none _ _ extra); [apply app_nil_r|].
  intros n Hn. unfold engine_nodes in Hx. rewrite Forall_forall in Hx.
  destruct (Hx n Hn) as [Hg _]. unfold scoped. rewrite Hg.
  apply String.eqb_neq. congruence.
Qed.

Lemma same_elsewhere_delete (user_id : string) (g : Graph) :
  same_elsewhere user_id g (snd (delete_query user_id g)).
Proof.
  intros other Hne. unfold scoped_nodes, delete_query. cbn [snd nodes].
  apply filter_filter_keep.
  intros n Hn. unfold scoped in *. apply String.eqb_eq in Hn.
  apply negb_true_iff. apply String.eqb_neq. congruence.
Qed.

(** X14.  The writes of a request stay in the partition of the user the
    request is about: whatever the request and whatever fails, the nodes of
    every other partition are the same, in the same order, before and
    after. *)
Theorem requests_write_own_partition (r : Request) (env : Env) (w : World) :
  same_elsewhere (subject r) (graph w) (graph (handle r env w)).
Proof.
  apply (handle_respects (same_elsewhere (subject r))).
  - intros g other _. reflexivity.
  - intros g1 g2 g3 H1 H2 other Hne. rewrite (H2 other Hne). now apply H1.
  - intros env' nm g. apply same_elsewhere_add_user.
  - intros u t g other _. reflexivity.
  - intros env' nm body t g. apply same_elsewhere_add_episode.
  - intros g. apply same_elsewhere_delete.
Qed.

(** ** Ownership links are never doubled *)

Lemma NoDup_filter_one {A B} (f : A -> B) (p : A -> bool) (c : B) (l : list A) :
  NoDup (map f l) -> (forall x, p x = true -> f x = c) ->
  length (filter p l) <= 1.
Proof.
  intros Hd Hp. induction l as [|a l IH]; cbn [filter length]; [lia|].
  inversion Hd as [|? ? Hn Hd']; subst.
  destruct (p a) eqn:Pa; [|now apply IH].
  rewrite (@filter_none _ p l); [cbn; lia|].
  intros x Hx. destruct (p x) eqn:Px; [|reflexivity].
  exfalso. apply Hn. rewrite (Hp a Pa), <- (Hp x Px). now apply in_map.
Qed.

Lemma NoDup_prod {A B C D} (f : A -> C) (h : B -> D) (la : list A)
    (lb : list B) :
  NoDup (map f la) -> NoDup (map h lb) ->
  NoDup (map (fun p => (f (fst p), h (snd p))) (list_prod la lb)).
Proof.
  intros Ha Hb. induction la as [|a la IH]; cbn [list_prod map]; [constructor|].
  inversion Ha as [|? ? Hn Ha']; subst.
  rewrite map_app, map_map. cbn [fst snd].
  apply NoDup_app.
  - clear -Hb. induction lb as [|b lb IH]; cbn [map]; [constructor|].
    inversion Hb as [|? ? Hn Hb']; subst.
    constructor; [|now apply IH].
    intros Hin. apply Hn. apply in_map_iff in Hin.
    destruct Hin as (y & [= Hy] & Hin). rewrite <- Hy. now apply in_map.
  - now apply IH.
  - intros x H1 H2.
    apply in_map_iff in H1. destruct H1 as (y & <- & _).
    apply in_map_iff in H2. destruct H2 as ([a' b'] & [= E _] & Hin).
    apply in_prod_iff in Hin. apply Hn. rewrite <- E. apply in_map. tauto.
Qed.

Lemma no_duplicate_links_link_query (u user_id : string) (t : Z) (g : Graph) :
  wf_store g -> no_duplicate_links g ->
  no_duplicate_links (snd (link_query u user_id t g)).
Proof.
  intros [Hd _] Hn a b. specialize (Hn a b).
  unfold link_query, links_between, add_rels in *. cbn [snd rels].
  set (users := filter _ (nodes g)).
  set (sessions := filter (fun n => has_label "Episodic" n && _) (nodes g)).
  set (rows := filter _ (list_prod users sessions)).
  rewrite filter_app, length_app.
  set (P := fun r => String.eqb (rtype r) "HAS_SESSION"
                     && Nat.eqb (src r) a && Nat.eqb (dst r) b) in *.
  assert (Hrows : filter P (map (fun p => mkRel "HAS_SESSION" (nid (fst p))
                                                (nid (snd p)) user_id t None)
                                rows)
                  = map (fun p => mkRel "HAS_SESSION" (nid (fst p))
                                        (nid (snd p)) user_id t None)
                        (filter (fun p => Nat.eqb (nid (fst p)) a
                                          && Nat.eqb (nid (snd p)) b) rows)).
  { clear. induction rows as [|p l IH]; cbn [map filter]; [reflexivity|].
    unfold P at 1. cbn [rtype src dst]. cbn [String.eqb Ascii.eqb Bool.eqb andb].
    destruct (Nat.eqb (nid (fst p)) a && Nat.eqb (nid (snd p)) b);
      cbn [map]; now rewrite IH. }
  rewrite Hrows, length_map.
  set (rab := filter _ rows).
  assert (H1 : length rab <= 1).
  { subst rab.
    apply (NoDup_filter_one (fun p => (nid (fst p), nid (snd p))) _ (a, b)).
    - subst rows. apply NoDup_map_filter.
      apply NoDup_prod; subst users sessions; now apply NoDup_map_filter.
    - intros p Hp. apply andb_true_iff in Hp. destruct Hp as [X Y].
      apply Nat.eqb_eq in X, Y. now rewrite X, Y. }
  destruct rab as [|p rest] eqn:E; [cbn; lia|].
  assert (Hin : In p rab) by (rewrite E; now left).
  subst rab. apply filter_In in Hin. destruct Hin as [Hin Hab].
  subst rows. apply filter_In in Hin. destruct Hin as [_ Hun].
  apply negb_true_iff in Hun. apply andb_true_iff in Hab. destruct Hab as [X Y].
  apply Nat.eqb_eq in X, Y. unfold has_session in Hun. rewrite X, Y in Hun.
  rewrite (@filter_none _ P (rels g)).
  - cbn [length] in *. lia.
  - intros r Hr. apply not_true_is_false. intros Hr'. 
    assert (Z0 : existsb (fun r => String.eqb (rtype r) "HAS_SESSION"
                                   && Nat.eqb (src r) a && Nat.eqb (dst r) b)
                         (rels g) = true).
    { apply existsb_exists. exists r. split; assumption. }
    rewrite Z0 in Hun. discriminate.
Qed.

Lemma links_between_add_episode (env : Env) (nm body user_id : string) (t : Z)
    (g : Graph) (a b : nat) :
  links_between a b (snd (add_episode env nm body user_id t g))
  = links_between a b g.
Proof.
  unfold links_between, add_episode. cbn [snd rels].
  rewrite !filter_app.
  rewrite (@filter_none _ _ (map _ _)), (@filter_none _ _ (flat_map _ _)).
  - now rewrite !app_nil_r.
  - intros r Hin. apply in_flat_map in Hin. destruct Hin as ([[i j] e] & _ & Hin).
    destruct (_ && _) in Hin; [|destruct Hin].
    destruct Hin as [<-|[]]. reflexivity.
  - intros r Hin. apply in_map_iff in Hin. destruct Hin as (n & <- & _).
    reflexivity.
Qed.

(** X15.  Ownership links are never doubled: requests served one after
    the other, in any environments, from a well-formed store in which no two
    ownership links join the same two nodes, lead to such a store. *)
Theorem requests_never_double_links (steps : list (Request * Env)) (w : World) :
  wf_store (graph w) -> no_duplicate_links (graph w) ->
  no_duplicate_links (graph (run steps w)).
Proof.
  intros Hw Hn.
  assert (H : wf_store (graph (run steps w))
              /\ no_duplicate_links (graph (run steps w))); [|apply H].
  revert w Hw Hn. induction steps as [|[r env] rest IH]; intros w Hw Hn;
    cbn [run]; [auto|].
  assert (Hs : wf_store (graph (handle r env w))
               /\ no_duplicate_links (graph (handle r env w))).
  { generalize (conj Hw Hn).
    apply (handle_respects
             (fun g g' => wf_store g /\ no_duplicate_links g ->
                          wf_store g' /\ no_duplicate_links g')); auto.
    - intros env' nm g [H1 H2]. split; [now apply wf_add_node|exact H2].
    - intros u t g [H1 H2].
      split; [now apply wf_link_query|now apply no_duplicate_links_link_query].
    - intros env' nm body t g [H1 H2]. split; [now apply wf_add_episode|].
      intros a b. rewrite links_between_add_episode. apply H2.
    - intros g [H1 H2]. split; [now apply wf_delete_query|].
      intros a b. unfold links_between, delete_query. cbn [snd rels].
      etransitivity; [apply filter_filter_length|apply H2]. }
  destruct Hs. now apply IH.
Qed.

Lemma requests_never_double_links_witness :
  let steps :=
    [(PostSession "u1" (mkSessionCreate "slept badly" 1700000000 None),
      Sample.env_ok);
     (PostSession "u1" (mkSessionCreate "slept better" 1700000100 None),
      Sample.drawing "uuid-2" Sample.env_ok)] in
  no_duplicate_links (graph (run steps (mkWorld Store.empty [] []))).
Proof.
  intros steps.
  apply (requests_never_double_links steps (mkWorld Store.empty [] [])).
  - split; [constructor|intros r []].
  - intros a b. cbn. lia.
Defined.

(** ** POST /api/v1/sessions/{user_id} *)

Lemma add_episode_stores (env : Env) (nm body user_id : string) (t : Z)
    (g : Graph) :
  let ep := episode_node env nm body user_id t g in
  let g' := snd (add_episode env nm body user_id t g) in
  fst (add_episode env nm body user_id t g) = Some ep
  /\ sessions_of user_id g' = (sessions_of user_id g ++ [ep])%list
  /\ users_of user_id g' = users_of user_id g
  /\ (forall n, In n (nodes g) -> In n (nodes g'))
  /\ In ep (nodes g').
Proof.
  cbv zeta.
  destruct (add_episode_sessions env nm body user_id t g)
    as (ep & E1 & _ & _ & E4).
  destruct (add_episode_nodes env nm body user_id t g) as (extra & X1 & X2).
  assert (Eep : fst (add_episode env nm body user_id t g)
                = Some (episode_node env nm body user_id t g)) by reflexivity.
  rewrite Eep in E1. injection E1 as <-.
  split; [reflexivity|]. split; [exact E4|]. split.
  - unfold users_of. rewrite X1, filter_app.
    rewrite (engine_nodes_no_user user_id user_id extra X2). apply app_nil_r.
  - split.
    + intros n Hn. rewrite X1. apply in_or_app. now left.
    + unfold add_episode. cbn [snd nodes]. apply in_or_app. right. now left.
Qed.

(** The part of create_session that follows the user node, nothing
    failing: the session is numbered, submitted and answered, and the
    linking of the sessions is handed on as the background task. *)
Lemma create_session_tail (env : Env) (w1 : World) (user_id : string)
    (sd : SessionCreate) (un : Node) :
  recording_ok env ->
  let k := number_used sd user_id (graph w1) in
  exists w2,
    bind (SessionService.add_session (sc_session_summary sd) (sc_session_date sd)
                                     user_id (name un) (sc_session_number sd))
         (fun r =>
            ret (mkSessionResponse
                   (user_id ++ "_session_" ++ str_int (snd r)) (snd r)
                   (sc_session_date sd) (fst r)
                   ("Session " ++ str_int (snd r) ++ " added successfully"),
                 UserService.link_user_sessions un user_id))
         env w1
    = (inr (session_response env user_id sd k,
            link_sessions_to_user un user_id), w2)
    /\ graph w2
       = snd (add_episode env ("Therapy Session " ++ str_int k)
                          (episode_text k (name un) (sc_session_summary sd))
                          user_id (sc_session_date sd) (graph w1))
    /\ logs w2 = logs w1.
Proof.
  intros [Hc Ha] k. subst k. unfold number_used, session_response, episode_text.
  unfold SessionService.add_session, SessionService._get_next_session_number,
    add_session_to_graph.
  destruct (sc_session_number sd) as [n|].
  - unfold_m. rewrite Ha.
    destruct (add_episode_sessions env ("Therapy Session " ++ str_int n)
                ("Session " ++ str_int n ++ " for " ++ name un ++ ": "
                 ++ sc_session_summary sd)
                user_id (sc_session_date sd) (graph w1))
      as (ep & E1 & E2 & _).
    destruct (add_episode env _ _ user_id (sc_session_date sd) (graph w1))
      as [res g'].
    cbn [fst snd] in *. subst res. cbn [graph trace logs]. rewrite E2.
    eexists. split; [reflexivity|]. split; reflexivity.
  - unfold_m. rewrite Hc, Ha.
    rewrite session_count_query_counts. cbn [graph trace logs].
    set (n := (Z.of_nat (length (sessions_of user_id (graph w1))) + 1)%Z).
    destruct (add_episode_sessions env ("Therapy Session " ++ str_int n)
                ("Session " ++ str_int n ++ " for " ++ name un ++ ": "
                 ++ sc_session_summary sd)
                user_id (sc_session_date sd) (graph w1))
      as (ep & E1 & E2 & _).
    destruct (add_episode env _ _ user_id (sc_session_date sd) (graph w1))
      as [res g'].
    cbn [fst snd] in *. subst res. cbn [graph trace logs]. rewrite E2.
    eexists. split; [reflexivity|]. split; reflexivity.
Qed.

(** After the link query has run, the session is linked to the node. *)
Lemma link_sessions_links (env : Env) (w : World) (un session : Node)
    (user_id : string) :
  fault env LinkQuery = None ->
  In un (nodes (graph w)) -> has_label "Entity" un = true ->
  In session (sessions_of user_id (graph w)) ->
  let g' := graph (snd (link_sessions_to_user un user_id env w)) in
  nodes g' = nodes (graph w)
  /\ has_session g' un session = true.
Proof.
  intros F Hu Hl Hs. cbv zeta.
  pose proof (link_query_linked (uuid un) user_id (now env) (graph w)
                                (un, session)) as Hlink.
  unfold link_sessions_to_user. unfold_m. rewrite F.
  cbn [graph trace logs].
  destruct (link_query_count (uuid un) user_id (now env) (graph w))
    as (c & Hc & Hn & _).
  destruct (link_query (uuid un) user_id (now env) (graph w)) as [records g1].
  cbn [fst snd] in *. subst records. cbn [fst snd graph].
  split; [exact Hn|]. apply Hlink.
  apply in_prod_iff. split; [|exact Hs].
  apply filter_In. split; [exact Hu|]. now rewrite Hl, String.eqb_refl.
Qed.

Lemma sessions_find_user_query_users (user_id : string) (g : Graph) :
  sessions.find_user_query user_id g = firstn 1 (users_of user_id g).
Proof. reflexivity. Qed.

(** POST sessions once create_session has answered: the background task
    runs and the reply is the response. *)
Lemma http_post_sessions_run (env : Env) (w w2 : World) (user_id : string)
    (sd : SessionCreate) (resp : SessionResponse) (un : Node) :
  sessions.create_session user_id sd env w
  = (inr (resp, link_sessions_to_user un user_id), w2) ->
  http_post_sessions user_id sd env w
  = (Content 201 resp, snd (link_sessions_to_user un user_id env w2)).
Proof.
  intros E. unfold http_post_sessions, serve. rewrite E. reflexivity.
Qed.

(** X16.  A session for a user who exists, nothing failing: POST sessions
    replies 201 with the number used (the one given, or one more than the
    number of sessions stored), the session id "<user_id>_session_<number>"
    and the episode uuid; no User entity is created; one session is stored,
    whose text is headed "Session <number> for <name>: " with the name of
    the stored user node; and the session is linked to that node. *)
Theorem post_session_for_existing_user (env : Env) (w : World)
    (user_id : string) (sd : SessionCreate) (u n : Node) (rest : list Node) :
  healthy env ->
  users_of user_id (graph w) = u :: rest ->
  get_by_uuid_query (uuid u) (graph w) = Some n ->
  let k := number_used sd user_id (graph w) in
  let ep := episode_node env ("Therapy Session " ++ str_int k)
                         (episode_text k (name n) (sc_session_summary sd))
                         user_id (sc_session_date sd) (graph w) in
  let r := http_post_sessions user_id sd env w in
  fst r = Content 201 (session_response env user_id sd k)
  /\ users_of user_id (graph (snd r)) = users_of user_id (graph w)
  /\ sessions_of user_id (graph (snd r))
     = (sessions_of user_id (graph w) ++ [ep])%list
  /\ has_session (graph (snd r)) n ep = true.
Proof.
  intros H Hu G. cbv zeta.
  set (w1 := mkWorld (graph w) (SessionGetByUuid :: SessionFindUser :: trace w)
                     (logs w)).
  destruct (create_session_tail env w1 user_id sd n
              (conj (H SessionCountQuery) (H AddEpisode))) as (w2 & E & Hg & _).
  cbv zeta in E, Hg. cbn [w1 graph] in Hg.
  assert (Er : sessions.create_session user_id sd env w
               = (inr (session_response env user_id sd
                                        (number_used sd user_id (graph w)),
                       link_sessions_to_user n user_id), w2)).
  { unfold sessions.create_session, try_except.
    rewrite bind_run, backend_run, (H SessionFindUser).
    unfold reads. cbn iota beta.
    rewrite sessions_find_user_query_users, Hu. cbn [firstn].
    rewrite bind_run. unfold get_by_uuid.
    rewrite bind_run, backend_run, (H SessionGetByUuid).
    unfold reads. cbn iota beta. cbn [graph]. rewrite G.
    cbn [graph trace logs]. fold w1.
    cbv beta iota zeta delta [ret]. cbv beta iota zeta delta [ret] in E.
    rewrite E. reflexivity. }
  rewrite (http_post_sessions_run env w w2 user_id sd _ n Er). cbn [fst snd].
  destruct (add_episode_stores env
              ("Therapy Session " ++ str_int (number_used sd user_id (graph w)))
              (episode_text (number_used sd user_id (graph w)) (name n)
                            (sc_session_summary sd))
              user_id (sc_session_date sd) (graph w))
    as (_ & S1 & S2 & S3 & S4).
  cbv zeta in S1, S2, S3, S4. rewrite <- Hg in S1, S2, S3, S4.
  unfold get_by_uuid_query in G. apply find_some in G. destruct G as [Gin Gl].
  apply andb_true_iff in Gl. destruct Gl as [Gl _].
  destruct (link_sessions_links env w2 n
              (episode_node env
                 ("Therapy Session " ++ str_int (number_used sd user_id (graph w)))
                 (episode_text (number_used sd user_id (graph w)) (name n)
                               (sc_session_summary sd))
                 user_id (sc_session_date sd) (graph w))
              user_id (H LinkQuery) (S3 n Gin) Gl)
    as [Hn Hs].
  { rewrite S1. apply in_or_app. right. now left. }
  cbv zeta in Hn, Hs.
  split; [reflexivity|].
  unfold users_of, sessions_of in *. rewrite Hn.
  split; [exact S2|]. split; [exact S1|exact Hs].
Qed.

Lemma post_session_for_existing_user_witness :
  let w := Sample.world_of Sample.two_users in
  let sd := mkSessionCreate "slept better" 1700000100 None in
  let ep := episode_node Sample.env_ok "Therapy Session 2"
                         "Session 2 for Alice: slept better" "u1" 1700000100
                         Sample.two_users in
  let r := http_post_sessions "u1" sd Sample.env_ok w in
  fst r = Content 201 (mkSessionResponse "u1_session_2" 2 1700000100
                                         "uuid-episode"
                                         "Session 2 added successfully")
  /\ users_of "u1" (graph (snd r)) = [Sample.alice]
  /\ sessions_of "u1" (graph (snd r)) = [Sample.session1; ep]
  /\ has_session (graph (snd r)) Sample.alice ep = true.
Proof.
  apply (post_session_for_existing_user
           Sample.env_ok (Sample.world_of Sample.two_users) "u1"
           (mkSessionCreate "slept better" 1700000100 None)
           Sample.alice Sample.alice []);
    [intros s; reflexivity|reflexivity|reflexivity].
Defined.

Lemma sessions_of_add_user (env : Env) (nm user_id other : string) (g : Graph) :
  sessions_of other (add_node (fresh_user env nm user_id g) g)
  = sessions_of other g.
Proof.
  unfold sessions_of, add_node. cbn [nodes]. rewrite filter_app.
  cbn. apply app_nil_r.
Qed.

(** X17.  A first session creates the user: for an identifier whose
    partition holds no entity, POST sessions (nothing failing) stores a User
    entity named "User_<user_id>", then one session whose text is headed
    "Session <number> for User_<user_id>: ", links the session to the new
    user, and replies 201 with the number used. *)
Theorem post_session_creates_user (env : Env) (w : World) (user_id : string)
    (sd : SessionCreate) :
  healthy env ->
  entities_of user_id (graph w) = [] ->
  let un := fresh_user env ("User_" ++ user_id) user_id (graph w) in
  let k := number_used sd user_id (graph w) in
  let ep := episode_node env ("Therapy Session " ++ str_int k)
                         (episode_text k ("User_" ++ user_id)
                                       (sc_session_summary sd))
                         user_id (sc_session_date sd)
                         (add_node un (graph w)) in
  let r := http_post_sessions user_id sd env w in
  fst r = Content 201 (session_response env user_id sd k)
  /\ users_of user_id (graph (snd r)) = [un]
  /\ sessions_of user_id (graph (snd r))
     = (sessions_of user_id (graph w) ++ [ep])%list
  /\ has_session (graph (snd r)) un ep = true.
Proof.
  intros H He. cbv zeta.
  set (un := fresh_user env ("User_" ++ user_id) user_id (graph w)).
  set (w0 := mkWorld (graph w) (SessionFindUser :: trace w) (logs w)).
  assert (Hq : find_user_query user_id ("User_" ++ user_id) (graph w) = [])
    by now apply no_entity_no_match.
  assert (Hu : users_of user_id (graph w) = [])
    by now apply (no_match_no_user _ ("User_" ++ user_id)).
  pose proof (create_or_get_absent env w0 ("User_" ++ user_id) user_id
                (H FindUserLookup) (H GenerateEmbedding) (H SaveUserNode) Hq)
    as C.
  cbn [w0 graph trace logs] in C. fold un in C.
  set (w1 := mkWorld (add_node un (graph w))
                     (SaveUserNode :: GenerateEmbedding :: FindUserLookup
                        :: SessionFindUser :: trace w) (logs w)) in *.
  destruct (create_session_tail env w1 user_id sd un
              (conj (H SessionCountQuery) (H AddEpisode))) as (w2 & E & Hg & _).
  cbv zeta in E, Hg. cbn [w1 graph] in Hg.
  assert (Hk : number_used sd user_id (add_node un (graph w))
               = number_used sd user_id (graph w)).
  { unfold number_used. subst un. now rewrite sessions_of_add_user. }
  cbn [w1 graph] in E. rewrite Hk in E, Hg.
  change (name un) with ("User_" ++ user_id) in E, Hg.
  assert (Er : sessions.create_session user_id sd env w
               = (inr (session_response env user_id sd
                                        (number_used sd user_id (graph w)),
                       link_sessions_to_user un user_id), w2)).
  { unfold sessions.create_session, try_except.
    rewrite bind_run, backend_run, (H SessionFindUser).
    unfold reads. cbn iota beta.
    rewrite sessions_find_user_query_users, Hu. cbn [firstn].
    rewrite bind_run. unfold UserService.create_or_get_user.
    fold w0. rewrite C.
    cbv beta iota zeta delta [ret]. cbv beta iota zeta delta [ret] in E.
    change (name un) with ("User_" ++ user_id).
    rewrite E. reflexivity. }
  rewrite (http_post_sessions_run env w w2 user_id sd _ un Er). cbn [fst snd].
  destruct (add_episode_stores env
              ("Therapy Session " ++ str_int (number_used sd user_id (graph w)))
              (episode_text (number_used sd user_id (graph w))
                            ("User_" ++ user_id) (sc_session_summary sd))
              user_id (sc_session_date sd) (add_node un (graph w)))
    as (_ & S1 & S2 & S3 & S4).
  cbv zeta in S1, S2, S3, S4. rewrite <- Hg in S1, S2, S3, S4.
  assert (Hin : In un (nodes (graph w2))).
  { apply S3. cbn [add_node nodes]. apply in_or_app. right. now left. }
  destruct (link_sessions_links env w2 un
              (episode_node env
                 ("Therapy Session " ++ str_int (number_used sd user_id (graph w)))
                 (episode_text (number_used sd user_id (graph w))
                               ("User_" ++ user_id) (sc_session_summary sd))
                 user_id (sc_session_date sd) (add_node un (graph w)))
              user_id (H LinkQuery) Hin eq_refl)
    as [Hn Hs].
  { rewrite S1. apply in_or_app. right. now left. }
  cbv zeta in Hn, Hs.
  split; [reflexivity|].
  unfold users_of, sessions_of in *. rewrite Hn.
  split.
  - rewrite S2. subst un.
    pose proof (users_of_add_user env ("User_" ++ user_id) user_id (graph w))
      as X.
    unfold users_of in X. rewrite X, Hu. reflexivity.
  - split; [|exact Hs].
    rewrite S1. subst un.
    pose proof (sessions_of_add_user env ("User_" ++ user_id) user_id user_id
                                     (graph w)) as X.
    unfold sessions_of in X. now rewrite X.
Qed.

Lemma post_session_creates_user_witness :
  let w := Sample.world_of Store.empty in
  let sd := mkSessionCreate "slept badly" 1700000000 None in
  let un := fresh_user Sample.env_ok "User_u9" "u9" Store.empty in
  let ep := episode_node Sample.env_ok "Therapy Session 1"
                         "Session 1 for User_u9: slept badly" "u9" 1700000000
                         (add_node un Store.empty) in
  let r := http_post_sessions "u9" sd Sample.env_ok w in
  fst r = Content 201 (mkSessionResponse "u9_session_1" 1 1700000000
                                         "uuid-episode"
                                         "Session 1 added successfully")
  /\ users_of "u9" (graph (snd r)) = [un]
  /\ sessions_of "u9" (graph (snd r)) = [ep]
  /\ has_session (graph (snd r)) un ep = true.
Proof.
  apply (post_session_creates_user
           Sample.env_ok (Sample.world_of Store.empty) "u9"
           (mkSessionCreate "slept badly" 1700000000 None));
    [intros s; reflexivity|reflexivity].
Defined.




(** X26.  Linking is best effort: for a user who exists, when everything
    succeeds but the link query run in the background raises, POST sessions
    still replies 201 with the session's number; the store is the one the
    episode submission left, so the session is stored and no ownership link
    is created; and the failure shows only as a warning in the log. *)
Theorem post_session_link_failure_is_silent (env : Env) (w : World)
    (user_id : string) (sd : SessionCreate) (u n : Node) (rest : list Node)
    (msg : string) :
  fault env SessionFindUser = None ->
  fault env SessionGetByUuid = None ->
  recording_ok env ->
  fault env LinkQuery = Some msg ->
  users_of user_id (graph w) = u :: rest ->
  get_by_uuid_query (uuid u) (graph w) = Some n ->
  let k := number_used sd user_id (graph w) in
  let ep := episode_node env ("Therapy Session " ++ str_int k)
                         (episode_text k (name n) (sc_session_summary sd))
                         user_id (sc_session_date sd) (graph w) in
  let r := http_post_sessions user_id sd env w in
  fst r = Content 201 (session_response env user_id sd k)
  /\ graph (snd r)
     = snd (add_episode env ("Therapy Session " ++ str_int k)
                        (episode_text k (name n) (sc_session_summary sd))
                        user_id (sc_session_date sd) (graph w))
  /\ sessions_of user_id (graph (snd r))
     = (sessions_of user_id (graph w) ++ [ep])%list
  /\ (forall a b, links_between a b (graph (snd r))
                  = links_between a b (graph w))
  /\ logs (snd r)
     = (WARNING, "Could not create HAS_SESSION relationships: " ++ msg)
         :: logs w.
Proof.
  intros F1 F2 Hrec Fl Hu G. cbv zeta.
  set (w1 := mkWorld (graph w) (SessionGetByUuid :: SessionFindUser :: trace w)
                     (logs w)).
  destruct (create_session_tail env w1 user_id sd n Hrec) as (w2 & E & Hg & Hl).
  cbv zeta in E, Hg. cbn [w1 graph logs] in Hg, Hl.
  assert (Er : sessions.create_session user_id sd env w
               = (inr (session_response env user_id sd
                                        (number_used sd user_id (graph w)),
                       link_sessions_to_user n user_id), w2)).
  { unfold sessions.create_session, try_except.
    rewrite bind_run, backend_run, F1.
    unfold reads. cbn iota beta.
    rewrite sessions_find_user_query_users, Hu. cbn [firstn].
    rewrite bind_run. unfold get_by_uuid.
    rewrite bind_run, backend_run, F2.
    unfold reads. cbn iota beta. cbn [graph]. rewrite G.
    cbn [graph trace logs]. fold w1.
    cbv beta iota zeta delta [ret]. cbv beta iota zeta delta [ret] in E.
    rewrite E. reflexivity. }
  rewrite (http_post_sessions_run env w w2 user_id sd _ n Er). cbn [fst snd].
  assert (L : link_sessions_to_user n user_id env w2
              = (inr 0,
                 mkWorld (graph w2) (LinkQuery :: trace w2)
                         ((WARNING,
                           "Could not create HAS_SESSION relationships: " ++ msg)
                            :: logs w2))).
  { unfold link_sessions_to_user. unfold_m. rewrite Fl. reflexivity. }
  rewrite L. cbn [snd graph logs]. rewrite Hg, Hl.
  split; [reflexivity|]. split; [reflexivity|].
  split.
  { apply (add_episode_stores env
             ("Therapy Session " ++ str_int (number_used sd user_id (graph w)))
             (episode_text (number_used sd user_id (graph w)) (name n)
                           (sc_session_summary sd))
             user_id (sc_session_date sd) (graph w)). }
  split; [|reflexivity].
  intros a b. apply links_between_add_episode.
Qed.

Lemma post_session_link_failure_is_silent_witness :
  let env := Sample.failing LinkQuery "timeout" Sample.env_ok in
  let w := Sample.world_of Sample.two_users in
  let sd := mkSessionCreate "slept better" 1700000100 None in
  let ep := episode_node env "Therapy Session 2"
                         "Session 2 for Alice: slept better" "u1" 1700000100
                         Sample.two_users in
  let r := http_post_sessions "u1" sd env w in
  fst r = Content 201 (mkSessionResponse "u1_session_2" 2 1700000100
                                         "uuid-episode"
                                         "Session 2 added successfully")
  /\ graph (snd r)
     = snd (add_episode env "Therapy Session 2"
                        "Session 2 for Alice: slept better" "u1" 1700000100
                        Sample.two_users)
  /\ sessions_of "u1" (graph (snd r)) = [Sample.session1; ep]
  /\ (forall a b, links_between a b (graph (snd r))
                  = links_between a b Sample.two_users)
  /\ logs (snd r)
     = [(WARNING, "Could not create HAS_SESSION relationships: timeout")].
Proof.
  apply (post_session_link_failure_is_silent
           (Sample.failing LinkQuery "timeout" Sample.env_ok)
           (Sample.world_of Sample.two_users) "u1"
           (mkSessionCreate "slept better" 1700000100 None)
           Sample.alice Sample.alice [] "timeout");
    try reflexivity.
  split; reflexivity.
Defined.

(** ** POST /api/v1/profile/search/center-node *)

(** X18.  The search with a centre node only reads: its single backend
    call is the engine search and the store is left as it is.  When the
    engine does not fail it replies 200 with the engine's edges in the
    engine's order and their number as count; the centre is handed to the
    engine unless it is the empty string, and with an empty centre the reply
    is that of the plain profile search for the same query. *)
Theorem search_with_center_node_replies (env : Env) (w : World)
    (q : CenterNodeQuery) :
  let r := http_post_profile_search_center_node q env w in
  let center := if String.eqb (cq_center_node_uuid q) "" then None
                else Some (cq_center_node_uuid q) in
  graph (snd r) = graph w
  /\ trace (snd r) = EngineSearch :: trace w
  /\ (fault env EngineSearch = None ->
      let results :=
        map profile_result
            (engine_search env (cq_query q) center None (graph w)) in
      fst r = Content 200 (mkProfileQueryResponse (cq_query q) results
                                                  (length results)))
  /\ (cq_center_node_uuid q = "" ->
      fst r = fst (http_post_profile_search
                     (mkProfileQuery (cq_query q) (cq_user_id q)) env w)).
Proof.
  cbv zeta.
  unfold http_post_profile_search_center_node, http_post_profile_search, serve,
    profile.search_with_center_node, profile.search_profile,
    ProfileService.search_profile, try_except.
  unfold_m. cbn [pq_query pq_user_id].
  destruct (String.eqb (cq_center_node_uuid q) "") eqn:E;
    destruct (fault env EngineSearch) as [m|]; cbn;
    (split; [reflexivity|]); (split; [reflexivity|]);
    (split; [try discriminate; reflexivity|]);
    intros Hc; try reflexivity;
    rewrite Hc in E; discriminate.
Qed.

Lemma search_with_center_node_replies_witness :
  let w := Sample.after_session_of_u2 in
  fst (http_post_profile_search_center_node
         (mkCenterNodeQuery "fear" "" "u1") Sample.env_ok w)
  = fst (http_post_profile_search (mkProfileQuery "fear" "u1") Sample.env_ok w).
Proof.
  intros w.
  apply (search_with_center_node_replies Sample.env_ok w
           (mkCenterNodeQuery "fear" "" "u1")).
  reflexivity.
Defined.

(** ** The connection holders, the lifespan and the health check *)

Import Lifecycle.

(** X19.  One shared client of each kind: after a startup that succeeded,
    both holders are filled; get_graphiti and get_driver return the clients
    the startup made, whatever would fail now, and construct nothing; and
    the health check replies 200 without touching the process. *)
Theorem clients_are_reused (f f' : Faults) (p p1 : Process) :
  lifespan_startup f p = (inr tt, p1) ->
  exists g d,
    _graphiti p1 = Some g
    /\ _driver p1 = Some d
    /\ GraphitiManager.get_graphiti f' p1 = (inr g, p1)
    /\ Neo4jDriver.get_driver f' p1 = (inr d, p1)
    /\ health_check f' p1 = ((200, Healthy), p1).
Proof.
  unfold lifespan_startup, GraphitiManager.initialize, Neo4jDriver.get_driver.
  intros H.
  assert (E : exists g d, _graphiti p1 = Some g /\ _driver p1 = Some d).
  { destruct (_graphiti p) as [g|] eqn:G.
    - destruct (_driver p) as [d|] eqn:D.
      + injection H as <-. eauto.
      + destruct (f NewNeo4jDriver); [discriminate|].
        injection H as <-. cbn. eauto.
    - destruct (f NewOpenAIClient); [discriminate|].
      destruct (f NewGraphiti); [discriminate|].
      cbn [_driver made] in H.
      destruct (_driver p) as [d|] eqn:D.
      + injection H as <-. cbn. eauto.
      + destruct (f NewNeo4jDriver); [discriminate|].
        injection H as <-. cbn. eauto. }
  destruct E as (g & d & G & D). exists g, d.
  unfold health_check, GraphitiManager.get_graphiti, Neo4jDriver.get_driver.
  rewrite G, D. auto.
Qed.

Lemma clients_are_reused_witness :
  exists g d p1,
    lifespan_startup no_fault fresh = (inr tt, p1)
    /\ GraphitiManager.get_graphiti (only NewGraphiti "no route") p1 = (inr g, p1)
    /\ Neo4jDriver.get_driver (only NewNeo4jDriver "no route") p1 = (inr d, p1)
    /\ made p1 = 3.
Proof.
  destruct (clients_are_reused no_fault (only NewGraphiti "no route") fresh _
                               eq_refl)
    as (g & d & _ & _ & Hg & _).
  destruct (clients_are_reused no_fault (only NewNeo4jDriver "no route") fresh _
                               eq_refl)
    as (g' & d' & _ & _ & _ & Hd & _).
  exists g, d'. eexists. split; [reflexivity|].
  split; [exact Hg|]. split; [exact Hd|reflexivity].
Defined.

(** X20.  Closing the Neo4j driver never raises and always empties the
    holder, also when the close call of the library raises, which is logged
    as a warning; no client is constructed by closing; and the next
    get_driver constructs a new client, one more than were made before. *)
Theorem driver_close_then_get (f f' : Faults) (p : Process) :
  let r := Neo4jDriver.close f p in
  fst r = inr tt
  /\ _driver (snd r) = None
  /\ made (snd r) = made p
  /\ (forall d msg,
         _driver p = Some d -> f CloseNeo4jDriver = Some msg ->
         records (snd r)
         = (Warning, "Error closing Neo4j driver: " ++ msg) :: records p)
  /\ (f' NewNeo4jDriver = None ->
      exists p',
        Neo4jDriver.get_driver f' (snd r) = (inr (made p), p')
        /\ _driver p' = Some (made p)
        /\ made p' = S (made p)).
Proof.
  cbv zeta. unfold Neo4jDriver.close.
  destruct (_driver p) as [d|] eqn:D.
  - cbn [fst snd _driver made].
    split; [reflexivity|]. split; [reflexivity|].
    split; [destruct (f CloseNeo4jDriver); reflexivity|].
    split.
    + intros d' msg _ ->. reflexivity.
    + intros F. unfold Neo4jDriver.get_driver. cbn [_driver]. rewrite F.
      destruct (f CloseNeo4jDriver);
        (eexists; split; [reflexivity|split; reflexivity]).
  - cbn [fst snd]. split; [reflexivity|]. split; [exact D|].
    split; [reflexivity|]. split; [intros d msg H; congruence|].
    intros F. unfold Neo4jDriver.get_driver. rewrite D, F.
    eexists. split; [reflexivity|]. split; reflexivity.
Qed.

Lemma driver_close_then_get_witness :
  let p := snd (lifespan_startup no_fault fresh) in
  let r := Neo4jDriver.close (only CloseNeo4jDriver "broken pipe") p in
  _driver p = Some 2
  /\ _driver (snd r) = None
  /\ records (snd r) = [(Warning, "Error closing Neo4j driver: broken pipe")]
  /\ exists p', Neo4jDriver.get_driver no_fault (snd r) = (inr 3, p').
Proof.
  intros p r. split; [reflexivity|].
  destruct (driver_close_then_get (only CloseNeo4jDriver "broken pipe")
                                  no_fault p)
    as (_ & H2 & _ & H4 & H5).
  split; [exact H2|]. split; [exact (H4 2 "broken pipe" eq_refl eq_refl)|].
  destruct (H5 eq_refl) as (p' & E & _). exists p'. exact E.
Defined.

(** X21.  Closing Graphiti is not guarded: when the close call of the
    library raises, GraphitiManager.close raises the same exception and the
    holder keeps the client, which later calls of get_graphiti return again;
    when it does not raise, the holder is emptied and the next get_graphiti
    constructs a new OpenAI client and a new Graphiti client. *)
Theorem graphiti_close_failure_keeps_client (f f' : Faults) (p : Process)
    (c : nat) :
  _graphiti p = Some c ->
  let r := GraphitiManager.close f p in
  (forall msg,
      f CloseGraphiti = Some msg ->
      fst r = inl (Exception msg)
      /\ _graphiti (snd r) = Some c
      /\ GraphitiManager.get_graphiti f' (snd r) = (inr c, snd r))
  /\ (f CloseGraphiti = None ->
      fst r = inr tt
      /\ _graphiti (snd r) = None
      /\ (f' NewOpenAIClient = None -> f' NewGraphiti = None ->
          exists p',
            GraphitiManager.get_graphiti f' (snd r) = (inr (S (made p)), p')
            /\ _graphiti p' = Some (S (made p))
            /\ _openai_client p' = Some (made p)
            /\ made p' = S (S (made p)))).
Proof.
  intros G. cbv zeta. unfold GraphitiManager.close. rewrite G.
  split.
  - intros msg ->. cbn [fst snd]. split; [reflexivity|].
    unfold GraphitiManager.get_graphiti. cbn [called _graphiti]. rewrite G.
    split; reflexivity.
  - intros ->. cbn [fst snd _graphiti]. split; [reflexivity|].
    split; [reflexivity|]. intros F1 F2.
    unfold GraphitiManager.get_graphiti, GraphitiManager.initialize.
    cbn [_graphiti]. rewrite F1, F2. cbn.
    eexists. split; [reflexivity|]. repeat split.
Qed.

Lemma graphiti_close_failure_keeps_client_witness :
  let p := snd (lifespan_startup no_fault fresh) in
  let r := GraphitiManager.close (only CloseGraphiti "broken pipe") p in
  fst r = inl (Exception "broken pipe")
  /\ _graphiti (snd r) = Some 1
  /\ GraphitiManager.get_graphiti no_fault (snd r) = (inr 1, snd r).
Proof.
  intros p r.
  apply (proj1 (graphiti_close_failure_keeps_client
                  (only CloseGraphiti "broken pipe") no_fault p 1 eq_refl)
               "broken pipe" eq_refl).
Defined.

(** X22.  The shutdown never raises and closes Graphiti first, then the
    Neo4j driver, each if its holder is filled and the second also when the
    first raised; afterwards the holder of the driver is empty, and the
    holder of Graphiti is empty unless its close raised. *)
Theorem lifespan_shutdown_closes_both (f : Faults) (p : Process) :
  let r := lifespan_shutdown f p in
  fst r = inr tt
  /\ _driver (snd r) = None
  /\ _graphiti (snd r)
     = match _graphiti p, f CloseGraphiti with
       | Some c, Some _ => Some c
       | _, _ => None
       end
  /\ calls (snd r)
     = ((match _driver p with Some _ => [CloseNeo4jDriver] | None => [] end)
        ++ (match _graphiti p with Some _ => [CloseGraphiti] | None => [] end)
        ++ calls p)%list.
Proof.
  cbv zeta.
  unfold lifespan_shutdown, GraphitiManager.close, Neo4jDriver.close.
  destruct (_graphiti p) as [c|] eqn:G;
    [destruct (f CloseGraphiti) as [m|]|];
    cbn [logged called _driver _graphiti calls];
    destruct (_driver p) as [d|] eqn:D;
    try (destruct (f CloseNeo4jDriver) as [m'|]);
    cbn; rewrite ?G, ?D; repeat split; reflexivity.
Qed.

(** X23.  The replies of the health check, case by case.  It replies 200
    when each holder is filled or can be filled: it constructs the clients
    that are missing, keeps those that are there and logs nothing.  It
    replies 503 with the message of the exception, logged as an error, when
    a holder is empty and the construction of its client raises: for the
    OpenAI client or Graphiti nothing more is constructed and the driver is
    not asked for; for the Neo4j driver the holder of Graphiti has been
    filled and stays so. *)
Theorem health_check_replies (f : Faults) (p : Process) :
  let r := health_check f p in
  let engine :=
    _graphiti p <> None
    \/ (f NewOpenAIClient = None /\ f NewGraphiti = None) in
  (engine -> _driver p <> None \/ f NewNeo4jDriver = None ->
   fst r = (200, Healthy)
   /\ _graphiti (snd r) <> None /\ _driver (snd r) <> None
   /\ (forall c, _graphiti p = Some c -> _graphiti (snd r) = Some c)
   /\ (forall d, _driver p = Some d -> _driver (snd r) = Some d)
   /\ records (snd r) = records p)
  /\ (forall msg,
         _graphiti p = None -> f NewOpenAIClient = Some msg ->
         fst r = (503, Unhealthy msg)
         /\ records (snd r) = (Error, "Health check failed: " ++ msg) :: records p
         /\ calls (snd r) = NewOpenAIClient :: calls p
         /\ _graphiti (snd r) = None /\ _driver (snd r) = _driver p)
  /\ (forall msg,
         _graphiti p = None -> f NewOpenAIClient = None ->
         f NewGraphiti = Some msg ->
         fst r = (503, Unhealthy msg)
         /\ records (snd r) = (Error, "Health check failed: " ++ msg) :: records p
         /\ calls (snd r) = NewGraphiti :: NewOpenAIClient :: calls p
         /\ _graphiti (snd r) = None /\ _driver (snd r) = _driver p)
  /\ (forall msg,
         engine -> _driver p = None -> f NewNeo4jDriver = Some msg ->
         fst r = (503, Unhealthy msg)
         /\ records (snd r) = (Error, "Health check failed: " ++ msg) :: records p
         /\ _graphiti (snd r) <> None /\ _driver (snd r) = None).
Proof.
  cbv zeta.
  unfold health_check, GraphitiManager.get_graphiti, GraphitiManager.initialize,
    Neo4jDriver.get_driver.
  split; [|split; [|split]].
  - intros He Hd.
    destruct (_graphiti p) as [c|] eqn:G.
    + destruct (_driver p) as [d|] eqn:D.
      * cbn. rewrite ?G, ?D. repeat split; auto; discriminate.
      * destruct Hd as [Hd|Hd]; [now contradiction Hd|]. rewrite Hd.
        cbn. rewrite ?G. repeat split; auto; discriminate.
    + destruct He as [He|[H1 H2]]; [now contradiction He|].
      rewrite H1, H2. cbn [_driver made].
      destruct (_driver p) as [d|] eqn:D.
      * cbn. rewrite ?D. repeat split; auto; discriminate.
      * destruct Hd as [Hd|Hd]; [now contradiction Hd|]. rewrite Hd.
        cbn. repeat split; auto; discriminate.
  - intros msg G F. rewrite G, F. cbn. rewrite ?G. repeat split.
  - intros msg G F1 F2. rewrite G, F1, F2. cbn. repeat split.
  - intros msg He D F.
    destruct (_graphiti p) as [c|] eqn:G.
    + rewrite D, F. cbn. rewrite ?G, ?D. repeat split. discriminate.
    + destruct He as [He|[H1 H2]]; [now contradiction He|].
      rewrite H1, H2. cbn [_driver made]. rewrite D, F. cbn.
      repeat split. discriminate.
Qed.

Lemma health_check_replies_witness :
  let r := health_check (only NewNeo4jDriver "refused") fresh in
  let r' := health_check no_fault (snd r) in
  (fst r = (503, Unhealthy "refused")
   /\ records (snd r) = [(Error, "Health check failed: refused")]
   /\ _graphiti (snd r) <> None /\ _driver (snd r) = None)
  /\ (fst r' = (200, Healthy)
      /\ _graphiti (snd r') <> None /\ _driver (snd r') <> None
      /\ (forall c, _graphiti (snd r) = Some c -> _graphiti (snd r') = Some c)
      /\ (forall d, _driver (snd r) = Some d -> _driver (snd r') = Some d)
      /\ records (snd r') = records (snd r)).
Proof.
  split.
  - apply (proj2 (proj2 (proj2 (health_check_replies
                                  (only NewNeo4jDriver "refused") fresh)))
             "refused");
      [right; split; reflexivity|reflexivity|reflexivity].
  - apply (proj1 (health_check_replies
                    no_fault
                    (snd (health_check (only NewNeo4jDriver "refused") fresh))));
      [left; discriminate|right; reflexivity].
Defined.

(** X24.  A startup that fails on Graphiti: with the holder of Graphiti
    empty and the OpenAI client constructed, a constructor of Graphiti that
    raises makes the startup log a critical record and raise the same
    exception; the Neo4j driver is not asked for and its holder is left as
    it was; the holder of Graphiti stays empty while the OpenAI client that
    was constructed stays stored, and a second initialize constructs another
    one. *)
Theorem lifespan_startup_failure (f f' : Faults) (p : Process) (msg : string) :
  _graphiti p = None ->
  f NewOpenAIClient = None ->
  f NewGraphiti = Some msg ->
  let r := lifespan_startup f p in
  fst r = inl (Exception msg)
  /\ records (snd r) = (Critical, "Failed to start application: " ++ msg)
                         :: records p
  /\ calls (snd r) = NewGraphiti :: NewOpenAIClient :: calls p
  /\ _driver (snd r) = _driver p
  /\ _graphiti (snd r) = None
  /\ _openai_client (snd r) = Some (made p)
  /\ (f' NewOpenAIClient = None -> f' NewGraphiti = None ->
      exists p',
        GraphitiManager.initialize f' (snd r) = (inr (S (S (made p))), p')
        /\ _openai_client p' = Some (S (made p))).
Proof.
  intros G F1 F2. cbv zeta.
  unfold lifespan_startup, GraphitiManager.initialize. rewrite G, F1, F2.
  cbn. repeat split.
  intros F1' F2'. rewrite F1', F2'. eexists. split; reflexivity.
Qed.

Lemma lifespan_startup_failure_witness :
  let r := lifespan_startup (only NewGraphiti "no route") fresh in
  fst r = inl (Exception "no route")
  /\ records (snd r) = [(Critical, "Failed to start application: no route")]
  /\ calls (snd r) = [NewGraphiti; NewOpenAIClient]
  /\ _driver (snd r) = None
  /\ _graphiti (snd r) = None
  /\ _openai_client (snd r) = Some 0
  /\ (no_fault NewOpenAIClient = None -> no_fault NewGraphiti = None ->
      exists p',
        GraphitiManager.initialize no_fault (snd r) = (inr 2, p')
        /\ _openai_client p' = Some 1).
Proof.
  apply (lifespan_startup_failure (only NewGraphiti "no route") no_fault fresh
                                  "no route");
    reflexivity.
Defined.
